(** * BeMyNet API: commission split and payment settlement

    A shallow embedding of the commission calculators, the sale routes and
    the Stripe webhook handlers of the repository, in both of its
    applications: the FastAPI one ([app/routers], [app/utils/stripe.py]) and
    the Flask one ([app/routes], [app/utils/stripe_utils.py]).  They share
    the database schema of [init_database.py]. *)

From Stdlib Require Import ZArith QArith Qpower Qfield List String Bool Lia Lqa.
From Stdlib Require Import Permutation.
Import ListNotations.
Open Scope Z_scope.

(** ** Python's [decimal.Decimal] under the default context

    A finite decimal is a signed coefficient and an exponent; its value is
    [coef * 10 ^ expo].  The default context rounds every arithmetic result
    to 28 significant digits with ROUND_HALF_EVEN.  The sign of a zero and
    the exponent limits (Emax, Emin) are not tracked. *)
Module Dec.

Record t : Type := mk { coef : Z; expo : Z }.

Definition prec : Z := 28.

(** The rational a decimal denotes. *)
Definition toQ (d : t) : Q := (inject_Z (coef d) * inject_Z 10 ^ expo d)%Q.

(** [Decimal(n)] for an [int], [Decimal('0.0')] and the other literals. *)
Definition of_Z (n : Z) : t := mk n 0.
Definition zero_1 : t := mk 0 (-1).          (* Decimal('0.0') *)
Definition zero_0 : t := mk 0 0.             (* Decimal('0')   *)

(** Truth value of a decimal: zero is false. *)
Definition truthy (d : t) : bool := negb (coef d =? 0).

(** Number of decimal digits of [n] (at least 1). *)
Fixpoint ndigits_fuel (fuel : nat) (n : Z) : Z :=
  match fuel with
  | O => 1
  | S f => if n <? 10 then 1 else 1 + ndigits_fuel f (n / 10)
  end.

Definition ndigits (n : Z) : Z :=
  ndigits_fuel (S (Z.to_nat (Z.log2 (Z.abs n)))) (Z.abs n).

(** [n / 10^k] rounded to the nearest integer, ties to even. *)
Definition round_half_even (n k : Z) : Z :=
  let p := 10 ^ k in
  let q := Z.abs n / p in
  let r := Z.abs n mod p in
  let q' := if 2 * r <? p then q
            else if 2 * r =? p then (if Z.even q then q else q + 1)
            else q + 1 in
  Z.sgn n * q'.

(** [Decimal._fix]: round a result to the context precision. *)
Definition fix_prec (d : t) : t :=
  if Z.abs (coef d) <? 10 ^ prec then d
  else
    let k := ndigits (coef d) - prec in
    let c := round_half_even (coef d) k in
    if Z.abs c =? 10 ^ prec then mk (c / 10) (expo d + k + 1)
    else mk c (expo d + k).

(** The coefficient of [d] written at the exponent [e <= expo d]. *)
Definition shift_to (d : t) (e : Z) : Z := coef d * 10 ^ (expo d - e).

Definition neg (d : t) : t := mk (- coef d) (expo d).

(** [a + b]: align on the smaller exponent, add, round to the context. *)
Definition add_raw (a b : t) : t :=
  let e := Z.min (expo a) (expo b) in
  mk (shift_to a e + shift_to b e) e.
Definition add (a b : t) : t := fix_prec (add_raw a b).

(** [a - b] is [a + (-b)], as [Decimal.__sub__] is written. *)
Definition sub (a b : t) : t := add a (neg b).

(** [a * b]: multiply coefficients, add exponents, round to the context. *)
Definition mul_raw (a b : t) : t := mk (coef a * coef b) (expo a + expo b).
Definition mul (a b : t) : t := fix_prec (mul_raw a b).

(** [d / 100].  The quotient is exact; the division strips trailing zeros
    of the coefficient while the exponent is below the ideal one, [expo d]. *)
Definition div_100 (d : t) : t :=
  let c := coef d in
  fix_prec (if c mod 100 =? 0 then mk (c / 100) (expo d)
       else if c mod 10 =? 0 then mk (c / 10) (expo d - 1)
       else mk c (expo d - 2)).

(** [d.quantize(Decimal('0.01'))]: rescale to two places with
    ROUND_HALF_EVEN; [None] stands for [InvalidOperation], raised when the
    result has more digits than the precision. *)
Definition quantize_cents (d : t) : option t :=
  let r := if -2 <=? expo d
           then mk (coef d * 10 ^ (expo d + 2)) (-2)
           else mk (round_half_even (coef d) (- 2 - expo d)) (-2) in
  if Z.abs (coef r) <? 10 ^ prec then Some r else None.

(** [x or Decimal('0.0')] on an optional decimal. *)
Definition or_zero (x : option t) : t :=
  match x with
  | Some d => if truthy d then d else zero_1
  | None => zero_1
  end.

(** [int(d)]: the integer part, truncated towards zero. *)
Definition to_int (d : t) : Z :=
  if 0 <=? expo d then coef d * 10 ^ expo d
  else Z.quot (coef d) (10 ^ (- expo d)).

(** The value fits a NUMERIC(10,2) column: rounded to two places, ties away
    from zero, it stays below [10^8], which is [|d| < 10^8 - 0.005]. *)
Definition fits_numeric_10_2 (d : t) : bool :=
  if -3 <=? expo d
  then Z.abs (coef d) * 10 ^ (expo d + 3) <? 10 ^ 11 - 5
  else Z.abs (coef d) <? (10 ^ 11 - 5) * 10 ^ (- 3 - expo d).

(** Values below [10^N] in magnitude with at most [E] decimal places. *)
Definition bounded (N E : Z) (d : t) : Prop :=
  - E <= expo d /\ Z.abs (coef d) * 10 ^ (expo d + E) < 10 ^ (N + E).

End Dec.


Local Open Scope string_scope.
Local Open Scope Z_scope.

(** ** The schema ([init_database.py], [app/models])

    One module per table, with the columns the sale and settlement code
    reads or writes (the free text [description] of a sale is left out;
    times are numbers).  Rows hold the values the handlers write: the
    rounding of a value to the scale of its column and the length of strings
    are outside the model.  The foreign keys of [ventes] and [affiliations]
    are modelled ([fk_vente], [fk_affiliation]), and so is the overflow of
    the NUMERIC(10,2) columns where the FastAPI [create_sale] commits
    ([db_commit_numeric]). *)

Inductive StatutPaiement : Type := Paye | EnAttente | Rembourse.

Module User.
Record t : Type := mk {
  id : Z;
  role : string;
  stripe_account_id : option string;
  payout_enabled : bool;
  kyc_status : option string;
  total_revenue : option Dec.t }.
Definition set_total_revenue (u : t) (x : option Dec.t) : t :=
  mk (id u) (role u) (stripe_account_id u) (payout_enabled u) (kyc_status u) x.
Definition set_payout_enabled (u : t) (x : bool) : t :=
  mk (id u) (role u) (stripe_account_id u) x (kyc_status u) (total_revenue u).
Definition set_kyc_status (u : t) (x : option string) : t :=
  mk (id u) (role u) (stripe_account_id u) (payout_enabled u) x (total_revenue u).
End User.

Module Client.
Record t : Type := mk {
  id : Z;
  lifetime_value : option Dec.t;
  last_purchase_date : option Z }.
Definition set_lifetime_value (c : t) (x : option Dec.t) : t :=
  mk (id c) x (last_purchase_date c).
Definition set_last_purchase_date (c : t) (x : option Z) : t :=
  mk (id c) (lifetime_value c) x.
End Client.

Module Produit.
Record t : Type := mk { id : Z; nom : string; actif : bool }.
End Produit.

Module Commercial.
Record t : Type := mk { id : Z; pourcentage : option Dec.t }.
End Commercial.

Module Partenaire.
Record t : Type := mk { id : Z; pourcentage : option Dec.t }.
End Partenaire.

Module Vente.
Record t : Type := mk {
  id : Z;
  user_id : option Z;
  client_id : option Z;
  produit_id : option Z;
  montant : Dec.t;
  discount_applied : Dec.t;
  date : Z;
  source : option string;
  commission_plateforme : Dec.t;
  commission_commerciale : Dec.t;
  commission_partenaire : Dec.t;
  montant_net_freelance : Dec.t;
  commercial_id : option Z;
  partenaire_id : option Z;
  stripe_payment_id : option string;
  statut_paiement : option StatutPaiement;
  feedback : option string;
  invoice_id : option Z }.
Definition set_id (v : t) (x : Z) : t :=
  mk x (user_id v) (client_id v) (produit_id v) (montant v)
     (discount_applied v) (date v) (source v)
     (commission_plateforme v) (commission_commerciale v)
     (commission_partenaire v) (montant_net_freelance v) (commercial_id v)
     (partenaire_id v) (stripe_payment_id v) (statut_paiement v) (feedback v)
     (invoice_id v).
Definition set_statut_paiement (v : t) (x : option StatutPaiement) : t :=
  mk (id v) (user_id v) (client_id v) (produit_id v) (montant v)
     (discount_applied v) (date v) (source v)
     (commission_plateforme v) (commission_commerciale v)
     (commission_partenaire v) (montant_net_freelance v) (commercial_id v)
     (partenaire_id v) (stripe_payment_id v) x (feedback v) (invoice_id v).
Definition set_feedback (v : t) (x : option string) : t :=
  mk (id v) (user_id v) (client_id v) (produit_id v) (montant v)
     (discount_applied v) (date v) (source v)
     (commission_plateforme v) (commission_commerciale v)
     (commission_partenaire v) (montant_net_freelance v) (commercial_id v)
     (partenaire_id v) (stripe_payment_id v) (statut_paiement v) x
     (invoice_id v).
Definition set_stripe_payment_id (v : t) (x : option string) : t :=
  mk (id v) (user_id v) (client_id v) (produit_id v) (montant v)
     (discount_applied v) (date v) (source v)
     (commission_plateforme v) (commission_commerciale v)
     (commission_partenaire v) (montant_net_freelance v) (commercial_id v)
     (partenaire_id v) x (statut_paiement v) (feedback v) (invoice_id v).
Definition set_invoice_id (v : t) (x : option Z) : t :=
  mk (id v) (user_id v) (client_id v) (produit_id v) (montant v)
     (discount_applied v) (date v) (source v)
     (commission_plateforme v) (commission_commerciale v)
     (commission_partenaire v) (montant_net_freelance v) (commercial_id v)
     (partenaire_id v) (stripe_payment_id v) (statut_paiement v) (feedback v)
     x.
End Vente.

Inductive SourceType : Type := SrcCommercial | SrcPartenaire | SrcLien.

Module Affiliation.
Record t : Type := mk {
  id : Z;
  source_type : SourceType;
  source_id : Z;
  vente_id : Z;
  commission : Dec.t }.
End Affiliation.

Record DB : Type := mkDB {
  users : list User.t;
  clients : list Client.t;
  produits : list Produit.t;
  commerciaux : list Commercial.t;
  partenaires : list Partenaire.t;
  devis_factures : list Z;              (* ids of the invoices *)
  ventes : list Vente.t;
  affiliations : list Affiliation.t;
  ventes_id_seq : Z;                    (* next SERIAL value *)
  affiliations_id_seq : Z }.

Definition with_users (d : DB) (x : list User.t) : DB :=
  mkDB x (clients d) (produits d) (commerciaux d) (partenaires d)
       (devis_factures d) (ventes d) (affiliations d) (ventes_id_seq d)
       (affiliations_id_seq d).
Definition with_clients (d : DB) (x : list Client.t) : DB :=
  mkDB (users d) x (produits d) (commerciaux d) (partenaires d)
       (devis_factures d) (ventes d) (affiliations d) (ventes_id_seq d)
       (affiliations_id_seq d).
Definition with_ventes (d : DB) (x : list Vente.t) (seq : Z) : DB :=
  mkDB (users d) (clients d) (produits d) (commerciaux d) (partenaires d)
       (devis_factures d) x (affiliations d) seq (affiliations_id_seq d).
Definition with_affiliations (d : DB) (x : list Affiliation.t) (seq : Z) : DB :=
  mkDB (users d) (clients d) (produits d) (commerciaux d) (partenaires d)
       (devis_factures d) (ventes d) x (ventes_id_seq d) seq.

(** [SELECT ... WHERE id = :id], first row. *)
Definition get_user (d : DB) (i : Z) : option User.t :=
  find (fun u => User.id u =? i) (users d).
Definition get_client (d : DB) (i : Z) : option Client.t :=
  find (fun c => Client.id c =? i) (clients d).
Definition get_produit (d : DB) (i : Z) : option Produit.t :=
  find (fun p => Produit.id p =? i) (produits d).
Definition get_commercial (d : DB) (i : Z) : option Commercial.t :=
  find (fun c => Commercial.id c =? i) (commerciaux d).
Definition get_partenaire (d : DB) (i : Z) : option Partenaire.t :=
  find (fun p => Partenaire.id p =? i) (partenaires d).
Definition get_vente (d : DB) (i : Z) : option Vente.t :=
  find (fun v => Vente.id v =? i) (ventes d).

Definition opt_string_eqb (a : option string) (b : string) : bool :=
  match a with Some x => String.eqb x b | None => false end.

Definition get_vente_by_stripe_payment_id (d : DB) (pid : string)
  : option Vente.t :=
  find (fun v => opt_string_eqb (Vente.stripe_payment_id v) pid) (ventes d).
Definition get_user_by_stripe_account_id (d : DB) (aid : string)
  : option User.t :=
  find (fun u => opt_string_eqb (User.stripe_account_id u) aid) (users d).

(** [UPDATE ... WHERE id = ...]: the row with the same id is replaced. *)
Definition put_user (d : DB) (u : User.t) : DB :=
  with_users d
    (map (fun x => if User.id x =? User.id u then u else x) (users d)).
Definition put_client (d : DB) (c : Client.t) : DB :=
  with_clients d
    (map (fun x => if Client.id x =? Client.id c then c else x) (clients d)).
Definition put_vente (d : DB) (v : Vente.t) : DB :=
  with_ventes d
    (map (fun x => if Vente.id x =? Vente.id v then v else x) (ventes d))
    (ventes_id_seq d).

(** A nullable foreign key: NULL, or the id of a row of the table. *)
Definition fk {A : Type} (get : Z -> option A) (k : option Z) : bool :=
  match k with
  | None => true
  | Some i => match get i with Some _ => true | None => false end
  end.

Definition fk_vente (d : DB) (v : Vente.t) : bool :=
  fk (get_user d) (Vente.user_id v)
  && fk (get_client d) (Vente.client_id v)
  && fk (get_produit d) (Vente.produit_id v)
  && fk (get_commercial d) (Vente.commercial_id v)
  && fk (get_partenaire d) (Vente.partenaire_id v)
  && match Vente.invoice_id v with
     | None => true
     | Some i => existsb (Z.eqb i) (devis_factures d)
     end.

Definition fk_affiliation (d : DB) (a : Affiliation.t) : bool :=
  match get_vente d (Affiliation.vente_id a) with
  | Some _ => true
  | None => false
  end.

(** ** Exceptions, results, and the unit of work

    A handler runs in a session: [work] is the state of its transaction,
    [persisted] what is committed.  A commit makes [work] the persisted
    state; an exception leaves [persisted] as the last commit left it. *)

Inductive Exn : Type :=
| HTTPException (status_code : Z) (detail : string)
| ValidationError                 (* pydantic: a field constraint fails *)
| NameError (name : string)
| ValueError
| KeyError (key : string)
| InvalidOperation                (* decimal *)
| IntegrityError                  (* a foreign key is violated *)
| TypeError
| SignatureVerificationError
| StripeError
| DataError                       (* a value does not fit its column *)
| ResponseValidationError         (* the returned value fails response_model *)
| AttributeError.

Inductive Res (A : Type) : Type :=
| Ok (a : A)
| Raise (e : Exn).
Arguments Ok {A} a.
Arguments Raise {A} e.

Record Session : Type := mkSession {
  persisted : DB;
  work : DB;
  violated : bool }.                 (* a pending write breaks a constraint *)

Definition open_session (d : DB) : Session := mkSession d d false.

Definition M (A : Type) : Type := Session -> Res A * Session.

Definition ret {A} (a : A) : M A := fun s => (Ok a, s).
Definition raise {A} (e : Exn) : M A := fun s => (Raise e, s).
Definition bind {A B} (m : M A) (k : A -> M B) : M B :=
  fun s => match m s with
           | (Ok a, s') => k a s'
           | (Raise e, s') => (Raise e, s')
           end.

Notation "x <- m ;; k" := (bind m (fun x => k))
  (at level 61, m at next level, right associativity).
Notation "m ;;; k" := (bind m (fun _ => k))
  (at level 61, right associativity).

(** [try: body except Exception as e: handler e]. *)
Definition try_except {A} (body : M A) (handler : Exn -> M A) : M A :=
  fun s => match body s with
           | (Ok a, s') => (Ok a, s')
           | (Raise e, s') => handler e s'
           end.

Definition lift_res {A} (r : Res A) : M A := fun s => (r, s).

(** A query: reads the state of the transaction. *)
Definition query {A} (f : DB -> A) : M A := fun s => (Ok (f (work s)), s).

(** A write of the ORM: applied to [work]; constraints are checked when
    the session flushes, at the commit. *)
Definition modify (f : DB -> DB) : M unit :=
  fun s => (Ok tt, mkSession (persisted s) (f (work s)) (violated s)).

Definition db_commit : M unit :=
  fun s => if violated s
           then (Raise IntegrityError,
                 mkSession (persisted s) (persisted s) false)
           else (Ok tt, mkSession (work s) (work s) false).

(** [db.commit()] with pending rows that hold the NUMERIC(10,2) [values]:
    the flush stops on a value that does not fit, before any constraint is
    checked, and the transaction is rolled back. *)
Definition db_commit_numeric (values : list Dec.t) : M unit :=
  fun s => if forallb Dec.fits_numeric_10_2 values then db_commit s
           else (Raise DataError,
                 mkSession (persisted s) (persisted s) false).

(** [db.add(Vente(...))]: the row gets the next id of the sequence. *)
Definition db_add_vente (v : Vente.t) : M Z :=
  fun s =>
    let d := work s in
    let v' := Vente.set_id v (ventes_id_seq d) in
    (Ok (Vente.id v'),
     mkSession (persisted s)
               (with_ventes d (ventes d ++ [v']) (ventes_id_seq d + 1))
               (violated s || negb (fk_vente d v'))).

Definition db_add_affiliation (st : SourceType) (sid vid : Z) (c : Dec.t)
  : M unit :=
  fun s =>
    let d := work s in
    let a := Affiliation.mk (affiliations_id_seq d) st sid vid c in
    (Ok tt,
     mkSession (persisted s)
               (with_affiliations d (affiliations d ++ [a])
                                  (affiliations_id_seq d + 1))
               (violated s || negb (fk_affiliation d a))).

(** The ORM writes attributes of a loaded row; [check] is the constraint
    the changed columns are under. *)
Definition db_update_vente (v : Vente.t) (check : DB -> bool) : M unit :=
  fun s =>
    (Ok tt,
     mkSession (persisted s) (put_vente (work s) v)
               (violated s || negb (check (work s)))).

(** [conn.execute(INSERT ...)] of the Flask routes: the statement itself
    fails on a broken foreign key. *)
Definition sql_insert_vente (v : Vente.t) : M Z :=
  fun s =>
    let d := work s in
    let v' := Vente.set_id v (ventes_id_seq d) in
    if fk_vente d v'
    then (Ok (Vente.id v'),
          mkSession (persisted s)
                    (with_ventes d (ventes d ++ [v']) (ventes_id_seq d + 1))
                    (violated s))
    else (Raise IntegrityError, s).

Definition sql_insert_affiliation (st : SourceType) (sid vid : Z) (c : Dec.t)
  : M unit :=
  fun s =>
    let d := work s in
    let a := Affiliation.mk (affiliations_id_seq d) st sid vid c in
    if fk_affiliation d a
    then (Ok tt,
          mkSession (persisted s)
                    (with_affiliations d (affiliations d ++ [a])
                                       (affiliations_id_seq d + 1))
                    (violated s))
    else (Raise IntegrityError, s).

(** Run a request handler on a database: its result and what is committed
    when the session closes. *)
Definition run {A} (h : M A) (d : DB) : Res A * DB :=
  let (r, s) := h (open_session d) in (r, persisted s).

(** Truth value of an optional integer ([None] and [0] are false), and of
    an optional string ([None] and the empty string are false). *)
Definition truthy_id (k : option Z) : bool :=
  match k with Some i => negb (i =? 0) | None => false end.

Definition nonempty_string (s : option string) : bool :=
  match s with
  | Some x => negb (String.eqb x "")
  | None => false
  end.

(** The integer of an id that is known to be given. *)
Definition some_id (k : option Z) : Z :=
  match k with Some i => i | None => 0 end.

(** ** Stripe payloads

    The objects the webhooks read.  A metadata value is a string; it is kept
    by what [int()] makes of it. *)

Inductive MetaVal : Type :=
| MInt (n : Z)        (* an integer literal *)
| MEmpty              (* the empty string *)
| MText.              (* any other text: int() raises ValueError *)

Definition Metadata : Type := list (string * MetaVal).

Fixpoint meta_get (m : Metadata) (k : string) : option MetaVal :=
  match m with
  | [] => None
  | (k', v) :: m' => if String.eqb k' k then Some v else meta_get m' k
  end.

Definition meta_in (k : string) (m : Metadata) : bool :=
  match meta_get m k with Some _ => true | None => false end.

Module PaymentIntent.
Record t : Type := mk {
  id : string;
  amount : Z;                                  (* minor units *)
  application_fee_amount : option (option Z);  (* absent / null / value *)
  transfer : option string;
  metadata : option Metadata }.                (* [None]: no such key *)
End PaymentIntent.

Module Account.
Record requirements_t : Type := mk_requirements {
  currently_due : list string;
  disabled_reason : option string }.
Record t : Type := mk {
  id : string;
  payouts_enabled : option bool;
  requirements : option requirements_t }.
End Account.

Module CheckoutSession.
Record t : Type := mk {
  id : string;
  metadata : Metadata;
  amount_total : Z;                            (* minor units *)
  payment_intent : option string }.
End CheckoutSession.

Inductive Event : Type :=
| PaymentIntentSucceeded (o : PaymentIntent.t)  (* payment_intent.succeeded *)
| AccountUpdated (o : Account.t)                (* account.updated *)
| CheckoutSessionCompleted (o : CheckoutSession.t)
                                                (* checkout.session.completed *)
| OtherEvent (type : string).

(** ** The FastAPI application *)
Module FastAPI.

(** *** [app/utils/stripe.py] *)

Record Commissions : Type := mkCommissions {
  gross_amount : Dec.t;
  discount : Dec.t;
  discounted_amount : Dec.t;
  platform_fee : Dec.t;
  platform_fee_rate : Dec.t;
  commercial_commission : Dec.t;
  commercial_rate : Dec.t;
  partner_commission : Dec.t;
  partner_rate : Dec.t;
  total_fees : Dec.t;
  net_amount : Dec.t }.

(** [if rate:] on an optional decimal. *)
Definition rate_given (r : option Dec.t) : option Dec.t :=
  match r with
  | Some d => if Dec.truthy d then Some d else None
  | None => None
  end.

Definition calculate_commissions_with_partners
  (amount discount : Dec.t) (commercial_rate partner_rate : option Dec.t)
  : Commissions :=
  (* Apply discount *)
  let discounted_amount := Dec.sub amount discount in
  (* Default platform fee: 10% *)
  let platform_fee_rate := Dec.mk 10 (-2) in
  let platform_fee := Dec.mul discounted_amount platform_fee_rate in
  (* Commercial commission (if applicable) *)
  let commercial_commission :=
    match rate_given commercial_rate with
    | Some r => Dec.mul discounted_amount r
    | None => Dec.zero_1
    end in
  (* Partner commission (if applicable) *)
  let partner_commission :=
    match rate_given partner_rate with
    | Some r => Dec.mul discounted_amount r
    | None => Dec.zero_1
    end in
  (* Calculate net amount for freelancer *)
  let total_fees :=
    Dec.add (Dec.add platform_fee commercial_commission) partner_commission in
  let net_amount := Dec.sub discounted_amount total_fees in
  mkCommissions amount discount discounted_amount platform_fee
                platform_fee_rate commercial_commission
                (Dec.or_zero commercial_rate) partner_commission
                (Dec.or_zero partner_rate) total_fees net_amount.

Section Webhook_verification.
(** [stripe.Webhook.construct_event(payload, sig_header, secret)], of the
    Stripe library: the event, or the exception it raises. *)
Variable construct_event : string -> option string -> option string -> Res Event.
(** [settings.STRIPE_WEBHOOK_SECRET]. *)
Variable STRIPE_WEBHOOK_SECRET : string.

Definition verify_stripe_webhook (signature : option string) (payload : string)
  : Res Event :=
  match construct_event payload signature (Some STRIPE_WEBHOOK_SECRET) with
  | Ok event => Ok event
  | Raise ValueError => Raise (HTTPException 400 "Invalid payload")
  | Raise SignatureVerificationError =>
      Raise (HTTPException 400 "Invalid signature")
  | Raise e => Raise e
  end.
End Webhook_verification.

(** *** [app/routers/sales.py] *)

Module VenteCreate.
Record t : Type := mk {
  user_id : Z;
  client_id : Z;
  produit_id : Z;
  montant : Dec.t;                    (* Field(..., ge=0) *)
  discount_applied : option Dec.t;    (* Field(0, ge=0) *)
  source : option string;
  commercial_id : option Z;
  partenaire_id : option Z }.
Definition valid (x : t) : bool :=
  (0 <=? Dec.coef (montant x))
  && match discount_applied x with
     | Some d => 0 <=? Dec.coef d
     | None => true
     end.
End VenteCreate.

Module VenteUpdate.
(** Each field is unset ([None]) or set, possibly to null. *)
Record t : Type := mk {
  statut_paiement : option (option StatutPaiement);
  feedback : option (option string);
  stripe_payment_id : option (option string);
  invoice_id : option (option Z) }.
End VenteUpdate.

(** [x.pourcentage / 100 if x.pourcentage else None]. *)
Definition rate_of (pourcentage : option Dec.t) : option Dec.t :=
  match pourcentage with
  | Some p => if Dec.truthy p then Some (Dec.div_100 p) else None
  | None => None
  end.

(** What [VenteResponse], the response_model of the sale routes, requires of
    a row it serialises: user_id, client_id
    and produit_id are integers, montant and discount_applied are not
    negative, and the status is set. *)
Definition response_valid (v : Vente.t) : bool :=
  match Vente.user_id v, Vente.client_id v, Vente.produit_id v,
        Vente.statut_paiement v with
  | Some _, Some _, Some _, Some _ =>
      (0 <=? Dec.coef (Vente.montant v))
      && (0 <=? Dec.coef (Vente.discount_applied v))
  | _, _, _, _ => false
  end.

Definition owner_or_admin (owner : option Z) (current_user : User.t) : bool :=
  match owner with
  | Some i => (i =? User.id current_user)
  | None => false
  end || String.eqb (User.role current_user) "admin".

Definition create_sale (now : Z) (sale_data : VenteCreate.t)
  (current_user : User.t) : M Z :=
  (* the body is validated against VenteCreate before the handler runs *)
  (if VenteCreate.valid sale_data then ret tt else raise ValidationError) ;;;
  (* Validate user_id (must be current user or admin) *)
  (if owner_or_admin (Some (VenteCreate.user_id sale_data)) current_user
   then ret tt
   else raise (HTTPException 403
                 "You can only create sales for your own account")) ;;;
  (* Check if client exists *)
  client <- query (fun d => get_client d (VenteCreate.client_id sale_data)) ;;
  match client with
  | None => raise (HTTPException 404 "Client not found")
  | Some client =>
  (* Check if product exists, and is active *)
  product <- query (fun d => get_produit d (VenteCreate.produit_id sale_data)) ;;
  match product with
  | None => raise (HTTPException 404 "Product not found")
  | Some product =>
  (if Produit.actif product then ret tt
   else raise (HTTPException 400 "Product is not active")) ;;;
  (* Get commercial commission rate if applicable *)
  commercial_rate <-
    (if truthy_id (VenteCreate.commercial_id sale_data) then
       commercial <- query (fun d =>
         match VenteCreate.commercial_id sale_data with
         | Some i => get_commercial d i
         | None => None
         end) ;;
       match commercial with
       | None => raise (HTTPException 404 "Commercial not found")
       | Some commercial => ret (rate_of (Commercial.pourcentage commercial))
       end
     else ret None) ;;
  (* Get partner commission rate if applicable *)
  partner_rate <-
    (if truthy_id (VenteCreate.partenaire_id sale_data) then
       partner <- query (fun d =>
         match VenteCreate.partenaire_id sale_data with
         | Some i => get_partenaire d i
         | None => None
         end) ;;
       match partner with
       | None => raise (HTTPException 404 "Partner not found")
       | Some partner => ret (rate_of (Partenaire.pourcentage partner))
       end
     else ret None) ;;
  (* Calculate commissions *)
  let commission_data :=
    calculate_commissions_with_partners
      (VenteCreate.montant sale_data)
      (Dec.or_zero (VenteCreate.discount_applied sale_data))
      commercial_rate partner_rate in
  (* Create new sale with calculated commissions *)
  new_sale_id <- db_add_vente
    (Vente.mk 0
       (Some (VenteCreate.user_id sale_data))
       (Some (VenteCreate.client_id sale_data))
       (Some (VenteCreate.produit_id sale_data))
       (VenteCreate.montant sale_data)
       (Dec.or_zero (VenteCreate.discount_applied sale_data))
       now
       (VenteCreate.source sale_data)
       (platform_fee commission_data)
       (commercial_commission commission_data)
       (partner_commission commission_data)
       (net_amount commission_data)
       (VenteCreate.commercial_id sale_data)
       (VenteCreate.partenaire_id sale_data)
       None
       (Some EnAttente)
       None None) ;;
  db_commit_numeric
    [ VenteCreate.montant sale_data;
      Dec.or_zero (VenteCreate.discount_applied sale_data);
      platform_fee commission_data; commercial_commission commission_data;
      partner_commission commission_data; net_amount commission_data ] ;;;
  (* Update client lifetime value *)
  let lifetime_value :=
    Dec.add (Dec.or_zero (Client.lifetime_value client))
            (VenteCreate.montant sale_data) in
  modify (fun d => put_client d
    (Client.set_last_purchase_date
       (Client.set_lifetime_value client (Some lifetime_value))
       (Some now))) ;;;
  (* Update freelancer revenue *)
  freelancer <- query (fun d => get_user d (VenteCreate.user_id sale_data)) ;;
  match freelancer with
  | Some freelancer =>
      modify (fun d => put_user d
        (User.set_total_revenue freelancer
           (Some (Dec.add (Dec.or_zero (User.total_revenue freelancer))
                          (net_amount commission_data)))))
  | None => ret tt
  end ;;;
  db_commit_numeric
    (lifetime_value
     :: match freelancer with
        | Some freelancer =>
            [ Dec.add (Dec.or_zero (User.total_revenue freelancer))
                      (net_amount commission_data) ]
        | None => []
        end) ;;;
  (* Create affiliations if needed *)
  (if truthy_id (VenteCreate.commercial_id sale_data) then
     db_add_affiliation SrcCommercial
       (some_id (VenteCreate.commercial_id sale_data))
       new_sale_id (commercial_commission commission_data)
   else ret tt) ;;;
  (if truthy_id (VenteCreate.partenaire_id sale_data) then
     db_add_affiliation SrcPartenaire
       (some_id (VenteCreate.partenaire_id sale_data))
       new_sale_id (partner_commission commission_data)
   else ret tt) ;;;
  db_commit_numeric
    ((if truthy_id (VenteCreate.commercial_id sale_data)
      then [ commercial_commission commission_data ] else [])
     ++ (if truthy_id (VenteCreate.partenaire_id sale_data)
         then [ partner_commission commission_data ] else []))%list ;;;
  (* the row returned passes VenteResponse: its ids are set, its amounts
     were validated and its status is en_attente *)
  ret new_sale_id
  end end.

(** [for key, value in sale_data.dict(exclude_unset=True).items():
       setattr(sale, key, value)]. *)
Definition setattrs (sale : Vente.t) (sale_data : VenteUpdate.t) : Vente.t :=
  let s1 := match VenteUpdate.statut_paiement sale_data with
            | Some x => Vente.set_statut_paiement sale x
            | None => sale
            end in
  let s2 := match VenteUpdate.feedback sale_data with
            | Some x => Vente.set_feedback s1 x
            | None => s1
            end in
  let s3 := match VenteUpdate.stripe_payment_id sale_data with
            | Some x => Vente.set_stripe_payment_id s2 x
            | None => s2
            end in
  match VenteUpdate.invoice_id sale_data with
  | Some x => Vente.set_invoice_id s3 x
  | None => s3
  end.

Definition update_sale (sale_id : Z) (sale_data : VenteUpdate.t)
  (current_user : User.t) : M Vente.t :=
  (* Get sale *)
  sale <- query (fun d => get_vente d sale_id) ;;
  match sale with
  | None => raise (HTTPException 404 "Sale not found")
  | Some sale =>
      (* Check permissions *)
      if owner_or_admin (Vente.user_id sale) current_user then
        (* Update sale attributes (limited fields) *)
        db_update_vente (setattrs sale sale_data)
          (fun d => match VenteUpdate.invoice_id sale_data with
                    | Some (Some i) => existsb (Z.eqb i) (devis_factures d)
                    | _ => true
                    end) ;;;
        db_commit ;;;
        (* the returned row is validated against VenteResponse *)
        if response_valid (setattrs sale sale_data)
        then ret (setattrs sale sale_data)
        else raise ResponseValidationError
      else raise (HTTPException 403 "Not enough permissions")
  end.


(** *** [app/routers/stripe.py] *)

(** The names the module binds: its imports and its own definitions.
    Python resolves a global name when the line that uses it runs; a name
    that is not bound raises [NameError] there. *)
Definition module_globals : list string :=
  [ "APIRouter"; "Depends"; "HTTPException"; "status"; "Request"; "Body";
    "Header"; "RedirectResponse"; "Session"; "Dict"; "Any"; "Optional";
    "stripe"; "json"; "Decimal"; "get_db"; "User"; "Vente"; "Client";
    "Produit"; "VenteCreate"; "get_current_user"; "get_current_active_user";
    "check_admin_role"; "create_stripe_connect_account";
    "get_stripe_dashboard_link"; "create_payment_intent";
    "create_checkout_session"; "verify_stripe_webhook";
    "calculate_commissions_with_partners"; "settings"; "router";
    "create_stripe_onboarding"; "get_stripe_dashboard_url";
    "check_stripe_account_status"; "create_stripe_payment_intent";
    "create_stripe_checkout"; "stripe_webhook"; "handle_payment_success";
    "handle_account_updated"; "refresh_stripe_account" ].

Definition global (name : string) : M unit :=
  if existsb (String.eqb name) module_globals then ret tt
  else raise (NameError name).

(** [int(metadata.get(key, 0))]. *)
Definition int_of_meta (metadata : Metadata) (key : string) : M Z :=
  match meta_get metadata key with
  | None => ret 0
  | Some (MInt n) => ret n
  | Some _ => raise ValueError
  end.

Definition handle_payment_success (now : Z) (payment_intent : PaymentIntent.t)
  : M unit :=
  (* Extract metadata *)
  let metadata := match PaymentIntent.metadata payment_intent with
                  | Some m => m
                  | None => []
                  end in
  (* If no metadata, this might not be our payment *)
  match metadata with
  | [] => ret tt
  | _ :: _ =>
  (* Extract necessary IDs *)
  freelance_id <- int_of_meta metadata "freelance_id" ;;
  product_id <- int_of_meta metadata "product_id" ;;
  client_id <- int_of_meta metadata "client_id" ;;
  commercial_id <-
    (if meta_in "commercial_id" metadata
     then i <- int_of_meta metadata "commercial_id" ;; ret (Some i)
     else ret None) ;;
  partenaire_id <-
    (if meta_in "partenaire_id" metadata
     then i <- int_of_meta metadata "partenaire_id" ;; ret (Some i)
     else ret None) ;;
  (* Check if this payment has already been processed *)
  existing_sale <- query (fun d =>
    get_vente_by_stripe_payment_id d (PaymentIntent.id payment_intent)) ;;
  match existing_sale with
  | Some existing_sale =>
      (* Update status if needed *)
      match Vente.statut_paiement existing_sale with
      | Some Paye => ret tt
      | _ =>
          db_update_vente (Vente.set_statut_paiement existing_sale (Some Paye))
                          (fun _ => true) ;;;
          db_commit
      end
  | None =>
  (* Get the amount in correct format *)
  let amount := Dec.div_100 (Dec.of_Z (PaymentIntent.amount payment_intent)) in
  (* Calculate application fee *)
  application_fee <-
    match PaymentIntent.application_fee_amount payment_intent with
    | None => ret (Dec.div_100 (Dec.of_Z 0))
    | Some (Some n) => ret (Dec.div_100 (Dec.of_Z n))
    | Some None => raise TypeError          (* Decimal(None) *)
    end ;;
  (* Create a new sale: VenteCreate(...) validates its fields *)
  (if VenteCreate.valid
        (VenteCreate.mk freelance_id client_id product_id amount (Some Dec.zero_0)
                        (Some "stripe") commercial_id partenaire_id)
   then ret tt else raise ValidationError) ;;;
  (* Get freelancer *)
  freelancer <- query (fun d => get_user d freelance_id) ;;
  (* Get commercial commission rate if applicable *)
  commercial_rate <-
    (if truthy_id commercial_id then
       global "Commercial" ;;;
       commercial <- query (fun d => get_commercial d (some_id commercial_id)) ;;
       match commercial with
       | Some commercial => ret (rate_of (Commercial.pourcentage commercial))
       | None => ret None
       end
     else ret None) ;;
  (* Get partner commission rate if applicable *)
  partner_rate <-
    (if truthy_id partenaire_id then
       global "Partenaire" ;;;
       partner <- query (fun d => get_partenaire d (some_id partenaire_id)) ;;
       match partner with
       | Some partner => ret (rate_of (Partenaire.pourcentage partner))
       | None => ret None
       end
     else ret None) ;;
  (* Calculate commissions *)
  let commission_data :=
    calculate_commissions_with_partners amount Dec.zero_1
                                        commercial_rate partner_rate in
  (* Create new sale with calculated commissions *)
  global "Vente" ;;;
  global "datetime" ;;;                       (* date=datetime.utcnow() *)
  new_sale_id <- db_add_vente
    (Vente.mk 0 (Some freelance_id) (Some client_id) (Some product_id)
       amount Dec.zero_0 now (Some "stripe")
       (platform_fee commission_data)
       (commercial_commission commission_data)
       (partner_commission commission_data)
       (net_amount commission_data)
       commercial_id partenaire_id
       (Some (PaymentIntent.id payment_intent))
       (Some Paye) None None) ;;
  (* Update client lifetime value *)
  client <- query (fun d => get_client d client_id) ;;
  match client with
  | Some client =>
      let client1 := Client.set_lifetime_value client
        (Some (Dec.add (Dec.or_zero (Client.lifetime_value client)) amount)) in
      modify (fun d => put_client d client1) ;;;
      global "datetime" ;;;
      modify (fun d => put_client d
                (Client.set_last_purchase_date client1 (Some now)))
  | None => ret tt
  end ;;;
  (* Update freelancer revenue *)
  match freelancer with
  | Some freelancer =>
      modify (fun d => put_user d
        (User.set_total_revenue freelancer
           (Some (Dec.add (Dec.or_zero (User.total_revenue freelancer))
                          (net_amount commission_data)))))
  | None => ret tt
  end ;;;
  db_commit ;;;
  (* Create affiliations if needed *)
  (if truthy_id commercial_id then
     global "Affiliation" ;;;
     db_add_affiliation SrcCommercial (some_id commercial_id) new_sale_id
                        (commercial_commission commission_data)
   else ret tt) ;;;
  (if truthy_id partenaire_id then
     global "Affiliation" ;;;
     db_add_affiliation SrcPartenaire (some_id partenaire_id) new_sale_id
                        (partner_commission commission_data)
   else ret tt) ;;;
  db_commit
  end end.

Definition handle_account_updated (account : Account.t) : M unit :=
  (* Find user with this account *)
  user <- query (fun d => get_user_by_stripe_account_id d (Account.id account)) ;;
  match user with
  | None => ret tt
  | Some user =>
      (* Update user's payout status *)
      let user1 := User.set_payout_enabled user
        match Account.payouts_enabled account with
        | Some b => b
        | None => false
        end in
      (* Update KYC status if available *)
      let user2 :=
        match Account.requirements account with
        | Some r =>
            match Account.currently_due r with
            | _ :: _ => User.set_kyc_status user1 (Some "pending")
            | [] =>
                if nonempty_string (Account.disabled_reason r)
                then User.set_kyc_status user1 (Some "rejected")
                else User.set_kyc_status user1 (Some "verified")
            end
        | None => user1
        end in
      modify (fun d => put_user d user2) ;;;
      db_commit
  end.

(** The body the webhook answers with. *)
Inductive WebhookStatus : Type :=
| StatusSuccess                 (* {"status": "success"} *)
| StatusError (e : Exn).        (* {"status": "error", "message": str(e)} *)

Section Webhook.
Variable construct_event : string -> option string -> option string -> Res Event.
Variable STRIPE_WEBHOOK_SECRET : string.

Definition stripe_webhook (now : Z) (payload : string)
  (stripe_signature : option string) : M WebhookStatus :=
  try_except
    ((* Verify webhook signature *)
     event <- lift_res (verify_stripe_webhook construct_event
                          STRIPE_WEBHOOK_SECRET stripe_signature payload) ;;
     (* Handle different event types *)
     match event with
     | PaymentIntentSucceeded o => handle_payment_success now o
     | AccountUpdated o => handle_account_updated o
     | _ => ret tt
     end ;;;
     ret StatusSuccess)
    (fun e =>
       (* Log the error but return 200 to acknowledge receipt *)
       ret (StatusError e)).
End Webhook.

(** *** [app/utils/stripe.py], the calculator without referral and the
    payment intent *)

Module Commission.
Record t : Type := mk {
  gross_amount : Dec.t;
  discount : Dec.t;
  discounted_amount : Dec.t;
  platform_fee : Dec.t;
  platform_fee_rate : Dec.t;
  net_amount : Dec.t }.
End Commission.

Definition calculate_commission (amount discount : Dec.t) : Commission.t :=
  (* Apply discount *)
  let discounted_amount := Dec.sub amount discount in
  (* Default platform fee: 10% *)
  let platform_fee_rate := Dec.mk 10 (-2) in
  let platform_fee := Dec.mul discounted_amount platform_fee_rate in
  (* Default net amount: 90% *)
  let net_amount := Dec.sub discounted_amount platform_fee in
  Commission.mk amount discount discounted_amount platform_fee
                platform_fee_rate net_amount.

Module PaymentIntentCreated.
Record t : Type := mk {
  client_secret : string;
  payment_intent_id : string;
  amount : Dec.t;
  fee : Dec.t }.
End PaymentIntentCreated.

(** The metadata the payment routes attach to a payment; [str(n)] of an
    integer is the literal [int()] reads back as [n]. *)
Definition payment_metadata (freelancer : User.t) (product : Produit.t)
  (client : Client.t) (commercial_id partenaire_id : option Z) : Metadata :=
  ([ ("freelance_id", MInt (User.id freelancer));
     ("product_id", MInt (Produit.id product));
     ("client_id", MInt (Client.id client));
     ("platform", MText) ]
   ++ (if truthy_id commercial_id
       then [ ("commercial_id", MInt (some_id commercial_id)) ] else [])
   ++ (if truthy_id partenaire_id
       then [ ("partenaire_id", MInt (some_id partenaire_id)) ] else []))%list.

(** The JSON body of [POST /stripe/payment-intent]; [None] is a key that is
    absent.  The amounts are kept as the decimals [Decimal(str(x))] reads. *)
Module PaymentRequest.
Record t : Type := mk {
  amount : option Dec.t;
  freelance_id : option Z;
  product_id : option Z;
  client_id : option Z;
  commercial_id : option Z;
  partenaire_id : option Z;
  discount : option Dec.t }.
End PaymentRequest.

Section Payment_intent.
(** [stripe.PaymentIntent.create(amount, currency, application_fee_amount,
    transfer_data.destination, metadata, automatic_payment_methods.enabled)],
    a call to the Stripe API: the client secret and the id of the intent. *)
Variable payment_intent_create :
  Z -> string -> Z -> string -> Metadata -> bool -> Res (string * string).

Definition create_payment_intent (amount : Dec.t)
  (freelance_stripe_account : string) (application_fee : Dec.t)
  (metadata : Metadata) : Res PaymentIntentCreated.t :=
  (* Convert decimal to integer (cents for Stripe) *)
  let amount_cents := Dec.to_int (Dec.mul amount (Dec.of_Z 100)) in
  let fee_cents := Dec.to_int (Dec.mul application_fee (Dec.of_Z 100)) in
  (* Create payment intent *)
  match payment_intent_create amount_cents "eur" fee_cents
                              freelance_stripe_account metadata true with
  | Ok (client_secret, id) =>
      Ok (PaymentIntentCreated.mk client_secret id amount application_fee)
  | Raise StripeError => Raise (HTTPException 400 "Error creating payment")
  | Raise e => Raise e
  end.

(** [POST /stripe/payment-intent] of [app/routers/stripe.py]. *)
Definition create_stripe_payment_intent (data : PaymentRequest.t)
  : M PaymentIntentCreated.t :=
  (* Validate required fields *)
  match PaymentRequest.amount data, PaymentRequest.freelance_id data,
        PaymentRequest.product_id data, PaymentRequest.client_id data with
  | None, _, _, _ =>
      raise (HTTPException 400 "Missing required field: amount")
  | Some _, None, _, _ =>
      raise (HTTPException 400 "Missing required field: freelance_id")
  | Some _, Some _, None, _ =>
      raise (HTTPException 400 "Missing required field: product_id")
  | Some _, Some _, Some _, None =>
      raise (HTTPException 400 "Missing required field: client_id")
  | Some amount_given, Some freelance_id, Some product_id, Some client_id =>
  (* Get freelancer *)
  freelancer <- query (fun d => get_user d freelance_id) ;;
  match freelancer with
  | None => raise (HTTPException 404 "Freelancer not found")
  | Some freelancer =>
  (* Check if freelancer has Stripe account *)
  if negb (nonempty_string (User.stripe_account_id freelancer))
  then raise (HTTPException 400 "Freelancer doesn't have a Stripe account")
  else
  (* Get product *)
  product <- query (fun d => get_produit d product_id) ;;
  match product with
  | None => raise (HTTPException 404 "Product not found")
  | Some product =>
  (* Get client *)
  client <- query (fun d => get_client d client_id) ;;
  match client with
  | None => raise (HTTPException 404 "Client not found")
  | Some client =>
  (* Calculate commissions *)
  let commercial_id := PaymentRequest.commercial_id data in
  let partenaire_id := PaymentRequest.partenaire_id data in
  (* Get commission rates *)
  commercial_rate <-
    (if truthy_id commercial_id then
       global "Commercial" ;;;
       commercial <- query (fun d => get_commercial d (some_id commercial_id)) ;;
       match commercial with
       | Some commercial =>
           match Commercial.pourcentage commercial with
           | Some p => ret (Some (Dec.div_100 p))
           | None => raise TypeError           (* None / 100 *)
           end
       | None => ret None
       end
     else ret None) ;;
  partner_rate <-
    (if truthy_id partenaire_id then
       global "Partenaire" ;;;
       partenaire <- query (fun d => get_partenaire d (some_id partenaire_id)) ;;
       match partenaire with
       | Some partenaire =>
           match Partenaire.pourcentage partenaire with
           | Some p => ret (Some (Dec.div_100 p))
           | None => raise TypeError
           end
       | None => ret None
       end
     else ret None) ;;
  let amount := amount_given in
  let discount := match PaymentRequest.discount data with
                  | Some x => x
                  | None => Dec.zero_0
                  end in
  let commission_data :=
    calculate_commissions_with_partners amount discount
                                        commercial_rate partner_rate in
  (* Create metadata for the payment *)
  let metadata :=
    payment_metadata freelancer product client commercial_id partenaire_id in
  (* Create payment intent *)
  lift_res
    (create_payment_intent amount
       (match User.stripe_account_id freelancer with Some a => a | None => "" end)
       (Dec.add (Dec.add (platform_fee commission_data)
                         (commercial_commission commission_data))
                (partner_commission commission_data))
       metadata)
  end end end
  end.
End Payment_intent.

(** *** [app/dependencies.py] and the other routes of [app/routers/sales.py] *)

Definition check_admin_role (current_user : User.t) : Res User.t :=
  if String.eqb (User.role current_user) "admin" then Ok current_user
  else Raise (HTTPException 403 "Not enough permissions").

Definition delete_sale (sale_id : Z) (current_user : User.t) : M string :=
  (* Depends(check_admin_role) *)
  lift_res (check_admin_role current_user) ;;;
  (* Get sale *)
  sale <- query (fun d => get_vente d sale_id) ;;
  match sale with
  | None => raise (HTTPException 404 "Sale not found")
  | Some sale =>
      (* Delete associated affiliations *)
      modify (fun d =>
        with_affiliations d
          (filter (fun a => negb (Affiliation.vente_id a =? sale_id))
                  (affiliations d))
          (affiliations_id_seq d)) ;;;
      (* Delete sale *)
      modify (fun d =>
        with_ventes d
          (filter (fun v => negb (Vente.id v =? Vente.id sale)) (ventes d))
          (ventes_id_seq d)) ;;;
      db_commit ;;;
      ret "Sale deleted successfully"
  end.

Module VenteCalculateCommission.
Record t : Type := mk {
  montant : Dec.t;                    (* Field(..., ge=0) *)
  discount_applied : option Dec.t;    (* Field(0, ge=0) *)
  user_id : Z;
  commercial_id : option Z;
  partenaire_id : option Z }.
Definition valid (x : t) : bool :=
  (0 <=? Dec.coef (montant x))
  && match discount_applied x with
     | Some d => 0 <=? Dec.coef d
     | None => true
     end.
End VenteCalculateCommission.

(** [POST /ventes/calculate-commission]; the response repeats the fields of
    the breakdown, which is what is returned here. *)
Definition calculate_sale_commission
  (commission_data : VenteCalculateCommission.t) (current_user : User.t)
  : M Commissions :=
  (if VenteCalculateCommission.valid commission_data then ret tt
   else raise ValidationError) ;;;
  (* Validate user_id (must be current user or admin) *)
  (if owner_or_admin (Some (VenteCalculateCommission.user_id commission_data))
                     current_user
   then ret tt
   else raise (HTTPException 403
                 "You can only calculate commissions for your own account")) ;;;
  (* Get commercial commission rate if applicable *)
  commercial_rate <-
    (if truthy_id (VenteCalculateCommission.commercial_id commission_data) then
       commercial <- query (fun d =>
         get_commercial d
           (some_id (VenteCalculateCommission.commercial_id commission_data))) ;;
       match commercial with
       | Some commercial => ret (rate_of (Commercial.pourcentage commercial))
       | None => ret None
       end
     else ret None) ;;
  (* Get partner commission rate if applicable *)
  partner_rate <-
    (if truthy_id (VenteCalculateCommission.partenaire_id commission_data) then
       partner <- query (fun d =>
         get_partenaire d
           (some_id (VenteCalculateCommission.partenaire_id commission_data))) ;;
       match partner with
       | Some partner => ret (rate_of (Partenaire.pourcentage partner))
       | None => ret None
       end
     else ret None) ;;
  (* Calculate commissions *)
  ret (calculate_commissions_with_partners
         (VenteCalculateCommission.montant commission_data)
         (Dec.or_zero (VenteCalculateCommission.discount_applied commission_data))
         commercial_rate partner_rate).

(** *** [get_sales] *)

(** [column == value] on a nullable column: NULL matches nothing. *)
Definition column_is (column : option Z) (value : Z) : bool :=
  match column with
  | Some x => x =? value
  | None => false
  end.

Definition statut_is (column : option StatutPaiement) (value : StatutPaiement)
  : bool :=
  match column, value with
  | Some Paye, Paye | Some EnAttente, EnAttente | Some Rembourse, Rembourse => true
  | _, _ => false
  end.

Module SalesPage.
Record t : Type := mk {
  ventes : list Vente.t;
  total : Z;
  page : Z;
  size : Z }.
End SalesPage.

Section Listing.
(** [ORDER BY date DESC], done by the engine: the order among the rows of
    one date is the engine's. *)
Variable order_by_date_desc : list Vente.t -> list Vente.t.

(** [GET /ventes/].  [status] is absent (or empty), or names a status. *)
Definition get_sales (skip limit : Z) (status : option StatutPaiement)
  (freelance_id client_id : option Z) (current_user : User.t)
  : M SalesPage.t :=
  (* skip: Query(0, ge=0); limit: Query(100, ge=1, le=100) *)
  (if (0 <=? skip) && (1 <=? limit) && (limit <=? 100) then ret tt
   else raise ValidationError) ;;;
  (* Filter by role *)
  by_role <-
    (if String.eqb (User.role current_user) "admin" then
       (* Admin can see all sales *)
       ret (fun _ : Vente.t => true)
     else if String.eqb (User.role current_user) "freelance" then
       (* Freelancers can only see their own sales *)
       ret (fun v => column_is (Vente.user_id v) (User.id current_user))
     else
       (* raise HTTPException(status_code=status.HTTP_403_FORBIDDEN, ...):
          [status] is the parameter of the route, a string or None, not
          the module of fastapi *)
       raise AttributeError) ;;
  (* Apply filters *)
  let by_status v :=
    match status with
    | Some s => statut_is (Vente.statut_paiement v) s
    | None => true
    end in
  let by_freelance v :=
    if truthy_id freelance_id && String.eqb (User.role current_user) "admin"
    then column_is (Vente.user_id v) (some_id freelance_id) else true in
  let by_client v :=
    if truthy_id client_id
    then column_is (Vente.client_id v) (some_id client_id) else true in
  rows <- query (fun d =>
    filter (fun v => by_role v && by_status v && by_freelance v && by_client v)
           (ventes d)) ;;
  (* Apply pagination *)
  let total := Z.of_nat (List.length rows) in
  let sales := firstn (Z.to_nat limit)
                      (skipn (Z.to_nat skip) (order_by_date_desc rows)) in
  (* the response is validated against VenteListResponse *)
  if forallb response_valid sales then
    ret (SalesPage.mk sales total
                      (if 0 <? limit then skip / limit + 1 else 1) limit)
  else raise ValidationError.
End Listing.

(** *** The checkout session of [app/utils/stripe.py] and
    [POST /stripe/checkout-session] *)

Module CheckoutCreated.
Record t : Type := mk { session_id : string; checkout_url : string }.
End CheckoutCreated.

Module CheckoutRequest.
Record t : Type := mk {
  amount : option Dec.t;
  freelance_id : option Z;
  product_id : option Z;
  client_id : option Z;
  success_url : option string;
  cancel_url : option string;
  commercial_id : option Z;
  partenaire_id : option Z;
  discount : option Dec.t }.
End CheckoutRequest.

Section Checkout.
(** [stripe.checkout.Session.create], a call to the Stripe API, by the
    product name, the unit amount, the two URLs, the application fee, the
    destination and the metadata: the id and the URL of the session. *)
Variable checkout_session_create :
  string -> Z -> string -> string -> Z -> string -> Metadata
  -> Res (string * string).

Definition create_checkout_session (amount : Dec.t)
  (freelance_stripe_account : string) (application_fee : Dec.t)
  (metadata : Metadata) (success_url cancel_url product_name : string)
  : Res CheckoutCreated.t :=
  (* Convert decimal to integer (cents for Stripe) *)
  let amount_cents := Dec.to_int (Dec.mul amount (Dec.of_Z 100)) in
  let fee_cents := Dec.to_int (Dec.mul application_fee (Dec.of_Z 100)) in
  (* Create checkout session *)
  match checkout_session_create product_name amount_cents success_url
                                cancel_url fee_cents freelance_stripe_account
                                metadata with
  | Ok (id, url) => Ok (CheckoutCreated.mk id url)
  | Raise StripeError =>
      Raise (HTTPException 400 "Error creating checkout session")
  | Raise e => Raise e
  end.

Definition create_stripe_checkout (data : CheckoutRequest.t)
  : M CheckoutCreated.t :=
  (* Validate required fields *)
  match CheckoutRequest.amount data, CheckoutRequest.freelance_id data,
        CheckoutRequest.product_id data, CheckoutRequest.client_id data,
        CheckoutRequest.success_url data, CheckoutRequest.cancel_url data with
  | None, _, _, _, _, _ =>
      raise (HTTPException 400 "Missing required field: amount")
  | Some _, None, _, _, _, _ =>
      raise (HTTPException 400 "Missing required field: freelance_id")
  | Some _, Some _, None, _, _, _ =>
      raise (HTTPException 400 "Missing required field: product_id")
  | Some _, Some _, Some _, None, _, _ =>
      raise (HTTPException 400 "Missing required field: client_id")
  | Some _, Some _, Some _, Some _, None, _ =>
      raise (HTTPException 400 "Missing required field: success_url")
  | Some _, Some _, Some _, Some _, Some _, None =>
      raise (HTTPException 400 "Missing required field: cancel_url")
  | Some amount_given, Some freelance_id, Some product_id, Some client_id,
    Some success_url, Some cancel_url =>
  (* Get freelancer *)
  freelancer <- query (fun d => get_user d freelance_id) ;;
  match freelancer with
  | None => raise (HTTPException 404 "Freelancer not found")
  | Some freelancer =>
  (* Check if freelancer has Stripe account *)
  if negb (nonempty_string (User.stripe_account_id freelancer))
  then raise (HTTPException 400 "Freelancer doesn't have a Stripe account")
  else
  (* Get product *)
  product <- query (fun d => get_produit d product_id) ;;
  match product with
  | None => raise (HTTPException 404 "Product not found")
  | Some product =>
  (* Get client *)
  client <- query (fun d => get_client d client_id) ;;
  match client with
  | None => raise (HTTPException 404 "Client not found")
  | Some client =>
  (* Calculate commissions *)
  let commercial_id := CheckoutRequest.commercial_id data in
  let partenaire_id := CheckoutRequest.partenaire_id data in
  (* Get commission rates *)
  commercial_rate <-
    (if truthy_id commercial_id then
       global "Commercial" ;;;
       commercial <- query (fun d => get_commercial d (some_id commercial_id)) ;;
       match commercial with
       | Some commercial =>
           match Commercial.pourcentage commercial with
           | Some p => ret (Some (Dec.div_100 p))
           | None => raise TypeError           (* None / 100 *)
           end
       | None => ret None
       end
     else ret None) ;;
  partner_rate <-
    (if truthy_id partenaire_id then
       global "Partenaire" ;;;
       partenaire <- query (fun d => get_partenaire d (some_id partenaire_id)) ;;
       match partenaire with
       | Some partenaire =>
           match Partenaire.pourcentage partenaire with
           | Some p => ret (Some (Dec.div_100 p))
           | None => raise TypeError
           end
       | None => ret None
       end
     else ret None) ;;
  let amount := amount_given in
  let discount := match CheckoutRequest.discount data with
                  | Some x => x
                  | None => Dec.zero_0
                  end in
  let commission_data :=
    calculate_commissions_with_partners amount discount
                                        commercial_rate partner_rate in
  (* Create metadata for the payment *)
  let metadata :=
    payment_metadata freelancer product client commercial_id partenaire_id in
  (* Create checkout session *)
  lift_res
    (create_checkout_session amount
       (match User.stripe_account_id freelancer with Some a => a | None => "" end)
       (Dec.add (Dec.add (platform_fee commission_data)
                         (commercial_commission commission_data))
                (partner_commission commission_data))
       metadata success_url cancel_url (Produit.nom product))
  end end end
  end.
End Checkout.

End FastAPI.

(** ** The Flask application

    Its routes take floats from the request and hand floats to the
    database; a float is kept here as the decimal [str] prints for it, which
    is what [Decimal(str(montant))] reads back. *)
Module Flask.

(** *** [app/routes/sales_routes.py] *)

Record Commissions : Type := mkCommissions {
  plateforme : Dec.t;
  commerciale : Dec.t;
  partenaire : Dec.t;
  freelance : Dec.t }.

Definition quantize (d : Dec.t) : M Dec.t :=
  match Dec.quantize_cents d with
  | Some q => ret q
  | None => raise InvalidOperation
  end.

(** [Decimal(str(x.pourcentage)) / 100] when the row exists and has a
    percentage; the default rate otherwise. *)
Definition custom_rate (pourcentage : option (option Dec.t)) (default : Dec.t)
  : Dec.t :=
  match pourcentage with
  | Some (Some p) => if Dec.truthy p then Dec.div_100 p else default
  | _ => default
  end.

Definition calculate_commissions (montant : Dec.t)
  (commercial_id partenaire_id : option Z) : M Commissions :=
  (* Taux de commission par défaut; ajustement selon les parties présentes *)
  let plateforme_rate :=
    if truthy_id commercial_id && truthy_id partenaire_id then Dec.mk 8 (-2)
    else if truthy_id commercial_id then Dec.mk 10 (-2)
    else if truthy_id partenaire_id then Dec.mk 13 (-2)
    else Dec.mk 15 (-2) in
  (* Récupérer les taux personnalisés du commercial ou partenaire *)
  commerciale_rate <-
    (if truthy_id commercial_id then
       commercial <- query (fun d => get_commercial d (some_id commercial_id)) ;;
       ret (custom_rate (option_map Commercial.pourcentage commercial)
                        (Dec.mk 5 (-2)))
     else ret (Dec.mk 5 (-2))) ;;
  partenaire_rate <-
    (if truthy_id partenaire_id then
       partenaire <- query (fun d => get_partenaire d (some_id partenaire_id)) ;;
       ret (custom_rate (option_map Partenaire.pourcentage partenaire)
                        (Dec.mk 2 (-2)))
     else ret (Dec.mk 2 (-2))) ;;
  (* Calculer les montants *)
  let montant_decimal := montant in
  let commission_plateforme := Dec.mul montant_decimal plateforme_rate in
  let commission_commerciale :=
    if truthy_id commercial_id then Dec.mul montant_decimal commerciale_rate
    else Dec.zero_0 in
  let commission_partenaire :=
    if truthy_id partenaire_id then Dec.mul montant_decimal partenaire_rate
    else Dec.zero_0 in
  (* Le reste va au freelance *)
  let montant_net_freelance :=
    Dec.sub (Dec.sub (Dec.sub montant_decimal commission_plateforme)
                     commission_commerciale)
            commission_partenaire in
  p <- quantize commission_plateforme ;;
  c <- quantize commission_commerciale ;;
  a <- quantize commission_partenaire ;;
  f <- quantize montant_net_freelance ;;
  ret (mkCommissions p c a f).

(** The values [create_sale] extracts from the JSON body of [POST /ventes],
    the two amounts as [float()] returned them; [None] is a key that is
    absent. *)
Module SaleRequest.
Record t : Type := mk {
  client_id : option Z;
  montant : option Dec.t;
  has_description : bool;
  produit_id : option Z;
  discount_applied : option Dec.t;
  source : option string;
  statut_paiement : option StatutPaiement;
  commercial_id : option Z;
  partenaire_id : option Z }.
End SaleRequest.

Inductive Body : Type :=
| SaleCreated (id : Z) (commissions : Commissions)
| Message (m : string)
| Failure (m : string) (e : Exn).   (* a message that quotes the exception *)

Definition Response : Type := (Z * Body)%type.   (* status code, body *)

(** A value of the JSON body by what [float()] makes of it: a number (or a
    string or a boolean that [float()] reads, by its value), a string that
    [float()] refuses, and null (or a list or an object). *)
Inductive Json : Type :=
| JNumber (x : Dec.t)
| JText
| JNull.


(** The JSON object of the body of [POST /ventes], the amounts as they
    arrive; [None] is a key that is absent. *)
Module SaleBody.
Record t : Type := mk {
  client_id : option Z;
  montant : option Json;
  has_description : bool;
  produit_id : option Z;
  discount_applied : option Json;
  source : option string;
  statut_paiement : option StatutPaiement;
  commercial_id : option Z;
  partenaire_id : option Z }.
End SaleBody.

Section Sales.
(** [current_app.config.get('db_engine')] is set. *)
Variable db_engine : bool.

(** [create_sale] from the values extracted: the engine check and the
    [try].  The extraction itself, where [float()] can raise, is
    [create_sale_json] below. *)
Definition create_sale (now : Z) (user_id : Z) (data : SaleRequest.t)
  : M Response :=
  (* Valider les données requises *)
  match SaleRequest.client_id data, SaleRequest.montant data,
        SaleRequest.has_description data with
  | None, _, _ => ret (400, Message "Le champ client_id est requis")
  | Some _, None, _ => ret (400, Message "Le champ montant est requis")
  | Some _, Some _, false => ret (400, Message "Le champ description est requis")
  | Some client_id, Some montant, true =>
  let produit_id := SaleRequest.produit_id data in
  let discount_applied :=
    match SaleRequest.discount_applied data with
    | Some d => d
    | None => Dec.zero_0
    end in
  let source :=
    match SaleRequest.source data with Some x => x | None => "manuel" end in
  let statut_paiement :=
    match SaleRequest.statut_paiement data with
    | Some x => x
    | None => EnAttente
    end in
  let commercial_id := SaleRequest.commercial_id data in
  let partenaire_id := SaleRequest.partenaire_id data in
  if negb db_engine then ret (500, Message "Database connection error")
  else
    try_except
      ((* Calculer les commissions *)
       commissions <- calculate_commissions montant commercial_id partenaire_id ;;
       (* Insérer la vente *)
       sale_id <- sql_insert_vente
         (Vente.mk 0 (Some user_id) (Some client_id) produit_id montant
            discount_applied now (Some source)
            (plateforme commissions) (commerciale commissions)
            (partenaire commissions) (freelance commissions)
            commercial_id partenaire_id None (Some statut_paiement)
            None None) ;;
       (* Si commercial ou partenaire présent, créer les affiliations *)
       (if truthy_id commercial_id then
          sql_insert_affiliation SrcCommercial (some_id commercial_id)
                                 sale_id (commerciale commissions)
        else ret tt) ;;;
       (if truthy_id partenaire_id then
          sql_insert_affiliation SrcPartenaire (some_id partenaire_id)
                                 sale_id (partenaire commissions)
        else ret tt) ;;;
       (* Commit les changements *)
       db_commit ;;;
       ret (201, SaleCreated sale_id commissions))
      (fun e => ret (500, Failure "An error occurred" e))
  end.

End Sales.

(** *** [app/utils/stripe_utils.py] *)

Record SessionData : Type := mkSessionData {
  sd_client_id : option Z;
  sd_product_id : option Z;
  sd_freelance_id : option Z;
  sd_montant : Dec.t;
  sd_commission_plateforme : Dec.t;
  sd_stripe_payment_id : string;
  sd_stripe_transfer_id : option string;
  sd_statut_paiement : StatutPaiement;
  sd_payment_intent_id : option string }.

(** [int(x) if x else None] on a metadata value. *)
Definition id_of_meta (v : option MetaVal) : Res (option Z) :=
  match v with
  | None | Some MEmpty => Ok None
  | Some (MInt n) => Ok (Some n)
  | Some MText => Raise ValueError
  end.

Section Stripe.
(** [stripe.PaymentIntent.retrieve], a call to the Stripe API. *)
Variable retrieve : string -> Res PaymentIntent.t.

Definition handle_checkout_session_completed (session : CheckoutSession.t)
  : Res SessionData :=
  (* Récupérer les métadonnées *)
  let client_id := meta_get (CheckoutSession.metadata session) "client_id" in
  let product_id := meta_get (CheckoutSession.metadata session) "product_id" in
  let freelance_id := meta_get (CheckoutSession.metadata session) "freelance_id" in
  (* Montant total payé: centimes en euros *)
  let amount_total := Dec.div_100 (Dec.of_Z (CheckoutSession.amount_total session)) in
  (* Récupérer le payment_intent pour les détails du transfert *)
  let details : Res (option string * Dec.t) :=
    match CheckoutSession.payment_intent session with
    | Some payment_intent_id =>
        if String.eqb payment_intent_id "" then Ok (None, Dec.zero_0)
        else
          match retrieve payment_intent_id with
          | Raise e => Raise e
          | Ok payment_intent =>
              Ok (if nonempty_string (PaymentIntent.transfer payment_intent)
                  then PaymentIntent.transfer payment_intent else None,
                  match PaymentIntent.application_fee_amount payment_intent with
                  | Some (Some n) =>
                      if n =? 0 then Dec.zero_0
                      else Dec.div_100 (Dec.of_Z n)
                  | _ => Dec.zero_0
                  end)
          end
    | None => Ok (None, Dec.zero_0)
    end in
  match details with
  | Raise e => Raise e
  | Ok (transfer_id, application_fee_amount) =>
      match id_of_meta client_id with
      | Raise e => Raise e
      | Ok c =>
      match id_of_meta product_id with
      | Raise e => Raise e
      | Ok p =>
      match id_of_meta freelance_id with
      | Raise e => Raise e
      | Ok f =>
          Ok (mkSessionData c p f amount_total application_fee_amount
                (CheckoutSession.id session) transfer_id Paye
                (CheckoutSession.payment_intent session))
      end end end
  end.

(** *** [app/routes/stripe_routes.py] *)

(** [stripe.Webhook.construct_event] and, for an unsigned body,
    [stripe.Event.construct_from(request.json, stripe.api_key)]. *)
Variable construct_event : string -> option string -> option string -> Res Event.
Variable construct_from : string -> Res Event.
(** [os.environ.get("STRIPE_WEBHOOK_SECRET")]. *)
Variable STRIPE_WEBHOOK_SECRET : option string.
Variable db_engine : bool.

(** The signature check is skipped: no header and no secret. *)
Definition unverified (sig_header : option string) : bool :=
  negb (nonempty_string sig_header)
  && negb (nonempty_string STRIPE_WEBHOOK_SECRET).

Definition stripe_webhook (now : Z) (payload : string)
  (sig_header : option string) : M Response :=
  let verified : Res Event + Response :=
    if unverified sig_header then
      (* En développement, on peut ignorer la vérification de signature *)
      inl (construct_from payload)
    else
      match construct_event payload sig_header STRIPE_WEBHOOK_SECRET with
      | Ok event => inl (Ok event)
      | Raise ValueError => inr (400, Message "Invalid payload")
      | Raise SignatureVerificationError => inr (400, Message "Invalid signature")
      | Raise e => inl (Raise e)
      end in
  match verified with
  | inr response => ret response
  | inl (Raise e) => raise e
  | inl (Ok event) =>
      (* Gérer l'événement *)
      match event with
      | CheckoutSessionCompleted o =>
          try_except
            ((* Traiter le paiement réussi *)
             session_data <- lift_res (handle_checkout_session_completed o) ;;
             (* Enregistrer la vente en base de données *)
             if negb db_engine
             then ret (500, Message "Database connection error")
             else
               vente_id <- sql_insert_vente
                 (Vente.mk 0 (sd_freelance_id session_data)
                    (sd_client_id session_data) (sd_product_id session_data)
                    (sd_montant session_data) Dec.zero_0 now (Some "stripe")
                    (sd_commission_plateforme session_data)
                    Dec.zero_0 Dec.zero_0 Dec.zero_0 None None
                    (Some (sd_stripe_payment_id session_data))
                    (Some (sd_statut_paiement session_data)) None None) ;;
               (* Commit les changements *)
               db_commit ;;;
               ret (200, Message "Success"))
            (fun e =>
               (* On renvoie 200 même en cas d'erreur *)
               ret (200, Message "Processed with error (will not retry)"))
      | _ => ret (200, Message "Success")
      end
  end.
End Stripe.

(** *** [token_required], the decorator of the Flask routes *)

(** [s.lower()] on the ASCII letters, which is all that a comparison with
    'bearer' can see. *)
Definition lower_ascii (c : Ascii.ascii) : Ascii.ascii :=
  let n := Ascii.nat_of_ascii c in
  if (Nat.leb 65 n && Nat.leb n 90)%bool
  then Ascii.ascii_of_nat (n + 32) else c.

Fixpoint lower (s : string) : string :=
  match s with
  | EmptyString => EmptyString
  | String c s' => String (lower_ascii c) (lower s')
  end.

Section Auth.
(** [decode_token] of [app/utils/jwt_utils.py]: the payload of a valid
    token, its values kept by what [int()] makes of them, or None. *)
Variable decode_token : string -> option Metadata.

(** [authorization] is the Authorization header by the parts
    [auth_header.split()] gives; [None] when the header is absent. *)
Definition token_required (f : Z -> M Response)
  (authorization : option (list string)) : M Response :=
  let token :=
    match authorization with
    | Some [scheme; t] =>
        if String.eqb (lower scheme) "bearer" then Some t else None
    | _ => None
    end in
  match token with
  | None => ret (401, Message "Token is missing!")
  | Some token =>
      if String.eqb token "" then ret (401, Message "Token is missing!")
      else
        try_except
          (match decode_token token with
           | None | Some [] => ret (401, Message "Token is invalid!")
           | Some payload =>
               (* Add user_id to request for route handlers *)
               user_id <-
                 match meta_get payload "sub" with
                 | None => raise (KeyError "sub")
                 | Some (MInt n) => ret n
                 | Some _ => raise ValueError
                 end ;;
               f user_id
           end)
          (fun e => ret (401, Message "Token is invalid!"))
  end.
End Auth.

End Flask.

(** ** Ranges and sample data used by the statements below *)

(** A rate read from a [pourcentage] column, NUMERIC(5,2), and divided by
    100: below 10, at most four places; or no rate at all. *)
Definition rate_ok (r : option Dec.t) : Prop :=
  match r with
  | Some d => Dec.bounded 1 4 d
  | None => True
  end.

(** Amounts below [10^12] with at most four decimal places. *)
Definition amount_ok (d : Dec.t) : Prop := Dec.bounded 12 4 d.

(** A database with a freelancer, an admin, a client, a product, and
    commercials and partners with and without a percentage. *)
Definition sample_db : DB :=
  mkDB [ User.mk 1 "freelance" (Some "acct_1") false None None;
         User.mk 2 "admin" None false None None ]
       [ Client.mk 1 None None ]
       [ Produit.mk 1 "site" true ]
       [ Commercial.mk 1 (Some (Dec.mk 500 (-2))); Commercial.mk 2 None ]
       [ Partenaire.mk 1 (Some (Dec.mk 200 (-2))); Partenaire.mk 2 None ]
       [] [] [] 1 1.

(** Euro amounts with two places: [eur 1500] is 15.00. *)
Definition eur (cents : Z) : Dec.t := Dec.mk cents (-2).

(** The float 100.0 as the Flask routes read it: [str(100.0)] is '100.0'. *)
Definition float_100 : Dec.t := Dec.mk 1000 (-1).

(** A percentage column that is NULL or zero: [if x.pourcentage] is false. *)
Definition no_percentage (x : option Dec.t) : Prop :=
  match x with
  | Some p => Dec.truthy p = false
  | None => True
  end.

(** A request that sets the payment status and nothing else. *)
Definition status_update (target : StatutPaiement) : FastAPI.VenteUpdate.t :=
  FastAPI.VenteUpdate.mk (Some (Some target)) None None None.

(** A sale of freelancer 1 to client 1, with the given status. *)
Definition sample_sale (id : Z) (statut : StatutPaiement) : Vente.t :=
  Vente.mk id (Some 1) (Some 1) (Some 1) (eur 10000) Dec.zero_0 0 (Some "manuel")
           (Dec.mk 100000 (-4)) Dec.zero_1 Dec.zero_1 (Dec.mk 900000 (-4))
           None None None (Some statut) None None.

Definition sample_db_with (statut : StatutPaiement) : DB :=
  with_ventes sample_db [sample_sale 1 statut] 2.

Definition freelancer_1 : User.t := User.mk 1 "freelance" (Some "acct_1") false None None.

(** A verifier that rejects every signature, one that accepts every body
    as the event [e], and the secret of the samples. *)
Definition reject_all : string -> option string -> option string -> Res Event :=
  fun _ _ _ => Raise SignatureVerificationError.
Definition accept_as (e : Event)
  : string -> option string -> option string -> Res Event :=
  fun _ _ _ => Ok e.
Definition whsec : string := "whsec_test".

Definition sample_payment_intent : PaymentIntent.t :=
  PaymentIntent.mk "pi_1" 10000 (Some (Some 1000)) None
    (Some [ ("freelance_id", MInt 1); ("product_id", MInt 1);
            ("client_id", MInt 1); ("platform", MText) ]).

Definition empty_payment_intent : PaymentIntent.t :=
  PaymentIntent.mk "pi_2" 10000 (Some None) None (Some []).

(** Requests for a sale of 100.00 by freelancer 1 to client 1. *)
Definition sample_sale_request (commercial partenaire : option Z)
  : FastAPI.VenteCreate.t :=
  FastAPI.VenteCreate.mk 1 1 1 (eur 10000) None (Some "manuel")
                         commercial partenaire.

Definition sample_flask_request (commercial partenaire : option Z)
  : Flask.SaleRequest.t :=
  Flask.SaleRequest.mk (Some 1) (Some float_100) true (Some 1) None None None
                       commercial partenaire.


Definition sample_checkout_session : CheckoutSession.t :=
  CheckoutSession.mk "cs_1"
    [ ("client_id", MInt 1); ("product_id", MInt 1); ("freelance_id", MInt 1) ]
    10000 (Some "pi_1").

Definition sample_retrieve : string -> Res PaymentIntent.t :=
  fun _ => Ok sample_payment_intent.

(** The same request handled twice, one delivery after the other. *)
Definition twice {A} (h : M A) (d : DB) : Res A * Res A * DB :=
  let (r1, d1) := run h d in
  let (r2, d2) := run h d1 in
  (r1, r2, d2).

(** [d'] has the sales of [d] (by id), its affiliations, users and clients. *)
Definition frame (d d' : DB) : Prop :=
  map Vente.id (ventes d') = map Vente.id (ventes d)
  /\ affiliations d' = affiliations d
  /\ users d' = users d
  /\ clients d' = clients d.

(** The rate a party is charged at, as a rational: that of [if rate:], or 0. *)
Definition rate_value (r : option Dec.t) : Q :=
  match FastAPI.rate_given r with
  | Some x => Dec.toQ x
  | None => 0%Q
  end.

(** A payment request of 100.00 for freelancer 1, product 1 and client 1. *)
Definition sample_payment_request (commercial partenaire : option Z)
  : FastAPI.PaymentRequest.t :=
  FastAPI.PaymentRequest.mk (Some (eur 10000)) (Some 1) (Some 1) (Some 1)
                            commercial partenaire None.

(** An affiliation without its own id: who referred which sale, for what. *)
Definition affiliation_link (a : Affiliation.t) : SourceType * Z * Z * Dec.t :=
  (Affiliation.source_type a, Affiliation.source_id a, Affiliation.vente_id a,
   Affiliation.commission a).

(** The columns of a user that say who they are and what they earned. *)
Definition user_identity (u : User.t)
  : Z * string * option string * option Dec.t :=
  (User.id u, User.role u, User.stripe_account_id u, User.total_revenue u).



(** A handler stopped on an exception with nothing committed. *)
Definition fails_unchanged {A} (d : DB) (x : Res A * DB) : Prop :=
  snd x = d /\ exists e, fst x = Raise e.

(** What a webhook handler leaves of a session opened on [d]: the sales (by
    id), the affiliations and the clients; and all of [d] when it raised. *)
Definition settled {A} (d : DB) (x : Res A * Session) : Prop :=
  map Vente.id (ventes (persisted (snd x))) = map Vente.id (ventes d)
  /\ affiliations (persisted (snd x)) = affiliations d
  /\ clients (persisted (snd x)) = clients d
  /\ (forall e, fst x = Raise e -> persisted (snd x) = d).

(** The admin of the sample database, and a sale with an affiliation. *)
Definition admin_2 : User.t := User.mk 2 "admin" None false None None.

Definition sample_db_referred : DB :=
  with_affiliations (sample_db_with Paye)
    [ Affiliation.mk 1 SrcCommercial 1 1 (Dec.mk 50000 (-4)) ] 2.


Definition sample_account : Account.t :=
  Account.mk "acct_1" (Some true)
             (Some (Account.mk_requirements [] None)).

(** A checkout session without metadata and without payment intent. *)
Definition empty_checkout_session : CheckoutSession.t :=
  CheckoutSession.mk "cs_2" [] 10000 None.


(** The sale the Flask webhook records for a completed checkout session:
    paid, bound to the id of the session, without referrer, and with the
    commissions of the referrers and the net amount at the default 0. *)
Definition recorded_for (o : CheckoutSession.t) (sale : Vente.t) : Prop :=
  Vente.stripe_payment_id sale = Some (CheckoutSession.id o)
  /\ Vente.statut_paiement sale = Some Paye
  /\ Vente.source sale = Some "stripe"
  /\ Vente.commercial_id sale = None
  /\ Vente.partenaire_id sale = None
  /\ Vente.commission_commerciale sale = Dec.zero_0
  /\ Vente.commission_partenaire sale = Dec.zero_0
  /\ Vente.montant_net_freelance sale = Dec.zero_0.

(** What the Flask webhook leaves, [event] being the event it was given:
    users, clients and affiliations as they were, and either the whole
    database as it was, or one more sale, recorded for a completed checkout
    session and answered with success. *)
Definition flask_webhook_outcome (event : Res Event) (d : DB)
  (x : Res Flask.Response * DB) : Prop :=
  users (snd x) = users d
  /\ clients (snd x) = clients d
  /\ affiliations (snd x) = affiliations d
  /\ (snd x = d
      \/ exists o sale,
           event = Ok (CheckoutSessionCompleted o)
           /\ fst x = Ok (200, Flask.Message "Success")
           /\ ventes (snd x) = (ventes d ++ [sale])%list
           /\ recorded_for o sale).

(** The Authorization header is a bearer token that decodes to a payload
    whose subject is the integer [user_id]. *)
Definition token_accepted (decode_token : string -> option Metadata)
  (authorization : option (list string)) (user_id : Z) : Prop :=
  exists scheme token payload,
    authorization = Some [scheme; token]
    /\ Flask.lower scheme = "bearer"
    /\ decode_token token = Some payload
    /\ meta_get payload "sub" = Some (MInt user_id).

(** A [pourcentage] column, NUMERIC(5,2): below 1000 with two places, or
    NULL. *)
Definition percentage_ok (x : option Dec.t) : Prop :=
  match x with
  | Some p => Dec.bounded 3 2 p
  | None => True
  end.

(** A checkout request of 100.00 for freelancer 1, product 1 and client 1. *)
Definition sample_checkout_request (commercial partenaire : option Z)
  : FastAPI.CheckoutRequest.t :=
  FastAPI.CheckoutRequest.mk (Some (eur 10000)) (Some 1) (Some 1) (Some 1)
                             (Some "https://ok") (Some "https://no")
                             commercial partenaire None.





(** A sale without user, client and product, as the Flask webhook records
    one for a checkout session without metadata. *)
Definition unbound_sale (statut : StatutPaiement) : Vente.t :=
  Vente.mk 1 None None None (eur 10000) Dec.zero_0 0 (Some "stripe")
           Dec.zero_0 Dec.zero_0 Dec.zero_0 Dec.zero_0
           None None (Some "cs_1") (Some statut) None None.

(** A client whose lifetime value is 60000000.00, and a sale of the same
    amount to that client. *)
Definition sample_db_large : DB :=
  with_clients sample_db [ Client.mk 1 (Some (eur 6000000000)) None ].

Definition large_sale_request : FastAPI.VenteCreate.t :=
  FastAPI.VenteCreate.mk 1 1 1 (eur 6000000000) None (Some "manuel") None None.

(** * Facts *)

(** ** The decimal operations on examples *)

Example ndigits_examples :
  Dec.ndigits 1234567 = 7 /\ Dec.ndigits 0 = 1 /\ Dec.ndigits (10 ^ 28) = 29.
Proof. vm_compute. repeat split; reflexivity. Qed.

Example round_half_even_examples :
  Dec.round_half_even 25 1 = 2 /\ Dec.round_half_even 35 1 = 4
  /\ Dec.round_half_even (-25) 1 = -2 /\ Dec.round_half_even 26 1 = 3.
Proof. vm_compute. repeat split; reflexivity. Qed.

(** 100.00 * 0.10 is 10.0000; 5.00 / 100 is 0.05 and 7.25 / 100 is 0.0725;
    0.005, 0.015 and 0.0425 quantize to 0.00, 0.02 and 0.04. *)
Example arithmetic_examples :
  Dec.mul (Dec.mk 10000 (-2)) (Dec.mk 10 (-2)) = Dec.mk 100000 (-4)
  /\ Dec.sub (Dec.mk 10000 (-2)) (Dec.mk 0 (-1)) = Dec.mk 10000 (-2)
  /\ Dec.div_100 (Dec.mk 500 (-2)) = Dec.mk 5 (-2)
  /\ Dec.div_100 (Dec.mk 725 (-2)) = Dec.mk 725 (-4)
  /\ Dec.div_100 (Dec.of_Z 10000) = Dec.mk 100 0
  /\ Dec.quantize_cents (Dec.mk 5 (-3)) = Some (Dec.mk 0 (-2))
  /\ Dec.quantize_cents (Dec.mk 15 (-3)) = Some (Dec.mk 2 (-2))
  /\ Dec.quantize_cents (Dec.mk 425 (-4)) = Some (Dec.mk 4 (-2)).
Proof. vm_compute. repeat split; reflexivity. Qed.

(** A result of 29 digits is rounded to 28. *)
Example fix_prec_example :
  Dec.fix_prec (Dec.mk 89999999999999999999999999991 (-1))
  = Dec.mk 8999999999999999999999999999 0.
Proof. vm_compute. reflexivity. Qed.

(** ** Decimal arithmetic is exact below the context precision *)
Module DecFacts.
Import Dec.

Lemma pow10_pos (k : Z) : 0 <= k -> 0 < 10 ^ k.
Proof. intros; apply Z.pow_pos_nonneg; lia. Qed.

Lemma pow10_split (a b : Z) : 0 <= a -> 0 <= b -> 10 ^ (a + b) = 10 ^ a * 10 ^ b.
Proof. intros; apply Z.pow_add_r; assumption. Qed.

Lemma fix_prec_small (d : t) : Z.abs (coef d) < 10 ^ prec -> fix_prec d = d.
Proof.
  intros H. unfold fix_prec.
  destruct (Z.ltb_spec (Z.abs (coef d)) (10 ^ prec)); [reflexivity | lia].
Qed.

Lemma bounded_coef (N E : Z) (d : t) :
  0 <= N -> 0 <= E -> bounded N E d -> Z.abs (coef d) < 10 ^ (N + E).
Proof.
  intros HN HE [He Hc].
  pose proof (pow10_pos (expo d + E) ltac:(lia)).
  pose proof (Z.abs_nonneg (coef d)). nia.
Qed.

Lemma bounded_fits (N E : Z) (d : t) :
  0 <= N -> 0 <= E -> N + E <= prec -> bounded N E d -> fix_prec d = d.
Proof.
  intros HN HE HP Hb. apply fix_prec_small.
  pose proof (bounded_coef N E d HN HE Hb).
  assert (10 ^ (N + E) <= 10 ^ prec) by (apply Z.pow_le_mono_r; lia).
  lia.
Qed.

Lemma bounded_weaken (N E N' E' : Z) (d : t) :
  0 <= N -> 0 <= E -> N <= N' -> E <= E' -> bounded N E d -> bounded N' E' d.
Proof.
  intros HN HE HN' HE' [He Hc]. split; [lia|].
  replace (expo d + E') with ((expo d + E) + (E' - E)) by lia.
  rewrite pow10_split by lia.
  assert (10 ^ (N + E) * 10 ^ (E' - E) <= 10 ^ (N' + E')).
  { rewrite <- pow10_split by lia. apply Z.pow_le_mono_r; lia. }
  pose proof (pow10_pos (E' - E) ltac:(lia)).
  pose proof (Z.abs_nonneg (coef d)). nia.
Qed.

Lemma bounded_neg (N E : Z) (d : t) : bounded N E d -> bounded N E (neg d).
Proof. unfold bounded, neg; simpl. now rewrite Z.abs_opp. Qed.

Lemma bounded_mul_raw (N1 E1 N2 E2 : Z) (a b : t) :
  0 <= N1 -> 0 <= E1 -> 0 <= N2 -> 0 <= E2 ->
  bounded N1 E1 a -> bounded N2 E2 b ->
  bounded (N1 + N2) (E1 + E2) (mul_raw a b).
Proof.
  intros ? ? ? ? [Hea Hca] [Heb Hcb]. unfold bounded, mul_raw; simpl.
  split; [lia|].
  rewrite Z.abs_mul.
  replace (expo a + expo b + (E1 + E2)) with ((expo a + E1) + (expo b + E2)) by lia.
  replace (N1 + N2 + (E1 + E2)) with ((N1 + E1) + (N2 + E2)) by lia.
  rewrite (pow10_split (expo a + E1)), (pow10_split (N1 + E1)) by lia.
  pose proof (pow10_pos (expo a + E1) ltac:(lia)).
  pose proof (pow10_pos (expo b + E2) ltac:(lia)).
  pose proof (Z.abs_nonneg (coef a)). pose proof (Z.abs_nonneg (coef b)).
  replace (Z.abs (coef a) * Z.abs (coef b) * (10 ^ (expo a + E1) * 10 ^ (expo b + E2)))
    with ((Z.abs (coef a) * 10 ^ (expo a + E1)) * (Z.abs (coef b) * 10 ^ (expo b + E2))) by ring.
  apply Z.mul_lt_mono_nonneg; nia.
Qed.

Lemma bounded_add_raw (N E : Z) (a b : t) :
  0 <= N -> 0 <= E ->
  bounded N E a -> bounded N E b -> bounded (N + 1) E (add_raw a b).
Proof.
  intros ? ? [Hea Hca] [Heb Hcb]. unfold bounded, add_raw, shift_to; simpl.
  set (m := Z.min (expo a) (expo b)).
  assert (Hm : - E <= m /\ m <= expo a /\ m <= expo b) by (subst m; lia).
  split; [lia|].
  pose proof (pow10_pos (expo a - m) ltac:(lia)) as Pa.
  pose proof (pow10_pos (expo b - m) ltac:(lia)) as Pb.
  pose proof (pow10_pos (m + E) ltac:(lia)) as Pm.
  assert (Ha : Z.abs (coef a) * 10 ^ (expo a + E)
               = Z.abs (coef a * 10 ^ (expo a - m)) * 10 ^ (m + E)).
  { rewrite Z.abs_mul, (Z.abs_eq (10 ^ _)) by lia.
    replace (expo a + E) with ((expo a - m) + (m + E)) by lia.
    rewrite pow10_split by lia. ring. }
  assert (Hb : Z.abs (coef b) * 10 ^ (expo b + E)
               = Z.abs (coef b * 10 ^ (expo b - m)) * 10 ^ (m + E)).
  { rewrite Z.abs_mul, (Z.abs_eq (10 ^ _)) by lia.
    replace (expo b + E) with ((expo b - m) + (m + E)) by lia.
    rewrite pow10_split by lia. ring. }
  replace (N + 1 + E) with (1 + (N + E)) by lia.
  rewrite (pow10_split 1) by lia. change (10 ^ 1) with 10.
  pose proof (Z.abs_triangle (coef a * 10 ^ (expo a - m)) (coef b * 10 ^ (expo b - m))).
  nia.
Qed.

(** What the decimals denote. *)

Lemma ten_neq_0 : ~ (inject_Z 10 == 0)%Q.
Proof. discriminate. Qed.

Lemma toQ_shift (d : t) (e : Z) :
  e <= expo d ->
  (inject_Z (shift_to d e) * inject_Z 10 ^ e == toQ d)%Q.
Proof.
  intros H. unfold shift_to, toQ.
  rewrite inject_Z_mult, Zpower_Qpower by lia.
  replace (expo d) with ((expo d - e) + e) at 2 by lia.
  rewrite (Qpower_plus _ _ _ ten_neq_0). ring.
Qed.

Lemma toQ_add_raw (a b : t) : (toQ (add_raw a b) == toQ a + toQ b)%Q.
Proof.
  unfold add_raw. set (m := Z.min (expo a) (expo b)).
  unfold toQ at 1; simpl. rewrite inject_Z_plus.
  rewrite <- (toQ_shift a m), <- (toQ_shift b m) by (subst m; lia). ring.
Qed.

Lemma toQ_mul_raw (a b : t) : (toQ (mul_raw a b) == toQ a * toQ b)%Q.
Proof.
  unfold mul_raw, toQ; simpl.
  rewrite inject_Z_mult, (Qpower_plus _ _ _ ten_neq_0). ring.
Qed.

Lemma toQ_neg (a : t) : (toQ (neg a) == - toQ a)%Q.
Proof. unfold neg, toQ; simpl. rewrite inject_Z_opp. ring. Qed.

(** The context operations on bounded operands. *)

Lemma add_spec (N E : Z) (a b : t) :
  0 <= N -> 0 <= E -> N + 1 + E <= prec ->
  bounded N E a -> bounded N E b ->
  (toQ (add a b) == toQ a + toQ b)%Q /\ bounded (N + 1) E (add a b).
Proof.
  intros HN HE HP Ha Hb.
  pose proof (bounded_add_raw N E a b HN HE Ha Hb) as Hr.
  unfold add. rewrite (bounded_fits (N + 1) E) by (assumption || lia).
  split; [apply toQ_add_raw | assumption].
Qed.

Lemma sub_spec (N E : Z) (a b : t) :
  0 <= N -> 0 <= E -> N + 1 + E <= prec ->
  bounded N E a -> bounded N E b ->
  (toQ (sub a b) == toQ a - toQ b)%Q /\ bounded (N + 1) E (sub a b).
Proof.
  intros HN HE HP Ha Hb. unfold sub.
  destruct (add_spec N E a (neg b) HN HE HP Ha (bounded_neg _ _ _ Hb)) as [Hq Hbd].
  split; [|assumption]. rewrite Hq, toQ_neg. ring.
Qed.

Lemma mul_spec (N1 E1 N2 E2 : Z) (a b : t) :
  0 <= N1 -> 0 <= E1 -> 0 <= N2 -> 0 <= E2 -> N1 + N2 + (E1 + E2) <= prec ->
  bounded N1 E1 a -> bounded N2 E2 b ->
  (toQ (mul a b) == toQ a * toQ b)%Q /\ bounded (N1 + N2) (E1 + E2) (mul a b).
Proof.
  intros ? ? ? ? HP Ha Hb.
  pose proof (bounded_mul_raw N1 E1 N2 E2 a b ltac:(lia) ltac:(lia) ltac:(lia) ltac:(lia) Ha Hb) as Hr.
  unfold mul. rewrite (bounded_fits (N1 + N2) (E1 + E2)) by (assumption || lia).
  split; [apply toQ_mul_raw | assumption].
Qed.

End DecFacts.

(** ** The commission split *)

Lemma bounded_zero (N E e : Z) : 0 <= N -> 0 <= E -> - E <= e -> Dec.bounded N E (Dec.mk 0 e).
Proof.
  intros. split; simpl; [lia|]. apply DecFacts.pow10_pos. lia.
Qed.

Lemma commission_bounded (disc : Dec.t) (r : option Dec.t) :
  Dec.bounded 13 4 disc -> rate_ok r ->
  Dec.bounded 14 8
    match FastAPI.rate_given r with
    | Some x => Dec.mul disc x
    | None => Dec.zero_1
    end.
Proof.
  intros Hd Hr. unfold FastAPI.rate_given.
  destruct r as [x|]; [destruct (Dec.truthy x)|];
    try (apply bounded_zero; lia).
  simpl in Hr.
  destruct (DecFacts.mul_spec 13 4 1 4 disc x) as [_ H]; try assumption; try (unfold Dec.prec; lia).
Qed.

Lemma platform_rate_bounded : Dec.bounded 0 2 (Dec.mk 10 (-2)).
Proof. split; simpl; lia. Qed.

(** The split of [calculate_commissions_with_partners], in rationals. *)
Lemma split_spec (amount discount : Dec.t) (cr pr : option Dec.t) :
  amount_ok amount -> amount_ok discount -> rate_ok cr -> rate_ok pr ->
  let c := FastAPI.calculate_commissions_with_partners amount discount cr pr in
  (Dec.toQ (FastAPI.discounted_amount c) == Dec.toQ amount - Dec.toQ discount)%Q
  /\ (Dec.toQ (FastAPI.platform_fee c)
      == Dec.toQ (FastAPI.discounted_amount c) * (1 # 10))%Q
  /\ (Dec.toQ (FastAPI.net_amount c)
      == Dec.toQ (FastAPI.discounted_amount c)
         - (Dec.toQ (FastAPI.platform_fee c)
            + Dec.toQ (FastAPI.commercial_commission c)
            + Dec.toQ (FastAPI.partner_commission c)))%Q.
Proof.
  intros Ha Hd Hcr Hpr. unfold amount_ok in *.
  unfold FastAPI.calculate_commissions_with_partners; cbv zeta; simpl.
  destruct (DecFacts.sub_spec 12 4 amount discount) as [Qd Bd];
    try assumption; try (unfold Dec.prec; lia).
  set (disc := Dec.sub amount discount) in *.
  change (12 + 1) with 13 in Bd.
  destruct (DecFacts.mul_spec 13 4 0 2 disc (Dec.mk 10 (-2))) as [Qp Bp];
    try assumption; try apply platform_rate_bounded; try (unfold Dec.prec; lia).
  set (pf := Dec.mul disc (Dec.mk 10 (-2))) in *.
  pose proof (commission_bounded disc cr Bd Hcr) as Bc.
  pose proof (commission_bounded disc pr Bd Hpr) as Bq.
  set (cc := match FastAPI.rate_given cr with Some x => Dec.mul disc x | None => Dec.zero_1 end) in *.
  set (pc := match FastAPI.rate_given pr with Some x => Dec.mul disc x | None => Dec.zero_1 end) in *.
  assert (Bp' : Dec.bounded 14 8 pf)
    by (apply (DecFacts.bounded_weaken (13 + 0) (4 + 2)); try lia; assumption).
  destruct (DecFacts.add_spec 14 8 pf cc) as [Q1 B1];
    try assumption; try (unfold Dec.prec; lia).
  assert (Bq' : Dec.bounded 15 8 pc)
    by (apply (DecFacts.bounded_weaken 14 8); try lia; assumption).
  destruct (DecFacts.add_spec 15 8 (Dec.add pf cc) pc) as [Q2 B2];
    try assumption; try (unfold Dec.prec; lia).
  assert (Bd' : Dec.bounded 16 8 disc)
    by (apply (DecFacts.bounded_weaken 13 4); try lia; assumption).
  destruct (DecFacts.sub_spec 16 8 disc (Dec.add (Dec.add pf cc) pc)) as [Q3 B3];
    try assumption; try (unfold Dec.prec; lia).
  split; [exact Qd|]. split.
  - rewrite Qp. unfold Dec.toQ at 2; simpl. field.
  - rewrite Q3, Q2, Q1. reflexivity.
Qed.


(** Beyond the range the context rounds: on an amount of 28 nines the
    residual is rounded and the components fall short of the amount. *)
Example split_beyond_precision :
  let amount := Dec.of_Z 9999999999999999999999999999 in
  let c := FastAPI.calculate_commissions_with_partners amount Dec.zero_1 None None in
  FastAPI.platform_fee c = Dec.mk 9999999999999999999999999999 (-1)
  /\ FastAPI.net_amount c = Dec.of_Z 8999999999999999999999999999
  /\ ~ (Dec.toQ (FastAPI.platform_fee c) + Dec.toQ (FastAPI.commercial_commission c)
        + Dec.toQ (FastAPI.partner_commission c) + Dec.toQ (FastAPI.net_amount c)
        == Dec.toQ amount - Dec.toQ Dec.zero_1)%Q.
Proof. vm_compute. repeat split; try reflexivity. discriminate. Qed.



(** ** Platform rate *)

Lemma truthy_id_some (i : Z) : i <> 0 -> truthy_id (Some i) = true.
Proof. intros H. unfold truthy_id. now apply Z.eqb_neq in H as ->. Qed.

(** C3 (amended): [calculate_commissions] of the Flask sales route selects
    the platform rate by the referral ids that are given: on 100.00 it
    returns 15.00 / 0 / 0 / 85.00 without referral, 10.00 / 5.00 / 0 / 85.00
    with a commercial at 5%, 13.00 / 0 / 2.00 / 85.00 with a partner at 2%
    and 8.00 / 5.00 / 2.00 / 85.00 with both.
    [calculate_commissions_with_partners] charges the platform 10% whoever
    is present: on 100.00 without discount its platform_fee is 10.00 in the
    four cases and its net_amount 90.00, 85.00, 88.00 and 83.00. *)
Theorem C3_platform_rate (d : DB) (c p : Z) :
  c <> 0 -> p <> 0 ->
  option_map Commercial.pourcentage (get_commercial d c) = Some (Some (eur 500)) ->
  option_map Partenaire.pourcentage (get_partenaire d p) = Some (Some (eur 200)) ->
  (run (Flask.calculate_commissions float_100 None None) d
   = (Ok (Flask.mkCommissions (eur 1500) (eur 0) (eur 0) (eur 8500)), d)
   /\ run (Flask.calculate_commissions float_100 (Some c) None) d
      = (Ok (Flask.mkCommissions (eur 1000) (eur 500) (eur 0) (eur 8500)), d)
   /\ run (Flask.calculate_commissions float_100 None (Some p)) d
      = (Ok (Flask.mkCommissions (eur 1300) (eur 0) (eur 200) (eur 8500)), d)
   /\ run (Flask.calculate_commissions float_100 (Some c) (Some p)) d
      = (Ok (Flask.mkCommissions (eur 800) (eur 500) (eur 200) (eur 8500)), d))
  /\ (let f := FastAPI.calculate_commissions_with_partners (eur 10000) Dec.zero_1 in
      let r5 := FastAPI.rate_of (Some (eur 500)) in
      let r2 := FastAPI.rate_of (Some (eur 200)) in
      (FastAPI.platform_fee (f None None) = Dec.mk 100000 (-4)
       /\ FastAPI.net_amount (f None None) = Dec.mk 900000 (-4))
      /\ (FastAPI.platform_fee (f r5 None) = Dec.mk 100000 (-4)
          /\ FastAPI.commercial_commission (f r5 None) = Dec.mk 50000 (-4)
          /\ FastAPI.net_amount (f r5 None) = Dec.mk 850000 (-4))
      /\ (FastAPI.platform_fee (f None r2) = Dec.mk 100000 (-4)
          /\ FastAPI.partner_commission (f None r2) = Dec.mk 20000 (-4)
          /\ FastAPI.net_amount (f None r2) = Dec.mk 880000 (-4))
      /\ (FastAPI.platform_fee (f r5 r2) = Dec.mk 100000 (-4)
          /\ FastAPI.commercial_commission (f r5 r2) = Dec.mk 50000 (-4)
          /\ FastAPI.partner_commission (f r5 r2) = Dec.mk 20000 (-4)
          /\ FastAPI.net_amount (f r5 r2) = Dec.mk 830000 (-4))).
Proof.
  intros Hc Hp Hcom Hpar. split.
  - unfold run, Flask.calculate_commissions, bind, query, ret, open_session.
    rewrite !(truthy_id_some c Hc), !(truthy_id_some p Hp). cbn [truthy_id andb some_id work].
    rewrite Hcom, Hpar.
    repeat split; vm_compute; reflexivity.
  - vm_compute. repeat split; reflexivity.
Qed.

Lemma C3_platform_rate_witness :
  1 <> 0 /\ 1 <> 0
  /\ (run (Flask.calculate_commissions float_100 None None) sample_db
      = (Ok (Flask.mkCommissions (eur 1500) (eur 0) (eur 0) (eur 8500)), sample_db)
      /\ run (Flask.calculate_commissions float_100 (Some 1) None) sample_db
         = (Ok (Flask.mkCommissions (eur 1000) (eur 500) (eur 0) (eur 8500)), sample_db)
      /\ run (Flask.calculate_commissions float_100 None (Some 1)) sample_db
         = (Ok (Flask.mkCommissions (eur 1300) (eur 0) (eur 200) (eur 8500)), sample_db)
      /\ run (Flask.calculate_commissions float_100 (Some 1) (Some 1)) sample_db
         = (Ok (Flask.mkCommissions (eur 800) (eur 500) (eur 200) (eur 8500)), sample_db)).
Proof.
  assert (H1 : 1 <> 0) by discriminate.
  split; [exact H1|]. split; [exact H1|].
  exact (proj1 (C3_platform_rate sample_db 1 1 H1 H1 eq_refl eq_refl)).
Defined.

(** [calculate_commissions_with_partners] on 100.00 without referral: the
    platform fee is 10.0000, not 15.00. *)
Lemma C3_counterexample :
  FastAPI.platform_fee
    (FastAPI.calculate_commissions_with_partners (eur 10000) Dec.zero_1 None None)
  = Dec.mk 100000 (-4)
  /\ ~ (Dec.toQ (FastAPI.platform_fee
          (FastAPI.calculate_commissions_with_partners (eur 10000) Dec.zero_1 None None))
        == 15)%Q.
Proof. split; [vm_compute; reflexivity | vm_compute; discriminate]. Qed.

(** ** Discount above the amount *)

(** C5 (amended): for every amount and discount below 10^12 with at most
    four places, with the discount greater than the amount,
    [calculate_commissions_with_partners] does not clamp: discounted_amount
    is amount - discount, which is negative, and platform_fee is 10% of it,
    negative as well. *)
Theorem C5_no_clamp (amount discount : Dec.t) (cr pr : option Dec.t) :
  amount_ok amount -> amount_ok discount -> rate_ok cr -> rate_ok pr ->
  (Dec.toQ amount < Dec.toQ discount)%Q ->
  let c := FastAPI.calculate_commissions_with_partners amount discount cr pr in
  (Dec.toQ (FastAPI.discounted_amount c) == Dec.toQ amount - Dec.toQ discount)%Q
  /\ (Dec.toQ (FastAPI.discounted_amount c) < 0)%Q
  /\ (Dec.toQ (FastAPI.platform_fee c)
      == (Dec.toQ amount - Dec.toQ discount) * (1 # 10))%Q
  /\ (Dec.toQ (FastAPI.platform_fee c) < 0)%Q.
Proof.
  intros Ha Hd Hcr Hpr Hlt c.
  destruct (split_spec amount discount cr pr Ha Hd Hcr Hpr) as (Qd & Qp & _).
  fold c in Qd, Qp.
  repeat split; lra.
Qed.

Lemma C5_no_clamp_witness :
  amount_ok (eur 5000) /\ amount_ok (eur 10000)
  /\ (Dec.toQ (eur 5000) < Dec.toQ (eur 10000))%Q
  /\ let c := FastAPI.calculate_commissions_with_partners
                (eur 5000) (eur 10000) None None in
     (Dec.toQ (FastAPI.discounted_amount c)
      == Dec.toQ (eur 5000) - Dec.toQ (eur 10000))%Q
     /\ (Dec.toQ (FastAPI.discounted_amount c) < 0)%Q
     /\ (Dec.toQ (FastAPI.platform_fee c)
         == (Dec.toQ (eur 5000) - Dec.toQ (eur 10000)) * (1 # 10))%Q
     /\ (Dec.toQ (FastAPI.platform_fee c) < 0)%Q.
Proof.
  assert (A1 : amount_ok (eur 5000)) by (split; simpl; lia).
  assert (A2 : amount_ok (eur 10000)) by (split; simpl; lia).
  assert (L : (Dec.toQ (eur 5000) < Dec.toQ (eur 10000))%Q) by reflexivity.
  split; [exact A1|]. split; [exact A2|]. split; [exact L|].
  exact (C5_no_clamp (eur 5000) (eur 10000) None None A1 A2 I I L).
Defined.

(** Amount 50.00, discount 100.00: the net before split is -50.00, the
    platform fee -5.0000 and the freelancer's net -45.0000. *)
Lemma C5_counterexample :
  let c := FastAPI.calculate_commissions_with_partners
             (eur 5000) (eur 10000) None None in
  FastAPI.discounted_amount c = eur (-5000)
  /\ FastAPI.platform_fee c = Dec.mk (-50000) (-4)
  /\ FastAPI.net_amount c = Dec.mk (-450000) (-4)
  /\ (Dec.toQ (FastAPI.discounted_amount c) < 0)%Q
  /\ ~ (Dec.toQ (FastAPI.platform_fee c) == 0)%Q
  /\ ~ (Dec.toQ (FastAPI.net_amount c) == 0)%Q.
Proof.
  vm_compute. repeat split; try reflexivity; discriminate.
Qed.

(** ** A party without a percentage *)

Lemma custom_rate_default (x : option Dec.t) (default : Dec.t) :
  no_percentage x -> Flask.custom_rate (Some x) default = default.
Proof.
  destruct x as [p|]; simpl; [intros ->|]; reflexivity.
Qed.

Lemma rate_of_none (x : option Dec.t) : no_percentage x -> FastAPI.rate_of x = None.
Proof.
  destruct x as [p|]; simpl; [intros ->|]; reflexivity.
Qed.

(** C8 (amended): in the Flask [calculate_commissions] a commercial that
    exists without a percentage selects the 10% platform tier and is charged
    the default 5% of the amount, and a partner without a percentage selects
    the 13% tier and is charged the default 2%, each rounded to cents.  In
    the FastAPI code such a party has no rate ([rate_of] gives None), its
    commission is Decimal('0.0'), and the platform fee is the 10% it is
    without any party. *)
Theorem C8_party_without_percentage (d : DB) (montant : Dec.t) (c p : Z)
  (com : Commercial.t) (par : Partenaire.t) :
  c <> 0 -> p <> 0 ->
  get_commercial d c = Some com -> no_percentage (Commercial.pourcentage com) ->
  get_partenaire d p = Some par -> no_percentage (Partenaire.pourcentage par) ->
  (forall r, fst (run (Flask.calculate_commissions montant (Some c) None) d) = Ok r ->
     Dec.quantize_cents (Dec.mul montant (Dec.mk 10 (-2))) = Some (Flask.plateforme r)
     /\ Dec.quantize_cents (Dec.mul montant (Dec.mk 5 (-2))) = Some (Flask.commerciale r))
  /\ (forall r, fst (run (Flask.calculate_commissions montant None (Some p)) d) = Ok r ->
     Dec.quantize_cents (Dec.mul montant (Dec.mk 13 (-2))) = Some (Flask.plateforme r)
     /\ Dec.quantize_cents (Dec.mul montant (Dec.mk 2 (-2))) = Some (Flask.partenaire r))
  /\ (forall amount discount other,
        let none := FastAPI.calculate_commissions_with_partners amount discount None None in
        let r := FastAPI.rate_of (Commercial.pourcentage com) in
        let r' := FastAPI.rate_of (Partenaire.pourcentage par) in
        let x := FastAPI.calculate_commissions_with_partners amount discount r other in
        let y := FastAPI.calculate_commissions_with_partners amount discount other r' in
        FastAPI.commercial_commission x = Dec.zero_1
        /\ FastAPI.platform_fee x = FastAPI.platform_fee none
        /\ FastAPI.partner_commission y = Dec.zero_1
        /\ FastAPI.platform_fee y = FastAPI.platform_fee none).
Proof.
  intros Hc Hp Hcom Hnc Hpar Hnp. split; [|split].
  - intros r.
    unfold run, Flask.calculate_commissions, bind, query, ret, open_session, Flask.quantize, raise.
    rewrite !(truthy_id_some c Hc). cbn [truthy_id andb some_id work].
    rewrite Hcom. cbn [option_map]. rewrite (custom_rate_default _ _ Hnc).
    repeat match goal with
           | |- context [Dec.quantize_cents ?x] =>
               destruct (Dec.quantize_cents x) eqn:?; cbn [fst]
           end; intros H; inversion H; subst; auto.
  - intros r.
    unfold run, Flask.calculate_commissions, bind, query, ret, open_session, Flask.quantize, raise.
    rewrite !(truthy_id_some p Hp). cbn [truthy_id andb some_id work].
    rewrite Hpar. cbn [option_map]. rewrite (custom_rate_default _ _ Hnp).
    repeat match goal with
           | |- context [Dec.quantize_cents ?x] =>
               destruct (Dec.quantize_cents x) eqn:?; cbn [fst]
           end; intros H; inversion H; subst; auto.
  - intros amount discount other. cbv zeta.
    rewrite (rate_of_none _ Hnc), (rate_of_none _ Hnp).
    unfold FastAPI.calculate_commissions_with_partners; simpl. auto.
Qed.

Lemma C8_party_without_percentage_witness :
  2 <> 0
  /\ get_commercial sample_db 2 = Some (Commercial.mk 2 None)
  /\ get_partenaire sample_db 2 = Some (Partenaire.mk 2 None)
  /\ Dec.quantize_cents (Dec.mul float_100 (Dec.mk 10 (-2))) = Some (eur 1000)
  /\ Dec.quantize_cents (Dec.mul float_100 (Dec.mk 5 (-2))) = Some (eur 500).
Proof.
  assert (H2 : 2 <> 0) by discriminate.
  split; [exact H2|]. split; [reflexivity|]. split; [reflexivity|].
  exact (proj1 (C8_party_without_percentage sample_db float_100 2 2
                  (Commercial.mk 2 None) (Partenaire.mk 2 None)
                  H2 H2 eq_refl I eq_refl I)
               (Flask.mkCommissions (eur 1000) (eur 500) (eur 0) (eur 8500))
               eq_refl).
Defined.

(** Commercial 2 exists and has no percentage: on 100.00 the Flask
    calculator charges it 5.00. *)
Lemma C8_counterexample :
  get_commercial sample_db 2 = Some (Commercial.mk 2 None)
  /\ exists r,
       run (Flask.calculate_commissions float_100 (Some 2) None) sample_db
       = (Ok r, sample_db)
       /\ Flask.commerciale r = eur 500
       /\ ~ (Dec.toQ (Flask.commerciale r) == 0)%Q.
Proof.
  split; [reflexivity|]. eexists. split; [vm_compute; reflexivity|].
  split; [reflexivity | vm_compute; discriminate].
Qed.

(** ** Rows of a table *)

Lemma find_key {A : Type} (key : A -> Z) (l : list A) (i : Z) (x : A) :
  find (fun y => key y =? i) l = Some x -> key x = i.
Proof.
  intros H. apply find_some in H. destruct H as [_ H]. now apply Z.eqb_eq.
Qed.

Lemma find_replace {A : Type} (key : A -> Z) (l : list A) (x x' : A) :
  find (fun y => key y =? key x') l = Some x ->
  find (fun y => key y =? key x')
       (map (fun y => if key y =? key x' then x' else y) l) = Some x'.
Proof.
  induction l as [|y l IH]; simpl; [discriminate|].
  destruct (key y =? key x') eqn:E; simpl.
  - intros _. now rewrite Z.eqb_refl.
  - rewrite E. exact IH.
Qed.

Lemma get_vente_put_vente (d : DB) (sale sale' : Vente.t) :
  get_vente d (Vente.id sale') = Some sale ->
  get_vente (put_vente d sale') (Vente.id sale') = Some sale'.
Proof. unfold get_vente, put_vente; simpl. apply (find_replace Vente.id). Qed.

Lemma get_client_put_client (d : DB) (c c' : Client.t) :
  get_client d (Client.id c') = Some c ->
  get_client (put_client d c') (Client.id c') = Some c'.
Proof. unfold get_client, put_client; simpl. apply (find_replace Client.id). Qed.

Lemma get_user_put_user (d : DB) (u u' : User.t) :
  get_user d (User.id u') = Some u ->
  get_user (put_user d u') (User.id u') = Some u'.
Proof. unfold get_user, put_user; simpl. apply (find_replace User.id). Qed.

(** ** Updating a sale *)

(** C4 (amended): [update_sale] has no transition guard.  For every stored
    sale, whatever its status, and every caller who is its owner or an
    admin, a request that sets statut_paiement to any of payé, en_attente
    and remboursé stores that status.  The answer is the updated row when it
    passes the response model (user_id, client_id and produit_id set, montant
    and discount_applied not negative), and otherwise an error, raised after
    the commit.  The rejections made before the write are 404 for an unknown
    sale and 403 for a caller who is neither owner nor admin, and they leave
    the database as it was.  There is no cancelled status. *)
Theorem C4_update_sale_unguarded (d : DB) (sale_id : Z) (u : User.t)
  (target : StatutPaiement) :
  (forall sale,
     get_vente d sale_id = Some sale ->
     FastAPI.owner_or_admin (Vente.user_id sale) u = true ->
     let sale' := Vente.set_statut_paiement sale (Some target) in
     exists d',
       run (FastAPI.update_sale sale_id (status_update target) u) d
       = (if FastAPI.response_valid sale' then Ok sale'
          else Raise ResponseValidationError, d')
       /\ get_vente d' sale_id = Some sale'
       /\ Vente.statut_paiement sale' = Some target)
  /\ (forall sale,
        get_vente d sale_id = Some sale ->
        FastAPI.owner_or_admin (Vente.user_id sale) u = false ->
        run (FastAPI.update_sale sale_id (status_update target) u) d
        = (Raise (HTTPException 403 "Not enough permissions"), d))
  /\ (get_vente d sale_id = None ->
      run (FastAPI.update_sale sale_id (status_update target) u) d
      = (Raise (HTTPException 404 "Sale not found"), d)).
Proof.
  split; [|split].
  - intros sale Hget Hown sale'.
    exists (put_vente d sale'). split; [|split].
    + unfold run, FastAPI.update_sale, bind, query, open_session. cbn [work].
      rewrite Hget, Hown.
      change (FastAPI.setattrs sale (status_update target)) with sale'.
      unfold db_update_vente, db_commit, ret, raise.
      cbv beta iota. cbn [work persisted violated fst snd orb negb].
      cbv beta iota. cbn [work persisted violated fst snd].
      destruct (FastAPI.response_valid sale'); reflexivity.
    + pose proof (find_key Vente.id _ _ _ Hget) as Hid.
      assert (Hid' : Vente.id sale' = sale_id) by exact Hid.
      rewrite <- Hid'. apply (get_vente_put_vente d sale). now rewrite Hid'.
    + reflexivity.
  - intros sale Hget Hown.
    unfold run, FastAPI.update_sale, bind, query, open_session. cbn [work].
    rewrite Hget, Hown. reflexivity.
  - intros Hget.
    unfold run, FastAPI.update_sale, bind, query, open_session. cbn [work].
    rewrite Hget. reflexivity.
Qed.

Lemma C4_update_sale_unguarded_witness :
  get_vente (sample_db_with Paye) 1 = Some (sample_sale 1 Paye)
  /\ FastAPI.owner_or_admin (Some 1) freelancer_1 = true
  /\ exists d',
       run (FastAPI.update_sale 1 (status_update EnAttente) freelancer_1)
           (sample_db_with Paye)
       = (Ok (sample_sale 1 EnAttente), d')
       /\ get_vente d' 1 = Some (sample_sale 1 EnAttente)
       /\ Vente.statut_paiement (sample_sale 1 EnAttente) = Some EnAttente.
Proof.
  split; [reflexivity|]. split; [reflexivity|].
  exact (proj1 (C4_update_sale_unguarded (sample_db_with Paye) 1 freelancer_1 EnAttente)
               (sample_sale 1 Paye) eq_refl eq_refl).
Defined.

(** A pending sale is marked refunded by its owner: the update is accepted
    and stored; so is the update that takes the refunded sale back to
    pending. *)
Lemma C4_counterexample :
  run (FastAPI.update_sale 1 (status_update Rembourse) freelancer_1)
      (sample_db_with EnAttente)
  = (Ok (sample_sale 1 Rembourse), sample_db_with Rembourse)
  /\ run (FastAPI.update_sale 1 (status_update EnAttente) freelancer_1)
         (sample_db_with Rembourse)
     = (Ok (sample_sale 1 EnAttente), sample_db_with EnAttente).
Proof. split; vm_compute; reflexivity. Qed.

(** An admin marks a paid sale that has no user, client and product as
    refunded: the status is stored, and the answer is the error of the
    response model. *)
Example update_sale_unanswered :
  run (FastAPI.update_sale 1 (status_update Rembourse) admin_2)
      (with_ventes sample_db [unbound_sale Paye] 2)
  = (Raise ResponseValidationError,
     with_ventes sample_db [unbound_sale Rembourse] 2).
Proof. vm_compute; reflexivity. Qed.

(** ** The webhooks *)

(** C6 (amended): where a verification of the signature runs and fails,
    the webhook changes nothing.  The FastAPI handler always runs it:
    [construct_event] raises inside the [try] and the handler answers with
    the error.  The Flask handler runs it when the request has a
    Stripe-Signature header or STRIPE_WEBHOOK_SECRET is set: a ValueError or
    SignatureVerificationError is answered with 400 and any other exception
    leaves the handler; in each case what is committed is what was.  When
    both the header and the secret are missing or empty, the Flask handler
    runs no verification: its answer and what it writes are the same
    whatever the verifier would answer. *)
Theorem C6_invalid_signature_no_mutation
  (construct_event : string -> option string -> option string -> Res Event)
  (construct_from : string -> Res Event)
  (retrieve : string -> Res PaymentIntent.t)
  (secret : string) (env_secret : option string) (db_engine : bool)
  (now : Z) (payload : string) (sig_header : option string) (d : DB) (e : Exn) :
  (construct_event payload sig_header (Some secret) = Raise e ->
   exists e',
     run (FastAPI.stripe_webhook construct_event secret now payload sig_header) d
     = (Ok (FastAPI.StatusError e'), d))
  /\ (Flask.unverified env_secret sig_header = false ->
      construct_event payload sig_header env_secret = Raise e ->
      snd (run (Flask.stripe_webhook retrieve construct_event construct_from
                  env_secret db_engine now payload sig_header) d) = d
      /\ (e = SignatureVerificationError ->
          fst (run (Flask.stripe_webhook retrieve construct_event construct_from
                      env_secret db_engine now payload sig_header) d)
          = Ok (400, Flask.Message "Invalid signature")))
  /\ (Flask.unverified env_secret sig_header = true ->
      (sig_header = None \/ sig_header = Some "")
      /\ (env_secret = None \/ env_secret = Some "")
      /\ forall construct_event',
           run (Flask.stripe_webhook retrieve construct_event' construct_from
                  env_secret db_engine now payload sig_header) d
           = run (Flask.stripe_webhook retrieve construct_event construct_from
                    env_secret db_engine now payload sig_header) d).
Proof.
  split; [|split].
  - intros H.
    unfold run, FastAPI.stripe_webhook, try_except, bind, lift_res,
      FastAPI.verify_stripe_webhook, open_session.
    rewrite H. destruct e; eexists; reflexivity.
  - intros Hv H.
    unfold run, Flask.stripe_webhook, open_session. rewrite Hv, H.
    split; [destruct e; reflexivity | intros ->; reflexivity].
  - intros Hv. split; [|split].
    + unfold Flask.unverified in Hv. apply andb_prop in Hv as [Hh _].
      destruct sig_header as [h|]; [|now left]. right.
      unfold nonempty_string in Hh. destruct h; [reflexivity | discriminate Hh].
    + unfold Flask.unverified in Hv. apply andb_prop in Hv as [_ Hs].
      destruct env_secret as [h|]; [|now left]. right.
      unfold nonempty_string in Hs. destruct h; [reflexivity | discriminate Hs].
    + intros construct_event'.
      unfold run, Flask.stripe_webhook. rewrite Hv. reflexivity.
Qed.

Lemma C6_invalid_signature_no_mutation_witness :
  reject_all "{}" (Some "t=1,v1=00") (Some whsec) = Raise SignatureVerificationError
  /\ Flask.unverified (Some whsec) (Some "t=1,v1=00") = false
  /\ (exists e',
        run (FastAPI.stripe_webhook reject_all whsec 0 "{}" (Some "t=1,v1=00"))
            sample_db
        = (Ok (FastAPI.StatusError e'), sample_db))
  /\ snd (run (Flask.stripe_webhook (fun _ => Raise StripeError) reject_all
                 (fun _ => Raise ValueError) (Some whsec) true 0 "{}"
                 (Some "t=1,v1=00")) sample_db) = sample_db
  /\ Flask.unverified None None = true
  /\ run (Flask.stripe_webhook sample_retrieve reject_all
            (fun _ => Ok (CheckoutSessionCompleted sample_checkout_session))
            None true 0 "{}" None) sample_db
     = run (Flask.stripe_webhook sample_retrieve
              (accept_as (CheckoutSessionCompleted sample_checkout_session))
              (fun _ => Ok (CheckoutSessionCompleted sample_checkout_session))
              None true 0 "{}" None) sample_db.
Proof.
  split; [reflexivity|]. split; [reflexivity|].
  pose proof (C6_invalid_signature_no_mutation reject_all
                (fun _ => Raise ValueError) (fun _ => Raise StripeError)
                whsec (Some whsec) true 0 "{}" (Some "t=1,v1=00") sample_db
                SignatureVerificationError) as [HF [HK _]].
  split; [exact (HF eq_refl)|]. split; [exact (proj1 (HK eq_refl eq_refl))|].
  split; [reflexivity|].
  pose proof (C6_invalid_signature_no_mutation reject_all
                (fun _ => Ok (CheckoutSessionCompleted sample_checkout_session))
                sample_retrieve whsec None true 0 "{}" None sample_db
                SignatureVerificationError) as [_ [_ HU]].
  destruct (HU eq_refl) as (_ & _ & HU').
  symmetry.
  exact (HU' (accept_as (CheckoutSessionCompleted sample_checkout_session))).
Defined.

(** A request with no Stripe-Signature header, to a Flask application with
    no STRIPE_WEBHOOK_SECRET: the verification, which rejects every
    signature, is not run, the unsigned completed checkout session is taken
    as the event, and a paid sale is recorded for it. *)
Lemma C6_counterexample :
  reject_all "{}" None None = Raise SignatureVerificationError
  /\ ventes sample_db = []
  /\ exists d',
       run (Flask.stripe_webhook sample_retrieve reject_all
              (fun _ => Ok (CheckoutSessionCompleted sample_checkout_session))
              None true 0 "{}" None) sample_db
       = (Ok (200, Flask.Message "Success"), d')
       /\ map (fun v => (Vente.id v, Vente.stripe_payment_id v,
                         Vente.statut_paiement v)) (ventes d')
          = [ (1, Some "cs_1", Some Paye) ].
Proof.
  split; [reflexivity|]. split; [reflexivity|].
  eexists. split; vm_compute; reflexivity.
Qed.

(** C10: on a payment intent whose metadata is an empty dict (or that has
    none), [handle_payment_success] returns at once: nothing is written,
    and the webhook that dispatched the event answers success with the
    database as it was. *)
Theorem C10_empty_metadata_no_mutation
  (construct_event : string -> option string -> option string -> Res Event)
  (secret : string) (now : Z) (payload : string) (sig_header : option string)
  (payment_intent : PaymentIntent.t) (d : DB) :
  PaymentIntent.metadata payment_intent = Some []
  \/ PaymentIntent.metadata payment_intent = None ->
  run (FastAPI.handle_payment_success now payment_intent) d = (Ok tt, d)
  /\ (construct_event payload sig_header (Some secret)
      = Ok (PaymentIntentSucceeded payment_intent) ->
      run (FastAPI.stripe_webhook construct_event secret now payload sig_header) d
      = (Ok FastAPI.StatusSuccess, d)).
Proof.
  intros H.
  assert (E : forall s, FastAPI.handle_payment_success now payment_intent s = (Ok tt, s)).
  { intros s. unfold FastAPI.handle_payment_success.
    destruct H as [-> | ->]; reflexivity. }
  split.
  - unfold run. now rewrite E.
  - intros Hc.
    unfold run, FastAPI.stripe_webhook, try_except, bind, lift_res,
      FastAPI.verify_stripe_webhook.
    rewrite Hc, E. reflexivity.
Qed.

Lemma C10_empty_metadata_no_mutation_witness :
  PaymentIntent.metadata empty_payment_intent = Some []
  /\ run (FastAPI.handle_payment_success 0 empty_payment_intent) sample_db
     = (Ok tt, sample_db).
Proof.
  split; [reflexivity|].
  exact (proj1 (C10_empty_metadata_no_mutation reject_all whsec 0 "{}" None
                  empty_payment_intent sample_db (or_introl eq_refl))).
Defined.

(** ** Creating a sale *)

(** One step of a handler: reduce the binds and the session projections. *)
Ltac run_step := cbv beta iota; cbn [work persisted violated fst snd].

Lemma fastapi_unknown_party_not_found (now : Z) (sale_data : FastAPI.VenteCreate.t)
  (current_user : User.t) (d : DB) (client : Client.t) (product : Produit.t) :
  FastAPI.VenteCreate.valid sale_data = true ->
  FastAPI.owner_or_admin (Some (FastAPI.VenteCreate.user_id sale_data)) current_user = true ->
  get_client d (FastAPI.VenteCreate.client_id sale_data) = Some client ->
  get_produit d (FastAPI.VenteCreate.produit_id sale_data) = Some product ->
  Produit.actif product = true ->
  (forall c,
     FastAPI.VenteCreate.commercial_id sale_data = Some c -> c <> 0 ->
     get_commercial d c = None ->
     run (FastAPI.create_sale now sale_data current_user) d
     = (Raise (HTTPException 404 "Commercial not found"), d))
  /\ (forall p,
        FastAPI.VenteCreate.partenaire_id sale_data = Some p -> p <> 0 ->
        get_partenaire d p = None ->
        (truthy_id (FastAPI.VenteCreate.commercial_id sale_data) = false
         \/ exists c com,
              FastAPI.VenteCreate.commercial_id sale_data = Some c
              /\ get_commercial d c = Some com) ->
        run (FastAPI.create_sale now sale_data current_user) d
        = (Raise (HTTPException 404 "Partner not found"), d)).
Proof.
  intros Hv Ho Hc Hp Ha. split.
  - intros c Hid Hnz Hnone.
    unfold run, FastAPI.create_sale, bind, query, ret, raise, open_session.
    rewrite Hv, Ho. run_step. rewrite Hc. run_step. rewrite Hp.
    run_step. rewrite Ha, Hid. run_step.
    rewrite (truthy_id_some c Hnz). run_step. rewrite Hnone. reflexivity.
  - intros p Hid Hnz Hnone Hcom.
    unfold run, FastAPI.create_sale, bind, query, ret, raise, open_session.
    rewrite Hv, Ho. run_step. rewrite Hc. run_step. rewrite Hp.
    run_step. rewrite Ha, Hid. run_step.
    destruct Hcom as [Hf | (c & com & Hcid & Hget)].
    + rewrite Hf. run_step.
      rewrite (truthy_id_some p Hnz). run_step. rewrite Hnone. reflexivity.
    + rewrite Hcid. destruct (truthy_id (Some c)); run_step;
        [rewrite Hget; run_step|];
        rewrite (truthy_id_some p Hnz); run_step; rewrite Hnone; reflexivity.
Qed.

(** The Flask calculator only reads. *)
Lemma calculate_commissions_reads (montant : Dec.t) (cid pid : option Z) (s : Session) :
  exists r, Flask.calculate_commissions montant cid pid s = (r, s).
Proof.
  unfold Flask.calculate_commissions, bind, query, ret, Flask.quantize, raise.
  destruct (truthy_id cid), (truthy_id pid); run_step;
    repeat match goal with
           | |- context [Dec.quantize_cents ?x] =>
               destruct (Dec.quantize_cents x); run_step
           end; eexists; reflexivity.
Qed.

Lemma fk_vente_unknown_commercial (d : DB) (v : Vente.t) (c : Z) :
  Vente.commercial_id v = Some c -> get_commercial d c = None -> fk_vente d v = false.
Proof.
  intros Hc Hn. unfold fk_vente. rewrite Hc. unfold fk at 4. rewrite Hn.
  now rewrite !andb_false_r.
Qed.

Lemma flask_unknown_commercial (now user_id : Z) (data : Flask.SaleRequest.t)
  (d : DB) (client_id c : Z) (montant : Dec.t) :
  Flask.SaleRequest.client_id data = Some client_id ->
  Flask.SaleRequest.montant data = Some montant ->
  Flask.SaleRequest.has_description data = true ->
  Flask.SaleRequest.commercial_id data = Some c ->
  get_commercial d c = None ->
  exists e,
    run (Flask.create_sale true now user_id data) d
    = (Ok (500, Flask.Failure "An error occurred" e), d).
Proof.
  intros H1 H2 H3 H4 Hn.
  unfold run, Flask.create_sale. rewrite H1, H2, H3, H4. cbn [negb].
  unfold try_except, bind at 1, open_session.
  destruct (calculate_commissions_reads montant (Some c)
              (Flask.SaleRequest.partenaire_id data)
              (mkSession d d false)) as [r ->].
  destruct r as [commissions | e]; run_step.
  - unfold bind at 1, sql_insert_vente. run_step.
    erewrite fk_vente_unknown_commercial; [|reflexivity|exact Hn].
    eexists; reflexivity.
  - eexists; reflexivity.
Qed.

(** C7 (amended): in the FastAPI [create_sale], a request that passes the
    checks made first (valid body, caller owner or admin, known client,
    known and active product) and names a non-zero commercial_id that is not
    in [commerciaux] is answered 404 "Commercial not found"; if its
    commercial is absent or known and its non-zero partenaire_id is not in
    [partenaires], it is answered 404 "Partner not found".  The Flask
    [create_sale] makes no such check: on a complete request whose
    commercial_id is not in [commerciaux] it answers 500 with the exception
    that stopped it.  Nothing is written in any of these cases. *)
Theorem C7_unknown_party (now : Z) (d : DB) :
  (forall sale_data current_user client product,
     FastAPI.VenteCreate.valid sale_data = true ->
     FastAPI.owner_or_admin (Some (FastAPI.VenteCreate.user_id sale_data))
                            current_user = true ->
     get_client d (FastAPI.VenteCreate.client_id sale_data) = Some client ->
     get_produit d (FastAPI.VenteCreate.produit_id sale_data) = Some product ->
     Produit.actif product = true ->
     (forall c,
        FastAPI.VenteCreate.commercial_id sale_data = Some c -> c <> 0 ->
        get_commercial d c = None ->
        run (FastAPI.create_sale now sale_data current_user) d
        = (Raise (HTTPException 404 "Commercial not found"), d))
     /\ (forall p,
           FastAPI.VenteCreate.partenaire_id sale_data = Some p -> p <> 0 ->
           get_partenaire d p = None ->
           (truthy_id (FastAPI.VenteCreate.commercial_id sale_data) = false
            \/ exists c com,
                 FastAPI.VenteCreate.commercial_id sale_data = Some c
                 /\ get_commercial d c = Some com) ->
           run (FastAPI.create_sale now sale_data current_user) d
           = (Raise (HTTPException 404 "Partner not found"), d)))
  /\ (forall user_id data client_id c montant,
        Flask.SaleRequest.client_id data = Some client_id ->
        Flask.SaleRequest.montant data = Some montant ->
        Flask.SaleRequest.has_description data = true ->
        Flask.SaleRequest.commercial_id data = Some c ->
        get_commercial d c = None ->
        exists e,
          run (Flask.create_sale true now user_id data) d
          = (Ok (500, Flask.Failure "An error occurred" e), d)).
Proof.
  split.
  - intros. eapply fastapi_unknown_party_not_found; eassumption.
  - intros. now apply (flask_unknown_commercial now user_id data d client_id c montant).
Qed.

Lemma C7_unknown_party_witness :
  get_commercial sample_db 99 = None
  /\ run (FastAPI.create_sale 0 (sample_sale_request (Some 99) None) freelancer_1)
         sample_db
     = (Raise (HTTPException 404 "Commercial not found"), sample_db).
Proof.
  split; [reflexivity|].
  assert (H : 99 <> 0) by discriminate.
  exact (proj1 (proj1 (C7_unknown_party 0 sample_db)
                  (sample_sale_request (Some 99) None) freelancer_1
                  (Client.mk 1 None None) (Produit.mk 1 "site" true)
                  eq_refl eq_refl eq_refl eq_refl eq_refl)
               99 eq_refl H eq_refl).
Defined.

(** Commercial 99 does not exist.  The Flask rate lookup returns the
    default 5% for it, and the sale creation ends on the foreign key of
    [ventes], answered 500: no NotFound is reported. *)
Lemma C7_counterexample :
  get_commercial sample_db 99 = None
  /\ run (Flask.calculate_commissions float_100 (Some 99) None) sample_db
     = (Ok (Flask.mkCommissions (eur 1000) (eur 500) (eur 0) (eur 8500)),
        sample_db)
  /\ run (Flask.create_sale true 0 1 (sample_flask_request (Some 99) None))
         sample_db
     = (Ok (500, Flask.Failure "An error occurred" IntegrityError), sample_db).
Proof. repeat split; vm_compute; reflexivity. Qed.

(** ** The accumulators *)

Ltac run_step_in H := cbv beta iota in H; cbn [work persisted violated fst snd] in H.

(** The session a read-only step leaves is the one it found. *)
Ltac reads_only E :=
  revert E;
  repeat match goal with
         | |- context [if ?b then _ else _] => destruct b
         | |- context [match ?x with Some _ => _ | None => _ end] => destruct x
         end;
  intros E; inversion E; reflexivity.

Lemma fk_vente_user (d : DB) (v : Vente.t) (i : Z) :
  fk_vente d v = true -> Vente.user_id v = Some i ->
  exists u, get_user d i = Some u.
Proof.
  unfold fk_vente. intros H Hu. rewrite Hu in H.
  repeat (apply andb_prop in H; destruct H as [H _]).
  unfold fk in H. destruct (get_user d i) as [u|]; [now exists u | discriminate].
Qed.

Lemma client_row_after (d d' : DB) (c c' : Client.t) (i : Z) :
  get_client d i = Some c -> Client.id c' = Client.id c ->
  clients d' = clients (put_client d c') ->
  get_client d' i = Some c'.
Proof.
  intros Hget Hid Hd'.
  pose proof (find_key Client.id _ _ _ Hget) as Hi.
  unfold get_client. rewrite Hd'. rewrite <- Hi, <- Hid.
  apply (get_client_put_client d c). now rewrite Hid, Hi.
Qed.

Lemma user_row_after (d d' : DB) (u u' : User.t) (i : Z) :
  get_user d i = Some u -> User.id u' = User.id u ->
  users d' = users (put_user d u') ->
  get_user d' i = Some u'.
Proof.
  intros Hget Hid Hd'.
  pose proof (find_key User.id _ _ _ Hget) as Hi.
  unfold get_user. rewrite Hd'. rewrite <- Hi, <- Hid.
  apply (get_user_put_user d u). now rewrite Hid, Hi.
Qed.

Lemma fk_affiliation_present (w : DB) (a : Affiliation.t) (v : Vente.t) :
  In v (ventes w) -> Vente.id v = Affiliation.vente_id a ->
  fk_affiliation w a = true.
Proof.
  intros Hin Hid. unfold fk_affiliation, get_vente.
  destruct (find _ (ventes w)) eqn:E; [reflexivity|].
  pose proof (find_none _ _ E v Hin) as H. cbv beta in H.
  rewrite Hid, Z.eqb_refl in H. discriminate.
Qed.

(** What [create_sale] leaves, case by case: nothing when it stops before or
    at its first commit; the sale alone when the accumulators do not fit
    their columns at the second commit; the sale, the accumulators and the
    affiliations when it succeeds. *)
Lemma fits_sublist (a b c d e f : Dec.t) (bc bp : bool) :
  forallb Dec.fits_numeric_10_2 [a; b; c; d; e; f] = true ->
  forallb Dec.fits_numeric_10_2
    ((if bc then [d] else []) ++ (if bp then [e] else []))%list = true.
Proof.
  cbn [forallb]. intros H.
  repeat (apply andb_prop in H; destruct H as [? H]).
  destruct bc, bp; cbn [app forallb];
    repeat (apply andb_true_intro; split); assumption || reflexivity.
Qed.

Lemma create_sale_cases (now : Z) (d d' : DB)
  (sale_data : FastAPI.VenteCreate.t) (current_user : User.t) (r : Res Z) :
  run (FastAPI.create_sale now sale_data current_user) d = (r, d') ->
  (d' = d /\ exists e, r = Raise e)
  \/ exists client freelancer sale,
       get_client d (FastAPI.VenteCreate.client_id sale_data) = Some client
       /\ get_user d (FastAPI.VenteCreate.user_id sale_data) = Some freelancer
       /\ Vente.id sale = ventes_id_seq d
       /\ Vente.statut_paiement sale = Some EnAttente
       /\ ventes d' = (ventes d ++ [sale])%list
       /\ ((r = Raise DataError
            /\ users d' = users d /\ clients d' = clients d
            /\ affiliations d' = affiliations d)
           \/ (r = Ok (Vente.id sale)
               /\ option_map Client.lifetime_value
                    (get_client d' (FastAPI.VenteCreate.client_id sale_data))
                  = Some (Some (Dec.add (Dec.or_zero (Client.lifetime_value client))
                                        (FastAPI.VenteCreate.montant sale_data)))
               /\ option_map User.total_revenue
                    (get_user d' (FastAPI.VenteCreate.user_id sale_data))
                  = Some (Some (Dec.add (Dec.or_zero (User.total_revenue freelancer))
                                        (Vente.montant_net_freelance sale)))
               /\ map affiliation_link (affiliations d')
                  = (map affiliation_link (affiliations d)
                     ++ (if truthy_id (FastAPI.VenteCreate.commercial_id sale_data)
                         then [ (SrcCommercial,
                                 some_id (FastAPI.VenteCreate.commercial_id sale_data),
                                 Vente.id sale, Vente.commission_commerciale sale) ]
                         else [])
                     ++ (if truthy_id (FastAPI.VenteCreate.partenaire_id sale_data)
                         then [ (SrcPartenaire,
                                 some_id (FastAPI.VenteCreate.partenaire_id sale_data),
                                 Vente.id sale, Vente.commission_partenaire sale) ]
                         else []))%list)).
Proof.
  intros H.
  assert (Stop : forall e, (r, d') = (Raise e, d) ->
            (d' = d /\ exists e, r = Raise e)
            \/ exists client freelancer sale,
       get_client d (FastAPI.VenteCreate.client_id sale_data) = Some client
       /\ get_user d (FastAPI.VenteCreate.user_id sale_data) = Some freelancer
       /\ Vente.id sale = ventes_id_seq d
       /\ Vente.statut_paiement sale = Some EnAttente
       /\ ventes d' = (ventes d ++ [sale])%list
       /\ ((r = Raise DataError
            /\ users d' = users d /\ clients d' = clients d
            /\ affiliations d' = affiliations d)
           \/ (r = Ok (Vente.id sale)
               /\ option_map Client.lifetime_value
                    (get_client d' (FastAPI.VenteCreate.client_id sale_data))
                  = Some (Some (Dec.add (Dec.or_zero (Client.lifetime_value client))
                                        (FastAPI.VenteCreate.montant sale_data)))
               /\ option_map User.total_revenue
                    (get_user d' (FastAPI.VenteCreate.user_id sale_data))
                  = Some (Some (Dec.add (Dec.or_zero (User.total_revenue freelancer))
                                        (Vente.montant_net_freelance sale)))
               /\ map affiliation_link (affiliations d')
                  = (map affiliation_link (affiliations d)
                     ++ (if truthy_id (FastAPI.VenteCreate.commercial_id sale_data)
                         then [ (SrcCommercial,
                                 some_id (FastAPI.VenteCreate.commercial_id sale_data),
                                 Vente.id sale, Vente.commission_commerciale sale) ]
                         else [])
                     ++ (if truthy_id (FastAPI.VenteCreate.partenaire_id sale_data)
                         then [ (SrcPartenaire,
                                 some_id (FastAPI.VenteCreate.partenaire_id sale_data),
                                 Vente.id sale, Vente.commission_partenaire sale) ]
                         else []))%list))).
  { intros e E. inversion E. left. split; [reflexivity | now exists e]. }
  unfold run, FastAPI.create_sale, bind, query, ret, raise, open_session in H.
  destruct (FastAPI.VenteCreate.valid sale_data);
    [|symmetry in H; exact (Stop _ H)].
  destruct (FastAPI.owner_or_admin _ current_user);
    [|symmetry in H; exact (Stop _ H)].
  run_step_in H.
  destruct (get_client d _) as [client|] eqn:Hclient;
    [|symmetry in H; exact (Stop _ H)].
  run_step_in H.
  destruct (get_produit d _) as [product|] eqn:Hproduct;
    [|symmetry in H; exact (Stop _ H)].
  run_step_in H.
  destruct (Produit.actif product); [|symmetry in H; exact (Stop _ H)].
  run_step_in H.
  match type of H with
  | context [let (r, s') := ?X ?s in _] =>
      destruct (X s) as [r0 s0] eqn:E;
      assert (Hs : s0 = s) by (clear H Stop; reads_only E)
  end.
  subst s0. clear E.
  destruct r0 as [commercial_rate|]; [|symmetry in H; exact (Stop _ H)].
  match type of H with
  | context [let (r, s') := ?X ?s in _] =>
      destruct (X s) as [r0 s0] eqn:E;
      assert (Hs : s0 = s) by (clear H Stop; reads_only E)
  end.
  subst s0. clear E.
  destruct r0 as [partner_rate|]; [|symmetry in H; exact (Stop _ H)].
  (* the sale is added and committed *)
  unfold db_add_vente, db_commit_numeric, db_commit, modify in H. run_step_in H.
  match type of H with
  | context [forallb Dec.fits_numeric_10_2
               (FastAPI.VenteCreate.montant sale_data :: ?l)] =>
      destruct (forallb Dec.fits_numeric_10_2
                  (FastAPI.VenteCreate.montant sale_data :: l)) eqn:Hfit1
  end; run_step_in H; [|symmetry in H; exact (Stop _ H)].
  cbn [orb] in H.
  match type of H with
  | context [fk_vente d ?v] =>
      set (sale := v) in *; destruct (fk_vente d sale) eqn:Hfk
  end; cbn [negb] in H; run_step_in H; [|symmetry in H; exact (Stop _ H)].
  destruct (fk_vente_user d sale _ Hfk eq_refl) as [freelancer Hf].
  clear Stop. right. exists client, freelancer, sale.
  split; [reflexivity|]. split; [exact Hf|].
  split; [reflexivity|]. split; [reflexivity|].
  (* the accumulators are written and committed *)
  change (get_user (put_client (with_ventes d (ventes d ++ [sale])
                                            (ventes_id_seq d + 1)) ?c) ?i)
    with (get_user d i) in H.
  rewrite Hf in H. run_step_in H.
  match type of H with
  | context [forallb Dec.fits_numeric_10_2 (Dec.add ?a ?b :: ?l)] =>
      destruct (forallb Dec.fits_numeric_10_2 (Dec.add a b :: l)) eqn:Hfit2
  end; run_step_in H.
  2:{ inversion H. subst. split; [reflexivity|]. left. repeat split. }
  (* the affiliations refer to the sale that was just added *)
  unfold db_add_affiliation in H.
  assert (Hin : forall w a, ventes w = (ventes d ++ [sale])%list ->
                            Affiliation.vente_id a = ventes_id_seq d ->
                            fk_affiliation w a = true).
  { intros w a Hw Ha. apply (fk_affiliation_present w a sale).
    - rewrite Hw. apply in_or_app. right. now left.
    - now rewrite Ha. }
  pose proof (fits_sublist _ _ _ _ _ _
                (truthy_id (FastAPI.VenteCreate.commercial_id sale_data))
                (truthy_id (FastAPI.VenteCreate.partenaire_id sale_data))
                Hfit1) as Hfit3.
  destruct (truthy_id (FastAPI.VenteCreate.commercial_id sale_data));
    destruct (truthy_id (FastAPI.VenteCreate.partenaire_id sale_data));
    run_step_in H; cbn [orb] in H;
    repeat match type of H with
           | context [fk_affiliation ?x ?a] =>
               rewrite (Hin x a eq_refl eq_refl) in H;
               cbn [negb orb] in H; run_step_in H
           end;
    cbn [app] in H, Hfit3; rewrite Hfit3 in H; run_step_in H.
  all: inversion H; subst d' r; clear H.
  all: split; [reflexivity|]; right; split; [reflexivity|].
  all: split;
    [ match goal with
      | |- context [get_client ?D _] =>
          rewrite (client_row_after d D client
                     (Client.set_last_purchase_date
                        (Client.set_lifetime_value client
                           (Some (Dec.add (Dec.or_zero (Client.lifetime_value client))
                                          (FastAPI.VenteCreate.montant sale_data))))
                        (Some now))
                     _ Hclient eq_refl eq_refl)
      end; reflexivity |].
  all: split;
    [ match goal with
      | |- context [get_user ?D _] =>
          rewrite (user_row_after d D freelancer
                     (User.set_total_revenue freelancer
                        (Some (Dec.add (Dec.or_zero (User.total_revenue freelancer))
                                       (Vente.montant_net_freelance sale))))
                     _ Hf eq_refl eq_refl)
      end; reflexivity |].
  all: cbn [affiliations with_affiliations with_ventes put_user put_client
            with_users with_clients].
  all: rewrite ?map_app, ?app_nil_r, <- ?app_assoc; reflexivity.
Qed.

Lemma create_sale_increments (now : Z) (d d' : DB)
  (sale_data : FastAPI.VenteCreate.t) (current_user : User.t) (new_id : Z) :
  run (FastAPI.create_sale now sale_data current_user) d = (Ok new_id, d') ->
  exists client freelancer sale,
    get_client d (FastAPI.VenteCreate.client_id sale_data) = Some client
    /\ get_user d (FastAPI.VenteCreate.user_id sale_data) = Some freelancer
    /\ ventes d' = (ventes d ++ [sale])%list
    /\ Vente.id sale = new_id
    /\ Vente.statut_paiement sale = Some EnAttente
    /\ option_map Client.lifetime_value
         (get_client d' (FastAPI.VenteCreate.client_id sale_data))
       = Some (Some (Dec.add (Dec.or_zero (Client.lifetime_value client))
                             (FastAPI.VenteCreate.montant sale_data)))
    /\ option_map User.total_revenue
         (get_user d' (FastAPI.VenteCreate.user_id sale_data))
       = Some (Some (Dec.add (Dec.or_zero (User.total_revenue freelancer))
                             (Vente.montant_net_freelance sale))).
Proof.
  intros H.
  destruct (create_sale_cases now d d' sale_data current_user (Ok new_id) H)
    as [[_ [e He]] | (client & freelancer & sale & Hc & Hf & Hid & Hst & Hv
                      & [[He _] | (Hr & Hlv & Htr & _)])];
    try discriminate.
  injection Hr as Hr.
  exists client, freelancer, sale.
  repeat (split; [assumption || (symmetry; assumption)|]). exact Htr.
Qed.

Lemma update_sale_frame (d : DB) (sale_id : Z) (sale_data : FastAPI.VenteUpdate.t)
  (current_user : User.t) :
  let d' := snd (run (FastAPI.update_sale sale_id sale_data current_user) d) in
  users d' = users d /\ clients d' = clients d.
Proof.
  unfold run, FastAPI.update_sale, bind, query, ret, raise, db_update_vente,
    db_commit, open_session.
  run_step.
  destruct (get_vente d sale_id) as [sale|]; [|split; reflexivity].
  destruct (FastAPI.owner_or_admin _ current_user); [|split; reflexivity].
  run_step. cbn [orb].
  match goal with |- context [if negb ?c then _ else _] => destruct c end;
    cbn [negb]; run_step; [|split; reflexivity].
  destruct (FastAPI.response_valid _); split; reflexivity.
Qed.

(** C9 (amended): the FastAPI [create_sale], when it succeeds, inserts the
    sale with the status en_attente and in the same request adds the amount
    to the client's lifetime_value and the net amount to the freelancer's
    total_revenue.  [update_sale], which is what sets a sale to payé,
    changes no user and no client. *)
Theorem C9_accumulators_at_creation (now : Z) (d : DB) :
  (forall sale_data current_user new_id d',
     run (FastAPI.create_sale now sale_data current_user) d = (Ok new_id, d') ->
     exists client freelancer sale,
       get_client d (FastAPI.VenteCreate.client_id sale_data) = Some client
       /\ get_user d (FastAPI.VenteCreate.user_id sale_data) = Some freelancer
       /\ ventes d' = (ventes d ++ [sale])%list
       /\ Vente.id sale = new_id
       /\ Vente.statut_paiement sale = Some EnAttente
       /\ option_map Client.lifetime_value
            (get_client d' (FastAPI.VenteCreate.client_id sale_data))
          = Some (Some (Dec.add (Dec.or_zero (Client.lifetime_value client))
                                (FastAPI.VenteCreate.montant sale_data)))
       /\ option_map User.total_revenue
            (get_user d' (FastAPI.VenteCreate.user_id sale_data))
          = Some (Some (Dec.add (Dec.or_zero (User.total_revenue freelancer))
                                (Vente.montant_net_freelance sale))))
  /\ (forall sale_id sale_data current_user,
        let d' := snd (run (FastAPI.update_sale sale_id sale_data current_user) d) in
        users d' = users d /\ clients d' = clients d).
Proof.
  split.
  - intros. eapply create_sale_increments; eassumption.
  - intros. apply update_sale_frame.
Qed.

Lemma C9_accumulators_at_creation_witness :
  exists d',
    run (FastAPI.create_sale 0 (sample_sale_request None None) freelancer_1)
        sample_db = (Ok 1, d')
    /\ option_map Client.lifetime_value (get_client d' 1)
       = Some (Some (Dec.add (Dec.or_zero None) (eur 10000))).
Proof.
  eexists. split; [vm_compute; reflexivity|].
  destruct (proj1 (C9_accumulators_at_creation 0 sample_db)
              (sample_sale_request None None) freelancer_1 1 _ eq_refl)
    as (client & freelancer & sale & Hc & _ & _ & _ & _ & Hlv & _).
  injection Hc as <-. exact Hlv.
Defined.

(** Creating a sale of 100.00: the sale is stored as en_attente, and the
    client's lifetime value goes from NULL to 100.00 and the freelancer's
    total revenue from NULL to 90.0000. *)
Lemma C9_counterexample :
  let r := run (FastAPI.create_sale 0 (sample_sale_request None None) freelancer_1)
               sample_db in
  fst r = Ok 1
  /\ map Vente.statut_paiement (ventes (snd r)) = [Some EnAttente]
  /\ option_map Client.lifetime_value (get_client sample_db 1) = Some None
  /\ option_map Client.lifetime_value (get_client (snd r) 1)
     = Some (Some (eur 10000))
  /\ option_map User.total_revenue (get_user sample_db 1) = Some None
  /\ option_map User.total_revenue (get_user (snd r) 1)
     = Some (Some (Dec.mk 900000 (-4))).
Proof. vm_compute. repeat split; reflexivity. Qed.

(** ** Settlement *)

Lemma global_unbound (name : string) :
  existsb (String.eqb name) FastAPI.module_globals = false ->
  FastAPI.global name = raise (NameError name).
Proof. unfold FastAPI.global. now intros ->. Qed.

Lemma global_bound (name : string) :
  existsb (String.eqb name) FastAPI.module_globals = true ->
  FastAPI.global name = ret tt.
Proof. unfold FastAPI.global. now intros ->. Qed.

Lemma map_key_replace {A : Type} (key : A -> Z) (l : list A) (x' : A) :
  map key (map (fun y => if key y =? key x' then x' else y) l) = map key l.
Proof.
  induction l as [|y l IH]; simpl; [reflexivity|]. rewrite IH. f_equal.
  destruct (key y =? key x') eqn:E; [|reflexivity].
  symmetry. now apply Z.eqb_eq.
Qed.

Lemma frame_refl (d : DB) : frame d d.
Proof. repeat split. Qed.

Lemma frame_put_vente (d : DB) (v : Vente.t) : frame d (put_vente d v).
Proof.
  repeat split. unfold put_vente; simpl. apply (map_key_replace Vente.id).
Qed.

(** A step that only reads: it leaves the session, and either goes on or
    raises. *)
Ltac read_step :=
  match goal with
  | |- context [let (r, s') := ?X ?s in _] =>
      let E := fresh "E" in
      let r0 := fresh "r" in
      let s0 := fresh "s" in
      destruct (X s) as [r0 s0] eqn:E;
      assert (s0 = s) by
        (clear - E;
         unfold FastAPI.int_of_meta, ret, raise, bind, query, lift_res in E;
         revert E;
         repeat (cbv beta iota;
                 match goal with
                 | |- context [if ?b then _ else _] => destruct b
                 | |- context [match ?x with Some _ => _ | None => _ end] =>
                     destruct x
                 | |- context [match ?x with MInt _ => _ | MEmpty => _ | MText => _ end] =>
                     destruct x
                 end);
         cbv beta iota; intros E; inversion E; reflexivity);
      subst s0; clear E; destruct r0; run_step; [|try apply frame_refl]
  end.

(** [handle_payment_success] never gets to insert: whatever the payment
    intent, it leaves the sales (up to the status of the one already bound
    to the payment), the affiliations, the users and the clients. *)
Lemma handle_payment_success_frame (now : Z) (payment_intent : PaymentIntent.t)
  (d : DB) :
  frame d (snd (run (FastAPI.handle_payment_success now payment_intent) d)).
Proof.
  unfold run, FastAPI.handle_payment_success.
  rewrite (global_unbound "datetime" eq_refl).
  rewrite (global_unbound "Commercial" eq_refl).
  rewrite (global_unbound "Partenaire" eq_refl).
  rewrite (global_bound "Vente" eq_refl).
  destruct (match PaymentIntent.metadata payment_intent with
            | Some m => m
            | None => []
            end) as [|kv metadata];
    [apply frame_refl|].
  set (m := kv :: metadata).
  unfold open_session.
  do 5 (unfold bind at 1; read_step).
  unfold bind at 1, query at 1. run_step.
  destruct (get_vente_by_stripe_payment_id d _) as [existing|].
  - unfold db_update_vente, db_commit, bind, ret.
    destruct (Vente.statut_paiement existing) as [[]|]; run_step;
      first [apply frame_refl | apply frame_put_vente].
  - do 5 (unfold bind at 1; read_step).
    unfold bind at 1, ret at 1. run_step.
    unfold bind at 1, raise at 1. run_step. apply frame_refl.
Qed.

(** C2, on the code: a success event delivered twice.  The FastAPI handler
    stops on the name [datetime], which its module does not import, before
    it adds the sale: both deliveries are answered with the error and no
    sale exists.  The Flask handler does not look the payment up: both
    deliveries are answered with success and each inserts a paid sale with
    the same payment reference. *)
Theorem C2_delivered_twice :
  twice (FastAPI.stripe_webhook
           (accept_as (PaymentIntentSucceeded sample_payment_intent))
           whsec 0 "{}" (Some "t=1,v1=00"))
        sample_db
  = (Ok (FastAPI.StatusError (NameError "datetime")),
     Ok (FastAPI.StatusError (NameError "datetime")),
     sample_db)
  /\ exists d2,
       twice (Flask.stripe_webhook sample_retrieve
                (accept_as (CheckoutSessionCompleted sample_checkout_session))
                (fun _ => Raise ValueError) (Some whsec) true 0 "{}"
                (Some "t=1,v1=00"))
             sample_db
       = (Ok (200, Flask.Message "Success"),
          Ok (200, Flask.Message "Success"), d2)
       /\ map (fun v => (Vente.id v, Vente.stripe_payment_id v,
                         Vente.statut_paiement v)) (ventes d2)
          = [ (1, Some "cs_1", Some Paye); (2, Some "cs_1", Some Paye) ].
Proof.
  split; [vm_compute; reflexivity|].
  eexists. split; vm_compute; reflexivity.
Qed.

(** * Further properties of the code *)

(** ** [app/utils/stripe.py]: the calculators *)

Lemma toQ_platform_rate : (Dec.toQ (Dec.mk 10 (-2)) == 1 # 10)%Q.
Proof. reflexivity. Qed.

Lemma commission_spec (disc : Dec.t) (r : option Dec.t) :
  Dec.bounded 13 4 disc -> rate_ok r ->
  (Dec.toQ match FastAPI.rate_given r with
           | Some x => Dec.mul disc x
           | None => Dec.zero_1
           end
   == Dec.toQ disc * rate_value r)%Q.
Proof.
  intros Hd Hr. unfold rate_value, FastAPI.rate_given.
  destruct r as [x|]; [destruct (Dec.truthy x)|];
    try (unfold Dec.toQ at 1; simpl; ring).
  simpl in Hr.
  destruct (DecFacts.mul_spec 13 4 1 4 disc x) as [H _];
    try assumption; try (unfold Dec.prec; lia).
Qed.

(** The components of [calculate_commissions_with_partners], in rationals. *)
Lemma components_spec (amount discount : Dec.t) (cr pr : option Dec.t) :
  amount_ok amount -> amount_ok discount -> rate_ok cr -> rate_ok pr ->
  let c := FastAPI.calculate_commissions_with_partners amount discount cr pr in
  let net := (Dec.toQ amount - Dec.toQ discount)%Q in
  (Dec.toQ (FastAPI.platform_fee c) == net * (1 # 10))%Q
  /\ (Dec.toQ (FastAPI.commercial_commission c) == net * rate_value cr)%Q
  /\ (Dec.toQ (FastAPI.partner_commission c) == net * rate_value pr)%Q
  /\ (Dec.toQ (FastAPI.total_fees c)
      == net * ((1 # 10) + rate_value cr + rate_value pr))%Q
  /\ (Dec.toQ (FastAPI.net_amount c)
      == net * ((9 # 10) - rate_value cr - rate_value pr))%Q.
Proof.
  intros Ha Hd Hcr Hpr. unfold amount_ok in *.
  pose proof (split_spec amount discount cr pr Ha Hd Hcr Hpr) as S.
  unfold FastAPI.calculate_commissions_with_partners in *; cbv zeta in *; simpl in *.
  destruct S as (Qd & Qp & Qn).
  destruct (DecFacts.sub_spec 12 4 amount discount) as [_ Bd];
    try assumption; try (unfold Dec.prec; lia).
  set (disc := Dec.sub amount discount) in *.
  change (12 + 1) with 13 in Bd.
  pose proof (commission_spec disc cr Bd Hcr) as Qc.
  pose proof (commission_spec disc pr Bd Hpr) as Qq.
  pose proof (commission_bounded disc cr Bd Hcr) as Bc.
  pose proof (commission_bounded disc pr Bd Hpr) as Bq.
  destruct (DecFacts.mul_spec 13 4 0 2 disc (Dec.mk 10 (-2))) as [_ Bp];
    try assumption; try apply platform_rate_bounded; try (unfold Dec.prec; lia).
  set (pf := Dec.mul disc (Dec.mk 10 (-2))) in *.
  set (cc := match FastAPI.rate_given cr with Some x => Dec.mul disc x | None => Dec.zero_1 end) in *.
  set (pc := match FastAPI.rate_given pr with Some x => Dec.mul disc x | None => Dec.zero_1 end) in *.
  assert (Bp' : Dec.bounded 14 8 pf)
    by (apply (DecFacts.bounded_weaken (13 + 0) (4 + 2)); try lia; assumption).
  destruct (DecFacts.add_spec 14 8 pf cc) as [Q1 B1];
    try assumption; try (unfold Dec.prec; lia).
  assert (Bq' : Dec.bounded 15 8 pc)
    by (apply (DecFacts.bounded_weaken 14 8); try lia; assumption).
  destruct (DecFacts.add_spec 15 8 (Dec.add pf cc) pc) as [Q2 _];
    try assumption; try (unfold Dec.prec; lia).
  rewrite Qd in Qp, Qc, Qq.
  repeat split.
  - exact Qp.
  - exact Qc.
  - exact Qq.
  - rewrite Q2, Q1, Qp, Qc, Qq. ring.
  - rewrite Qn, Qp, Qc, Qq, Qd. ring.
Qed.

(** X1: within the exact range, what [calculate_commissions_with_partners]
    leaves the freelancer is the discounted amount times 90% less the rates
    of the parties that are charged, and the fees are the discounted amount
    times 10% plus those rates. *)
Theorem net_amount_formula (amount discount : Dec.t) (cr pr : option Dec.t) :
  amount_ok amount -> amount_ok discount -> rate_ok cr -> rate_ok pr ->
  let c := FastAPI.calculate_commissions_with_partners amount discount cr pr in
  (Dec.toQ (FastAPI.net_amount c)
   == (Dec.toQ amount - Dec.toQ discount)
      * ((9 # 10) - rate_value cr - rate_value pr))%Q
  /\ (Dec.toQ (FastAPI.total_fees c)
      == (Dec.toQ amount - Dec.toQ discount)
         * ((1 # 10) + rate_value cr + rate_value pr))%Q.
Proof.
  intros Ha Hd Hcr Hpr c.
  destruct (components_spec amount discount cr pr Ha Hd Hcr Hpr)
    as (_ & _ & _ & Qt & Qn).
  split; assumption.
Qed.

Lemma net_amount_formula_witness :
  amount_ok (eur 10000) /\ amount_ok (eur 1000)
  /\ rate_ok (Some (Dec.mk 5 (-2)))
  /\ let c := FastAPI.calculate_commissions_with_partners
                (eur 10000) (eur 1000) (Some (Dec.mk 5 (-2))) None in
     (Dec.toQ (FastAPI.net_amount c)
      == (Dec.toQ (eur 10000) - Dec.toQ (eur 1000))
         * ((9 # 10) - rate_value (Some (Dec.mk 5 (-2))) - rate_value None))%Q.
Proof.
  assert (A1 : amount_ok (eur 10000)) by (split; simpl; lia).
  assert (A2 : amount_ok (eur 1000)) by (split; simpl; lia).
  assert (R1 : rate_ok (Some (Dec.mk 5 (-2)))) by (split; simpl; lia).
  split; [exact A1|]. split; [exact A2|]. split; [exact R1|].
  exact (proj1 (net_amount_formula (eur 10000) (eur 1000)
                  (Some (Dec.mk 5 (-2))) None A1 A2 R1 I)).
Defined.

(** X2: when the discount does not exceed the amount and the rates charged
    are not negative and sum to at most 90%, the freelancer's net amount is
    between 0 and the discounted amount. *)
Theorem net_amount_bounds (amount discount : Dec.t) (cr pr : option Dec.t) :
  amount_ok amount -> amount_ok discount -> rate_ok cr -> rate_ok pr ->
  (Dec.toQ discount <= Dec.toQ amount)%Q ->
  (0 <= rate_value cr)%Q -> (0 <= rate_value pr)%Q ->
  (rate_value cr + rate_value pr <= 9 # 10)%Q ->
  let c := FastAPI.calculate_commissions_with_partners amount discount cr pr in
  (0 <= Dec.toQ (FastAPI.net_amount c))%Q
  /\ (Dec.toQ (FastAPI.net_amount c) <= Dec.toQ (FastAPI.discounted_amount c))%Q.
Proof.
  intros Ha Hd Hcr Hpr Hle H0c H0p Hs c.
  destruct (components_spec amount discount cr pr Ha Hd Hcr Hpr)
    as (_ & _ & _ & _ & Qn).
  destruct (split_spec amount discount cr pr Ha Hd Hcr Hpr) as (Qd & _ & _).
  fold c in Qn, Qd. rewrite Qn, Qd.
  set (n := (Dec.toQ amount - Dec.toQ discount)%Q).
  assert (Hn : (0 <= n)%Q) by (unfold n; lra).
  split.
  - apply Qmult_le_0_compat; [exact Hn | lra].
  - assert (H : (0 <= n * ((1 # 10) + rate_value cr + rate_value pr))%Q)
      by (apply Qmult_le_0_compat; [exact Hn | lra]).
    lra.
Qed.

Lemma net_amount_bounds_witness :
  (Dec.toQ (eur 1000) <= Dec.toQ (eur 10000))%Q
  /\ (rate_value (Some (Dec.mk 5 (-2))) + rate_value (Some (Dec.mk 2 (-2))) <= 9 # 10)%Q
  /\ let c := FastAPI.calculate_commissions_with_partners
                (eur 10000) (eur 1000) (Some (Dec.mk 5 (-2))) (Some (Dec.mk 2 (-2))) in
     (0 <= Dec.toQ (FastAPI.net_amount c))%Q
     /\ (Dec.toQ (FastAPI.net_amount c) <= Dec.toQ (FastAPI.discounted_amount c))%Q.
Proof.
  assert (A1 : amount_ok (eur 10000)) by (split; simpl; lia).
  assert (A2 : amount_ok (eur 1000)) by (split; simpl; lia).
  assert (R1 : rate_ok (Some (Dec.mk 5 (-2)))) by (split; simpl; lia).
  assert (R2 : rate_ok (Some (Dec.mk 2 (-2)))) by (split; simpl; lia).
  assert (L : (Dec.toQ (eur 1000) <= Dec.toQ (eur 10000))%Q) by (vm_compute; discriminate).
  assert (P1 : (0 <= rate_value (Some (Dec.mk 5 (-2))))%Q) by (vm_compute; discriminate).
  assert (P2 : (0 <= rate_value (Some (Dec.mk 2 (-2))))%Q) by (vm_compute; discriminate).
  assert (S : (rate_value (Some (Dec.mk 5 (-2))) + rate_value (Some (Dec.mk 2 (-2))) <= 9 # 10)%Q)
    by (vm_compute; discriminate).
  split; [exact L|]. split; [exact S|].
  exact (net_amount_bounds (eur 10000) (eur 1000) (Some (Dec.mk 5 (-2)))
           (Some (Dec.mk 2 (-2))) A1 A2 R1 R2 L P1 P2 S).
Defined.

(** X3: for an amount and a discount below 10^12 with at most four decimal
    places, [calculate_commission] takes 10% of the discounted amount, its
    fee and net amount sum to the discounted amount, and it agrees with
    [calculate_commissions_with_partners] called without rates on the
    discounted amount, the fee and (in value) the net amount. *)
Theorem calculate_commission_agrees (amount discount : Dec.t) :
  amount_ok amount -> amount_ok discount ->
  let c := FastAPI.calculate_commission amount discount in
  let c' := FastAPI.calculate_commissions_with_partners amount discount None None in
  (Dec.toQ (FastAPI.Commission.platform_fee c)
   == (Dec.toQ amount - Dec.toQ discount) * (1 # 10))%Q
  /\ (Dec.toQ (FastAPI.Commission.platform_fee c)
      + Dec.toQ (FastAPI.Commission.net_amount c)
      == Dec.toQ amount - Dec.toQ discount)%Q
  /\ FastAPI.Commission.discounted_amount c = FastAPI.discounted_amount c'
  /\ FastAPI.Commission.platform_fee c = FastAPI.platform_fee c'
  /\ (Dec.toQ (FastAPI.Commission.net_amount c) == Dec.toQ (FastAPI.net_amount c'))%Q.
Proof.
  intros Ha Hd c c'.
  destruct (components_spec amount discount None None Ha Hd I I)
    as (Qp & _ & _ & _ & Qn).
  fold c' in Qp, Qn.
  unfold amount_ok in *.
  destruct (DecFacts.sub_spec 12 4 amount discount) as [Qd Bd];
    try assumption; try (unfold Dec.prec; lia).
  change (12 + 1) with 13 in Bd.
  destruct (DecFacts.mul_spec 13 4 0 2 (Dec.sub amount discount) (Dec.mk 10 (-2)))
    as [Qm Bm]; try assumption; try apply platform_rate_bounded;
    try (unfold Dec.prec; lia).
  assert (Bd' : Dec.bounded 13 6 (Dec.sub amount discount))
    by (apply (DecFacts.bounded_weaken 13 4); try lia; assumption).
  destruct (DecFacts.sub_spec 13 6 (Dec.sub amount discount)
              (Dec.mul (Dec.sub amount discount) (Dec.mk 10 (-2))))
    as [Qs _]; try assumption; try (unfold Dec.prec; lia).
  assert (Qfee : (Dec.toQ (FastAPI.Commission.platform_fee c)
                  == (Dec.toQ amount - Dec.toQ discount) * (1 # 10))%Q).
  { unfold c, FastAPI.calculate_commission; simpl.
    rewrite Qm, Qd, toQ_platform_rate. reflexivity. }
  assert (Qnet : (Dec.toQ (FastAPI.Commission.net_amount c)
                  == (Dec.toQ amount - Dec.toQ discount) * (9 # 10))%Q).
  { unfold c, FastAPI.calculate_commission; simpl.
    rewrite Qs, Qm, Qd, toQ_platform_rate. ring. }
  split; [exact Qfee|]. split; [rewrite Qfee, Qnet; ring|].
  split; [reflexivity|]. split; [reflexivity|].
  rewrite Qnet, Qn. unfold rate_value; simpl. ring.
Qed.

Lemma calculate_commission_agrees_witness :
  amount_ok (eur 10001) /\ amount_ok (eur 1000)
  /\ (Dec.toQ (FastAPI.Commission.platform_fee
                 (FastAPI.calculate_commission (eur 10001) (eur 1000)))
      == (Dec.toQ (eur 10001) - Dec.toQ (eur 1000)) * (1 # 10))%Q.
Proof.
  assert (A1 : amount_ok (eur 10001)) by (split; simpl; lia).
  assert (A2 : amount_ok (eur 1000)) by (split; simpl; lia).
  split; [exact A1|]. split; [exact A2|].
  exact (proj1 (calculate_commission_agrees (eur 10001) (eur 1000) A1 A2)).
Defined.

(** ** [app/utils/stripe.py] and [app/routers/stripe.py]: the payment intent *)

Lemma toQ_expo_minus_2 (c e : Z) :
  (Dec.toQ (Dec.mk c (e - 2)) == Dec.toQ (Dec.mk c e) * (1 # 100))%Q.
Proof.
  unfold Dec.toQ; simpl.
  replace (e - 2) with (e + -2) by lia.
  rewrite (Qpower_plus _ _ _ DecFacts.ten_neq_0).
  change (inject_Z 10 ^ (-2))%Q with (/ (inject_Z 10 * inject_Z 10))%Q.
  field.
Qed.

Lemma toQ_expo_minus_1 (c e : Z) :
  (Dec.toQ (Dec.mk c (e - 1)) == Dec.toQ (Dec.mk c e) * (1 # 10))%Q.
Proof.
  unfold Dec.toQ; simpl.
  replace (e - 1) with (e + -1) by lia.
  rewrite (Qpower_plus _ _ _ DecFacts.ten_neq_0).
  change (inject_Z 10 ^ (-1))%Q with (/ inject_Z 10)%Q.
  field.
Qed.

(** [d / 100] is exact on a coefficient within the precision. *)
Lemma div_100_spec (d : Dec.t) :
  Z.abs (Dec.coef d) < 10 ^ Dec.prec ->
  (Dec.toQ (Dec.div_100 d) == Dec.toQ d * (1 # 100))%Q
  /\ Z.abs (Dec.coef (Dec.div_100 d)) <= Z.abs (Dec.coef d)
  /\ Dec.expo d - 2 <= Dec.expo (Dec.div_100 d).
Proof.
  intros Hc. destruct d as [c e]. unfold Dec.div_100. cbn [Dec.coef Dec.expo] in *.
  destruct (c mod 100 =? 0) eqn:E100; [|destruct (c mod 10 =? 0) eqn:E10].
  - apply Z.eqb_eq in E100.
    assert (Hq : c = 100 * (c / 100)) by (apply Z.div_exact; lia).
    assert (Ha : Z.abs (c / 100) <= Z.abs c) by lia.
    rewrite DecFacts.fix_prec_small by (cbn [Dec.coef]; lia).
    cbn [Dec.coef Dec.expo]. split; [|split; [exact Ha | lia]].
    unfold Dec.toQ; cbn [Dec.coef Dec.expo].
    rewrite Hq at 2. rewrite inject_Z_mult. field.
  - apply Z.eqb_eq in E10.
    assert (Hq : c = 10 * (c / 10)) by (apply Z.div_exact; lia).
    assert (Ha : Z.abs (c / 10) <= Z.abs c) by lia.
    rewrite DecFacts.fix_prec_small by (cbn [Dec.coef]; lia).
    cbn [Dec.coef Dec.expo]. split; [|split; [exact Ha | lia]].
    rewrite toQ_expo_minus_1.
    unfold Dec.toQ; cbn [Dec.coef Dec.expo].
    rewrite Hq at 2. rewrite inject_Z_mult. field.
  - rewrite DecFacts.fix_prec_small by (cbn [Dec.coef]; lia).
    cbn [Dec.coef Dec.expo]. split; [|split; lia].
    apply toQ_expo_minus_2.
Qed.


Lemma pow10_inverse (e : Z) :
  e <= 0 -> (inject_Z (10 ^ (- e)) * inject_Z 10 ^ e == 1)%Q.
Proof.
  intros H. rewrite Zpower_Qpower by lia.
  rewrite <- (Qpower_plus _ _ _ DecFacts.ten_neq_0).
  replace (- e + e) with 0 by lia. reflexivity.
Qed.







(** X6: [POST /stripe/payment-intent] on a request that passes the checks
    (fields present, freelancer known and with a Stripe account, product and
    client known) and names a commercial stops on the name [Commercial],
    which the module does not import; with a partner and no commercial it
    stops on [Partenaire].  The Stripe API is not reached and nothing is
    written, whatever the API would have answered. *)
Theorem payment_intent_with_referrer
  (payment_intent_create :
     Z -> string -> Z -> string -> Metadata -> bool -> Res (string * string))
  (data : FastAPI.PaymentRequest.t) (d : DB)
  (amount : Dec.t) (f p c : Z) (freelancer : User.t) (product : Produit.t)
  (client : Client.t) :
  FastAPI.PaymentRequest.amount data = Some amount ->
  FastAPI.PaymentRequest.freelance_id data = Some f ->
  FastAPI.PaymentRequest.product_id data = Some p ->
  FastAPI.PaymentRequest.client_id data = Some c ->
  get_user d f = Some freelancer ->
  nonempty_string (User.stripe_account_id freelancer) = true ->
  get_produit d p = Some product ->
  get_client d c = Some client ->
  (truthy_id (FastAPI.PaymentRequest.commercial_id data) = true ->
   run (FastAPI.create_stripe_payment_intent payment_intent_create data) d
   = (Raise (NameError "Commercial"), d))
  /\ (truthy_id (FastAPI.PaymentRequest.commercial_id data) = false ->
      truthy_id (FastAPI.PaymentRequest.partenaire_id data) = true ->
      run (FastAPI.create_stripe_payment_intent payment_intent_create data) d
      = (Raise (NameError "Partenaire"), d)).
Proof.
  intros Ha Hf Hp Hc Hu Hs Hpr Hcl.
  unfold run, FastAPI.create_stripe_payment_intent.
  rewrite Ha, Hf, Hp, Hc.
  unfold bind, query, ret, raise, open_session. run_step.
  rewrite Hu, Hs. cbn [negb]. run_step. rewrite Hpr. run_step. rewrite Hcl.
  run_step.
  split.
  - intros ->. reflexivity.
  - intros -> ->. reflexivity.
Qed.

Lemma payment_intent_with_referrer_witness :
  truthy_id (Some 1) = true
  /\ run (FastAPI.create_stripe_payment_intent
            (fun _ _ _ _ _ _ => Ok ("secret", "pi_1"))
            (sample_payment_request (Some 1) None)) sample_db
     = (Raise (NameError "Commercial"), sample_db).
Proof.
  split; [reflexivity|].
  exact (proj1 (payment_intent_with_referrer
                  (fun _ _ _ _ _ _ => Ok ("secret", "pi_1"))
                  (sample_payment_request (Some 1) None) sample_db
                  (eur 10000) 1 1 1 freelancer_1 (Produit.mk 1 "site" true)
                  (Client.mk 1 None None)
                  eq_refl eq_refl eq_refl eq_refl eq_refl eq_refl eq_refl eq_refl)
               eq_refl).
Defined.

(** ** [app/routers/sales.py]: the other routes *)

(** X8: when [create_sale] succeeds, the sale is the one row added to
    [ventes], under the id that is returned, and one affiliation is added
    for each referrer the request names: for the commercial, then for the
    partner, each bound to the new sale and carrying the commission that was
    stored on the sale.  No other affiliation is added or removed. *)
Theorem create_sale_links (now : Z) (d d' : DB)
  (sale_data : FastAPI.VenteCreate.t) (current_user : User.t) (new_id : Z) :
  run (FastAPI.create_sale now sale_data current_user) d = (Ok new_id, d') ->
  exists sale,
    ventes d' = (ventes d ++ [sale])%list
    /\ Vente.id sale = new_id
    /\ map affiliation_link (affiliations d')
       = (map affiliation_link (affiliations d)
          ++ (if truthy_id (FastAPI.VenteCreate.commercial_id sale_data)
              then [ (SrcCommercial,
                      some_id (FastAPI.VenteCreate.commercial_id sale_data),
                      new_id, Vente.commission_commerciale sale) ]
              else [])
          ++ (if truthy_id (FastAPI.VenteCreate.partenaire_id sale_data)
              then [ (SrcPartenaire,
                      some_id (FastAPI.VenteCreate.partenaire_id sale_data),
                      new_id, Vente.commission_partenaire sale) ]
              else []))%list.
Proof.
  intros H.
  destruct (create_sale_cases now d d' sale_data current_user (Ok new_id) H)
    as [[_ [e He]] | (client & freelancer & sale & _ & _ & _ & _ & Hv
                      & [[He _] | (Hr & _ & _ & Ha)])];
    try discriminate.
  injection Hr as Hr. rewrite <- Hr in Ha.
  exists sale. split; [exact Hv|]. split; [symmetry; exact Hr | exact Ha].
Qed.

Lemma create_sale_links_witness :
  exists d' sale,
    run (FastAPI.create_sale 0 (sample_sale_request (Some 1) (Some 1)) freelancer_1)
        sample_db = (Ok 1, d')
    /\ ventes d' = [sale]
    /\ map affiliation_link (affiliations d')
       = [ (SrcCommercial, 1, 1, Vente.commission_commerciale sale);
           (SrcPartenaire, 1, 1, Vente.commission_partenaire sale) ].
Proof.
  eexists.
  assert (H : run (FastAPI.create_sale 0 (sample_sale_request (Some 1) (Some 1))
                     freelancer_1) sample_db = (Ok 1, _))
    by (vm_compute; reflexivity).
  destruct (create_sale_links 0 sample_db _
              (sample_sale_request (Some 1) (Some 1)) freelancer_1 1 H)
    as (sale & Hv & _ & Ha).
  exists sale. split; [exact H|]. split; [exact Hv | exact Ha].
Defined.

(** X9: a [create_sale] that ends on an exception leaves the database as
    it was, in every case but one: when the client's new lifetime_value or
    the freelancer's new total_revenue does not fit its NUMERIC(10,2)
    column, the second commit fails after the first has stored the sale.
    The sale then stays, as en_attente, and no user, client or affiliation
    is changed. *)
Theorem create_sale_failure (now : Z) (d d' : DB)
  (sale_data : FastAPI.VenteCreate.t) (current_user : User.t) (e : Exn) :
  run (FastAPI.create_sale now sale_data current_user) d = (Raise e, d') ->
  d' = d
  \/ (e = DataError
      /\ exists sale,
           ventes d' = (ventes d ++ [sale])%list
           /\ Vente.id sale = ventes_id_seq d
           /\ Vente.statut_paiement sale = Some EnAttente
           /\ users d' = users d
           /\ clients d' = clients d
           /\ affiliations d' = affiliations d).
Proof.
  intros H.
  destruct (create_sale_cases now d d' sale_data current_user (Raise e) H)
    as [[Hd _] | (client & freelancer & sale & _ & _ & Hid & Hst & Hv
                  & [(He & Hu & Hc & Ha) | (Hr & _)])];
    try discriminate.
  - now left.
  - right. injection He as ->. split; [reflexivity|].
    exists sale. repeat (split; [assumption|]). assumption.
Qed.

Lemma create_sale_failure_witness :
  exists d',
    run (FastAPI.create_sale 0 large_sale_request freelancer_1) sample_db_large
    = (Raise DataError, d')
    /\ map Vente.id (ventes d') = [1]
    /\ (d' = sample_db_large
        \/ (DataError = DataError
            /\ exists sale,
                 ventes d' = (ventes sample_db_large ++ [sale])%list
                 /\ Vente.id sale = ventes_id_seq sample_db_large
                 /\ Vente.statut_paiement sale = Some EnAttente
                 /\ users d' = users sample_db_large
                 /\ clients d' = clients sample_db_large
                 /\ affiliations d' = affiliations sample_db_large)).
Proof.
  eexists.
  assert (H : run (FastAPI.create_sale 0 large_sale_request freelancer_1)
                  sample_db_large = (Raise DataError, _))
    by (vm_compute; reflexivity).
  split; [exact H|]. split; [reflexivity|].
  exact (create_sale_failure 0 sample_db_large _ large_sale_request
           freelancer_1 DataError H).
Defined.

(** X10: [POST /ventes/calculate-commission] does not reject a referrer it
    does not find: for a valid body and a caller who is the user or an
    admin, when the commercial and the partner that are named are not in
    their tables, the answer is the breakdown of the sale without referrer,
    and nothing is written. *)
Theorem preview_unknown_referrer
  (commission_data : FastAPI.VenteCalculateCommission.t)
  (current_user : User.t) (d : DB) :
  FastAPI.VenteCalculateCommission.valid commission_data = true ->
  FastAPI.owner_or_admin
    (Some (FastAPI.VenteCalculateCommission.user_id commission_data))
    current_user = true ->
  (truthy_id (FastAPI.VenteCalculateCommission.commercial_id commission_data)
   = true ->
   get_commercial d
     (some_id (FastAPI.VenteCalculateCommission.commercial_id commission_data))
   = None) ->
  (truthy_id (FastAPI.VenteCalculateCommission.partenaire_id commission_data)
   = true ->
   get_partenaire d
     (some_id (FastAPI.VenteCalculateCommission.partenaire_id commission_data))
   = None) ->
  run (FastAPI.calculate_sale_commission commission_data current_user) d
  = (Ok (FastAPI.calculate_commissions_with_partners
           (FastAPI.VenteCalculateCommission.montant commission_data)
           (Dec.or_zero
              (FastAPI.VenteCalculateCommission.discount_applied commission_data))
           None None), d).
Proof.
  intros Hv Ho Hc Hp.
  unfold run, FastAPI.calculate_sale_commission, bind, query, ret, raise,
    open_session.
  rewrite Hv, Ho. run_step.
  destruct (truthy_id (FastAPI.VenteCalculateCommission.commercial_id _));
    run_step; rewrite ?(Hc eq_refl); run_step;
    destruct (truthy_id (FastAPI.VenteCalculateCommission.partenaire_id _));
    run_step; rewrite ?(Hp eq_refl); reflexivity.
Qed.

Lemma preview_unknown_referrer_witness :
  get_commercial sample_db 99 = None
  /\ run (FastAPI.calculate_sale_commission
            (FastAPI.VenteCalculateCommission.mk (eur 10000) None 1 (Some 99) None)
            freelancer_1) sample_db
     = (Ok (FastAPI.calculate_commissions_with_partners
              (eur 10000) Dec.zero_1 None None), sample_db).
Proof.
  split; [reflexivity|].
  exact (preview_unknown_referrer
           (FastAPI.VenteCalculateCommission.mk (eur 10000) None 1 (Some 99) None)
           freelancer_1 sample_db eq_refl eq_refl
           (fun _ => eq_refl) (fun _ => eq_refl)).
Defined.

Lemma find_filter_other {A : Type} (key : A -> Z) (l : list A) (j k : Z) :
  j <> k ->
  find (fun y => key y =? j) (filter (fun y => negb (key y =? k)) l)
  = find (fun y => key y =? j) l.
Proof.
  intros Hjk. induction l as [|y l IH]; simpl; [reflexivity|].
  destruct (key y =? k) eqn:Ek; simpl.
  - apply Z.eqb_eq in Ek.
    destruct (key y =? j) eqn:Ej; [apply Z.eqb_eq in Ej; lia | exact IH].
  - destruct (key y =? j); [reflexivity | exact IH].
Qed.

Lemma find_filter_same {A : Type} (key : A -> Z) (l : list A) (k : Z) :
  find (fun y => key y =? k) (filter (fun y => negb (key y =? k)) l) = None.
Proof.
  induction l as [|y l IH]; simpl; [reflexivity|].
  destruct (key y =? k) eqn:Ek; simpl; [exact IH|]. now rewrite Ek.
Qed.

(** X11: [delete_sale] by an admin on a sale that exists removes the sale
    and exactly the affiliations bound to it; every other sale is still
    found, and no user and no client is changed: the amounts the sale added
    to total_revenue and lifetime_value when it was created stay. *)
Theorem delete_sale_removes (sale_id : Z) (current_user : User.t) (d : DB)
  (sale : Vente.t) :
  User.role current_user = "admin" ->
  get_vente d sale_id = Some sale ->
  exists d',
    run (FastAPI.delete_sale sale_id current_user) d
    = (Ok "Sale deleted successfully", d')
    /\ get_vente d' sale_id = None
    /\ (forall j, j <> sale_id -> get_vente d' j = get_vente d j)
    /\ affiliations d'
       = filter (fun a => negb (Affiliation.vente_id a =? sale_id)) (affiliations d)
    /\ users d' = users d
    /\ clients d' = clients d.
Proof.
  intros Hrole Hget.
  pose proof (find_key Vente.id _ _ _ Hget) as Hid.
  unfold run, FastAPI.delete_sale, FastAPI.check_admin_role.
  rewrite Hrole. cbn [String.eqb Ascii.eqb Bool.eqb].
  unfold bind, lift_res, query, modify, db_commit, ret, open_session. run_step.
  rewrite Hget. run_step. rewrite Hid.
  eexists. split; [reflexivity|].
  split; [|split; [|split; [|split]]]; try reflexivity.
  - unfold get_vente. cbn [ventes with_ventes with_affiliations].
    apply (find_filter_same Vente.id).
  - intros j Hj. unfold get_vente. cbn [ventes with_ventes with_affiliations].
    now apply (find_filter_other Vente.id).
Qed.

Lemma delete_sale_removes_witness :
  get_vente sample_db_referred 1 = Some (sample_sale 1 Paye)
  /\ exists d',
       run (FastAPI.delete_sale 1 admin_2) sample_db_referred
       = (Ok "Sale deleted successfully", d')
       /\ get_vente d' 1 = None
       /\ affiliations d' = [].
Proof.
  split; [reflexivity|].
  destruct (delete_sale_removes 1 admin_2 sample_db_referred (sample_sale 1 Paye)
              eq_refl eq_refl) as (d' & Hr & Hg & _ & Ha & _).
  exists d'. split; [exact Hr|]. split; [exact Hg | exact Ha].
Defined.

(** X12: the only ways [delete_sale] fails are 403 for a caller who is not
    an admin and 404 for a sale that does not exist, and both leave the
    database as it was. *)
Theorem delete_sale_rejected (sale_id : Z) (current_user : User.t) (d d' : DB)
  (e : Exn) :
  run (FastAPI.delete_sale sale_id current_user) d = (Raise e, d') ->
  d' = d
  /\ ((e = HTTPException 403 "Not enough permissions"
       /\ User.role current_user <> "admin")
      \/ (e = HTTPException 404 "Sale not found"
          /\ get_vente d sale_id = None)).
Proof.
  unfold run, FastAPI.delete_sale, FastAPI.check_admin_role.
  destruct (String.eqb_spec (User.role current_user) "admin") as [Hr|Hr].
  - unfold bind, lift_res, query, modify, db_commit, ret, raise, open_session.
    run_step.
    destruct (get_vente d sale_id) as [sale|] eqn:Hget; run_step.
    + discriminate.
    + intros H. inversion H. split; [reflexivity|]. right. now split.
  - unfold bind, lift_res. run_step.
    intros H. inversion H. split; [reflexivity|]. left. now split.
Qed.

Lemma delete_sale_rejected_witness :
  run (FastAPI.delete_sale 1 freelancer_1) sample_db_referred
  = (Raise (HTTPException 403 "Not enough permissions"), sample_db_referred)
  /\ sample_db_referred = sample_db_referred.
Proof.
  assert (H : run (FastAPI.delete_sale 1 freelancer_1) sample_db_referred
              = (Raise (HTTPException 403 "Not enough permissions"),
                 sample_db_referred)) by reflexivity.
  split; [exact H|].
  exact (proj1 (delete_sale_rejected 1 freelancer_1 sample_db_referred
                  sample_db_referred _ H)).
Defined.

(** X13: whatever the body of the request, an [update_sale] that succeeds
    returns the stored row of that sale, keeps the set of sales, and leaves
    the owner, the client, the amount, the discount, the three commissions,
    the net amount and the referrers of the sale as they were: only the
    status, the feedback, the payment reference and the invoice can change. *)
Theorem update_sale_keeps_money (sale_id : Z) (sale_data : FastAPI.VenteUpdate.t)
  (current_user : User.t) (d d' : DB) (sale' : Vente.t) :
  run (FastAPI.update_sale sale_id sale_data current_user) d = (Ok sale', d') ->
  exists sale,
    get_vente d sale_id = Some sale
    /\ get_vente d' sale_id = Some sale'
    /\ map Vente.id (ventes d') = map Vente.id (ventes d)
    /\ Vente.id sale' = sale_id
    /\ Vente.user_id sale' = Vente.user_id sale
    /\ Vente.client_id sale' = Vente.client_id sale
    /\ Vente.montant sale' = Vente.montant sale
    /\ Vente.discount_applied sale' = Vente.discount_applied sale
    /\ Vente.commission_plateforme sale' = Vente.commission_plateforme sale
    /\ Vente.commission_commerciale sale' = Vente.commission_commerciale sale
    /\ Vente.commission_partenaire sale' = Vente.commission_partenaire sale
    /\ Vente.montant_net_freelance sale' = Vente.montant_net_freelance sale
    /\ Vente.commercial_id sale' = Vente.commercial_id sale
    /\ Vente.partenaire_id sale' = Vente.partenaire_id sale.
Proof.
  unfold run, FastAPI.update_sale, bind, query, ret, raise, db_update_vente,
    db_commit, open_session.
  run_step.
  destruct (get_vente d sale_id) as [sale|] eqn:Hget; [|discriminate].
  destruct (FastAPI.owner_or_admin _ current_user); [|discriminate].
  run_step. cbn [orb].
  match goal with |- context [if negb ?c then _ else _] => destruct c end;
    cbn [negb]; run_step; [|discriminate].
  destruct (FastAPI.response_valid _); [|discriminate].
  cbv beta iota. cbn [persisted].
  intros H. inversion H; subst. clear H.
  pose proof (find_key Vente.id _ _ _ Hget) as Hid.
  assert (Hid' : Vente.id (FastAPI.setattrs sale sale_data) = sale_id).
  { unfold FastAPI.setattrs.
    destruct sale_data as [[?|] [?|] [?|] [?|]]; exact Hid. }
  exists sale. split; [reflexivity|]. split.
  { rewrite <- Hid' at 1. apply (get_vente_put_vente d sale). now rewrite Hid'. }
  split; [apply (map_key_replace Vente.id)|].
  split; [exact Hid'|].
  unfold FastAPI.setattrs.
  destruct sale_data as [[?|] [?|] [?|] [?|]]; repeat split; reflexivity.
Qed.

Lemma update_sale_keeps_money_witness :
  run (FastAPI.update_sale 1
         (FastAPI.VenteUpdate.mk (Some (Some Rembourse)) (Some (Some "late"))
                                 None None)
         freelancer_1) (sample_db_with EnAttente)
  = (Ok (Vente.set_feedback (sample_sale 1 Rembourse) (Some "late")),
     put_vente (sample_db_with EnAttente)
       (Vente.set_feedback (sample_sale 1 Rembourse) (Some "late")))
  /\ exists sale,
       get_vente (sample_db_with EnAttente) 1 = Some sale
       /\ Vente.montant_net_freelance
            (Vente.set_feedback (sample_sale 1 Rembourse) (Some "late"))
          = Vente.montant_net_freelance sale.
Proof.
  assert (H : run (FastAPI.update_sale 1
                     (FastAPI.VenteUpdate.mk (Some (Some Rembourse))
                        (Some (Some "late")) None None)
                     freelancer_1) (sample_db_with EnAttente)
              = (Ok (Vente.set_feedback (sample_sale 1 Rembourse) (Some "late")),
                 put_vente (sample_db_with EnAttente)
                   (Vente.set_feedback (sample_sale 1 Rembourse) (Some "late"))))
    by reflexivity.
  split; [exact H|].
  destruct (update_sale_keeps_money 1 _ freelancer_1 _ _ _ H)
    as (sale & Hg & _ & _ & _ & _ & _ & _ & _ & _ & _ & _ & Hn & _).
  exists sale. split; [exact Hg | exact Hn].
Defined.

(** ** [app/routers/stripe.py]: the webhook and its handlers *)

(** A step that only reads, with what proves the goal when it raises. *)
Ltac read_step_or tac :=
  match goal with
  | |- context [let (r, s') := ?X ?s in _] =>
      let E := fresh "E" in
      let r0 := fresh "r" in
      let s0 := fresh "s" in
      destruct (X s) as [r0 s0] eqn:E;
      assert (s0 = s) by
        (clear - E;
         unfold FastAPI.int_of_meta, ret, raise, bind, query, lift_res in E;
         revert E;
         repeat (cbv beta iota;
                 match goal with
                 | |- context [if ?b then _ else _] => destruct b
                 | |- context [match ?x with Some _ => _ | None => _ end] =>
                     destruct x
                 | |- context [match ?x with MInt _ => _ | MEmpty => _ | MText => _ end] =>
                     destruct x
                 end);
         cbv beta iota; intros E; inversion E; reflexivity);
      subst s0; clear E; destruct r0; run_step; [|tac]
  end.

Lemma fails_unchanged_raise {A} (d : DB) (e : Exn) :
  @fails_unchanged A d (Raise e, d).
Proof. split; [reflexivity | now exists e]. Qed.

Lemma payment_success_unrecorded_fails (now : Z) (payment_intent : PaymentIntent.t)
  (d : DB) (kv : string * MetaVal) (metadata : Metadata) :
  PaymentIntent.metadata payment_intent = Some (kv :: metadata) ->
  get_vente_by_stripe_payment_id d (PaymentIntent.id payment_intent) = None ->
  fails_unchanged d (run (FastAPI.handle_payment_success now payment_intent) d).
Proof.
  intros Hm Hnew.
  unfold run, FastAPI.handle_payment_success.
  rewrite (global_unbound "datetime" eq_refl).
  rewrite (global_unbound "Commercial" eq_refl).
  rewrite (global_unbound "Partenaire" eq_refl).
  rewrite (global_bound "Vente" eq_refl).
  rewrite Hm. set (m := kv :: metadata).
  unfold open_session.
  do 5 (unfold bind at 1; read_step_or ltac:(apply fails_unchanged_raise)).
  unfold bind at 1, query at 1. run_step.
  rewrite Hnew.
  do 5 (unfold bind at 1; read_step_or ltac:(apply fails_unchanged_raise)).
  unfold bind at 1, ret at 1. run_step.
  unfold bind at 1, raise at 1. run_step. apply fails_unchanged_raise.
Qed.

(** X14: [handle_payment_success] on a payment that carries metadata and
    that no sale is bound to never records it: whatever the metadata, the
    amounts and the database, the handler ends on an exception (at the
    latest on the name [datetime], which the module does not import) and
    nothing is written. *)
Theorem payment_success_unrecorded (now : Z) (payment_intent : PaymentIntent.t)
  (d : DB) (kv : string * MetaVal) (metadata : Metadata) :
  PaymentIntent.metadata payment_intent = Some (kv :: metadata) ->
  get_vente_by_stripe_payment_id d (PaymentIntent.id payment_intent) = None ->
  exists e,
    run (FastAPI.handle_payment_success now payment_intent) d = (Raise e, d).
Proof.
  intros Hm Hnew.
  destruct (payment_success_unrecorded_fails now payment_intent d kv metadata
              Hm Hnew) as [Hd [e He]].
  exists e.
  destruct (run (FastAPI.handle_payment_success now payment_intent) d) as [r d'].
  cbn [fst snd] in *. now subst.
Qed.

Lemma payment_success_unrecorded_witness :
  get_vente_by_stripe_payment_id sample_db "pi_1" = None
  /\ exists e,
       run (FastAPI.handle_payment_success 0 sample_payment_intent) sample_db
       = (Raise e, sample_db).
Proof.
  split; [reflexivity|].
  exact (payment_success_unrecorded 0 sample_payment_intent sample_db
           ("freelance_id", MInt 1)
           [ ("product_id", MInt 1); ("client_id", MInt 1); ("platform", MText) ]
           eq_refl eq_refl).
Defined.






Lemma settled_unchanged {A} (d w : DB) (b : bool) (r : Res A) :
  settled d (r, mkSession d w b).
Proof. repeat split. Qed.

Lemma handle_payment_success_settled (now : Z) (payment_intent : PaymentIntent.t)
  (d : DB) :
  settled d (FastAPI.handle_payment_success now payment_intent (open_session d)).
Proof.
  unfold FastAPI.handle_payment_success.
  rewrite (global_unbound "datetime" eq_refl).
  rewrite (global_unbound "Commercial" eq_refl).
  rewrite (global_unbound "Partenaire" eq_refl).
  rewrite (global_bound "Vente" eq_refl).
  destruct (match PaymentIntent.metadata payment_intent with
            | Some m => m
            | None => []
            end) as [|kv metadata];
    [apply settled_unchanged|].
  set (m := kv :: metadata).
  unfold open_session.
  do 5 (unfold bind at 1; read_step_or ltac:(apply settled_unchanged)).
  unfold bind at 1, query at 1. run_step.
  destruct (get_vente_by_stripe_payment_id d _) as [existing|].
  - unfold db_update_vente, db_commit, bind, ret.
    destruct (Vente.statut_paiement existing) as [[]|]; run_step;
      try apply settled_unchanged;
      (split; [apply (map_key_replace Vente.id)|]; repeat split; discriminate).
  - do 5 (unfold bind at 1; read_step_or ltac:(apply settled_unchanged)).
    unfold bind at 1, ret at 1. run_step.
    unfold bind at 1, raise at 1. run_step. apply settled_unchanged.
Qed.

Lemma handle_account_updated_settled (account : Account.t) (d : DB) :
  settled d (FastAPI.handle_account_updated account (open_session d)).
Proof.
  unfold FastAPI.handle_account_updated, bind, query, modify, db_commit, ret,
    open_session.
  run_step.
  destruct (get_user_by_stripe_account_id d _) as [user|]; run_step;
    repeat split; discriminate.
Qed.

(** X16: the FastAPI webhook answers every delivery with a status body: no
    exception leaves it, not even the 400 of a failed verification.  When
    the status is an error nothing was committed.  And whatever the event,
    it never adds or removes a sale and never changes an affiliation or a
    client. *)
Theorem webhook_outcome
  (construct_event : string -> option string -> option string -> Res Event)
  (secret : string) (now : Z) (payload : string) (sig_header : option string)
  (d d' : DB) (r : Res FastAPI.WebhookStatus) :
  run (FastAPI.stripe_webhook construct_event secret now payload sig_header) d
  = (r, d') ->
  (exists st, r = Ok st)
  /\ (forall e, r = Ok (FastAPI.StatusError e) -> d' = d)
  /\ map Vente.id (ventes d') = map Vente.id (ventes d)
  /\ affiliations d' = affiliations d
  /\ clients d' = clients d.
Proof.
  unfold run, FastAPI.stripe_webhook, try_except, bind at 1, lift_res at 1.
  destruct (FastAPI.verify_stripe_webhook construct_event secret sig_header payload)
    as [event|e0].
  2:{ unfold ret. intros H. inversion H. subst.
      split; [eauto|]. repeat split. }
  unfold bind at 1.
  destruct event as [o|o|o|t].
  - pose proof (handle_payment_success_settled now o d) as Hx.
    destruct (FastAPI.handle_payment_success now o (open_session d))
      as [[[]|e] s]; unfold ret; destruct Hx as (H1 & H2 & H3 & H4);
      cbn [fst snd] in *; intros H; inversion H; subst.
    + split; [eauto|]. split; [discriminate|]. auto.
    + split; [eauto|]. split; [intros _ _; now apply (H4 e)|]. auto.
  - pose proof (handle_account_updated_settled o d) as Hx.
    destruct (FastAPI.handle_account_updated o (open_session d))
      as [[[]|e] s]; unfold ret; destruct Hx as (H1 & H2 & H3 & H4);
      cbn [fst snd] in *; intros H; inversion H; subst.
    + split; [eauto|]. split; [discriminate|]. auto.
    + split; [eauto|]. split; [intros _ _; now apply (H4 e)|]. auto.
  - unfold ret. intros H. inversion H. subst.
    split; [eauto|]. split; [discriminate|]. repeat split.
  - unfold ret. intros H. inversion H. subst.
    split; [eauto|]. split; [discriminate|]. repeat split.
Qed.

Lemma webhook_outcome_witness :
  run (FastAPI.stripe_webhook
         (accept_as (PaymentIntentSucceeded sample_payment_intent))
         whsec 0 "{}" (Some "t=1,v1=00")) sample_db
  = (Ok (FastAPI.StatusError (NameError "datetime")), sample_db)
  /\ exists st : FastAPI.WebhookStatus,
       Ok (FastAPI.StatusError (NameError "datetime")) = Ok st.
Proof.
  assert (H : run (FastAPI.stripe_webhook
                     (accept_as (PaymentIntentSucceeded sample_payment_intent))
                     whsec 0 "{}" (Some "t=1,v1=00")) sample_db
              = (Ok (FastAPI.StatusError (NameError "datetime")), sample_db))
    by (vm_compute; reflexivity).
  split; [exact H|].
  exact (proj1 (webhook_outcome _ whsec 0 "{}" (Some "t=1,v1=00")
                  sample_db sample_db _ H)).
Defined.

Lemma NoDup_key_eq {A : Type} (key : A -> Z) (l : list A) (x y : A) :
  NoDup (map key l) -> In x l -> In y l -> key x = key y -> x = y.
Proof.
  induction l as [|z l IH]; simpl; [contradiction|].
  intros Hnd Hx Hy Hk. inversion Hnd as [|? ? Hnotin Hnd']; subst.
  destruct Hx as [->|Hx], Hy as [->|Hy]; auto.
  - exfalso. apply Hnotin. rewrite Hk. now apply in_map.
  - exfalso. apply Hnotin. rewrite <- Hk. now apply in_map.
Qed.

(** X17: with user ids that are unique, [handle_account_updated] always
    succeeds and changes at most the payout flag and the KYC status of
    users: every user keeps their id, role, Stripe account and total
    revenue, and the sales, the clients and the affiliations are as they
    were. *)
Theorem account_updated_keeps_identity (account : Account.t) (d : DB) :
  NoDup (map User.id (users d)) ->
  let x := run (FastAPI.handle_account_updated account) d in
  fst x = Ok tt
  /\ map user_identity (users (snd x)) = map user_identity (users d)
  /\ ventes (snd x) = ventes d
  /\ clients (snd x) = clients d
  /\ affiliations (snd x) = affiliations d.
Proof.
  intros Hnd.
  unfold run, FastAPI.handle_account_updated, bind, query, modify, db_commit, ret,
    open_session.
  run_step.
  destruct (get_user_by_stripe_account_id d _) as [user|] eqn:Hu; run_step;
    [|repeat split].
  split; [reflexivity|]. split; [|repeat split].
  apply find_some in Hu. destruct Hu as [Hin _].
  match goal with
  | |- context [put_user d ?u] => set (user2 := u)
  end.
  assert (Hid : User.id user2 = User.id user).
  { unfold user2.
    destruct (Account.requirements account) as [[[|] ?]|]; cbn;
      try destruct (nonempty_string _); reflexivity. }
  assert (Hident : user_identity user2 = user_identity user).
  { unfold user2.
    destruct (Account.requirements account) as [[[|] ?]|]; cbn;
      try destruct (nonempty_string _); reflexivity. }
  unfold put_user. cbn [users with_users]. rewrite map_map.
  apply map_ext_in. intros y Hy.
  destruct (User.id y =? User.id user2) eqn:E; [|reflexivity].
  apply Z.eqb_eq in E. rewrite Hid in E.
  rewrite (NoDup_key_eq User.id (users d) y user Hnd Hy Hin E).
  exact Hident.
Qed.

Lemma account_updated_keeps_identity_witness :
  NoDup (map User.id (users sample_db))
  /\ option_map User.kyc_status
       (get_user (snd (run (FastAPI.handle_account_updated sample_account)
                           sample_db)) 1)
     = Some (Some "verified")
  /\ map user_identity
       (users (snd (run (FastAPI.handle_account_updated sample_account)
                        sample_db)))
     = map user_identity (users sample_db).
Proof.
  assert (N : NoDup (map User.id (users sample_db))).
  { simpl. constructor; [simpl; intros [H|[]]; discriminate H|].
    constructor; [simpl; intros []|]. constructor. }
  split; [exact N|]. split; [reflexivity|].
  exact (proj1 (proj2 (account_updated_keeps_identity sample_account sample_db N))).
Defined.

(** ** The Flask application *)





Lemma flask_webhook_unchanged (event : Res Event) (d : DB) (r : Res Flask.Response) :
  flask_webhook_outcome event d (r, d).
Proof. repeat split. now left. Qed.

(** X19: the Flask webhook never changes a user, a client or an
    affiliation, and writes only for a checkout.session.completed event
    answered with success: it then adds one sale, paid, bound to the id of
    the session, with no referrer and with the referrer commissions and the
    freelancer's net amount left at 0.  In every other case (other events,
    failed verification, an error while processing) the database is as it
    was. *)
Theorem flask_webhook_records
  (retrieve : string -> Res PaymentIntent.t)
  (construct_event : string -> option string -> option string -> Res Event)
  (construct_from : string -> Res Event)
  (secret : option string) (db_engine : bool)
  (now : Z) (payload : string) (sig_header : option string) (d : DB) :
  flask_webhook_outcome
    (if Flask.unverified secret sig_header then construct_from payload
     else construct_event payload sig_header secret)
    d
    (run (Flask.stripe_webhook retrieve construct_event construct_from secret
            db_engine now payload sig_header) d).
Proof.
  unfold run, Flask.stripe_webhook.
  destruct (Flask.unverified secret sig_header);
    [ destruct (construct_from payload) as [[o|o|o|t]|e]
    | destruct (construct_event payload sig_header secret) as [[o|o|o|t]|e] ];
    try apply flask_webhook_unchanged;
    try (destruct e; apply flask_webhook_unchanged).
  (* checkout.session.completed, unsigned and signed *)
  all: unfold try_except, bind at 1, lift_res at 1, open_session.
  all: destruct (Flask.handle_checkout_session_completed retrieve o)
         as [session_data|e] eqn:Hh; run_step;
       [|apply flask_webhook_unchanged].
  all: destruct db_engine; cbn [negb]; [|apply flask_webhook_unchanged].
  all: unfold bind, sql_insert_vente, db_commit, ret; run_step.
  all: match goal with
       | |- context [fk_vente ?w ?v] => set (sale := v); destruct (fk_vente w sale)
       end; run_step; [|apply flask_webhook_unchanged].
  all: repeat split; right; exists o, sale.
  all: split; [reflexivity|]; split; [reflexivity|]; split; [reflexivity|].
  all: assert (Hid : Flask.sd_stripe_payment_id session_data = CheckoutSession.id o
                     /\ Flask.sd_statut_paiement session_data = Paye)
         by (unfold Flask.handle_checkout_session_completed in Hh;
             repeat match type of Hh with
                    | match ?x with _ => _ end = _ => destruct x; try discriminate Hh
                    end; inversion Hh; split; reflexivity).
  all: destruct Hid as [Hid Hst].
  all: unfold recorded_for, sale; cbn; rewrite Hid, Hst; repeat split.
Qed.

(** X20: a verified checkout.session.completed event without metadata is
    not skipped by the Flask webhook: when the payment intent, if any, can
    be retrieved, a paid sale is recorded with no freelancer, no client and
    no product. *)
Theorem flask_webhook_empty_metadata
  (retrieve : string -> Res PaymentIntent.t)
  (construct_event : string -> option string -> option string -> Res Event)
  (construct_from : string -> Res Event)
  (secret : option string)
  (now : Z) (payload : string) (sig_header : option string) (d : DB)
  (o : CheckoutSession.t) :
  Flask.unverified secret sig_header = false ->
  construct_event payload sig_header secret = Ok (CheckoutSessionCompleted o) ->
  CheckoutSession.metadata o = [] ->
  (forall pid, CheckoutSession.payment_intent o = Some pid ->
               exists payment_intent, retrieve pid = Ok payment_intent) ->
  exists sale d',
    run (Flask.stripe_webhook retrieve construct_event construct_from secret
           true now payload sig_header) d
    = (Ok (200, Flask.Message "Success"), d')
    /\ ventes d' = (ventes d ++ [sale])%list
    /\ Vente.user_id sale = None
    /\ Vente.client_id sale = None
    /\ Vente.produit_id sale = None
    /\ Vente.statut_paiement sale = Some Paye.
Proof.
  intros Hv Hev Hmeta Hret.
  unfold run, Flask.stripe_webhook. rewrite Hv, Hev.
  unfold try_except, bind at 1, lift_res at 1, open_session.
  assert (Hh : exists t f,
             Flask.handle_checkout_session_completed retrieve o
             = Ok (Flask.mkSessionData None None None
                     (Dec.div_100 (Dec.of_Z (CheckoutSession.amount_total o))) f
                     (CheckoutSession.id o) t Paye
                     (CheckoutSession.payment_intent o))).
  { unfold Flask.handle_checkout_session_completed. rewrite Hmeta. cbn [meta_get].
    destruct (CheckoutSession.payment_intent o) as [pid|]; [|do 2 eexists; reflexivity].
    destruct (String.eqb pid ""); [do 2 eexists; reflexivity|].
    destruct (Hret pid eq_refl) as [pi ->]. do 2 eexists; reflexivity. }
  destruct Hh as (t & f & ->). run_step. cbn [negb].
  unfold bind, sql_insert_vente, db_commit, ret. run_step.
  cbn [Flask.sd_freelance_id Flask.sd_client_id Flask.sd_product_id].
  match goal with
  | |- context [fk_vente d ?v] =>
      set (sale := v);
      assert (Hfk : fk_vente d sale = true) by reflexivity;
      rewrite Hfk
  end.
  run_step.
  exists sale. eexists. split; [reflexivity|]. repeat split.
Qed.

Lemma flask_webhook_empty_metadata_witness :
  Flask.unverified (Some whsec) (Some "t=1,v1=00") = false
  /\ exists sale d',
       run (Flask.stripe_webhook sample_retrieve
              (accept_as (CheckoutSessionCompleted empty_checkout_session))
              (fun _ => Raise ValueError) (Some whsec) true 0 "{}"
              (Some "t=1,v1=00")) sample_db
       = (Ok (200, Flask.Message "Success"), d')
       /\ ventes d' = [sale]
       /\ Vente.user_id sale = None.
Proof.
  split; [reflexivity|].
  destruct (flask_webhook_empty_metadata sample_retrieve
              (accept_as (CheckoutSessionCompleted empty_checkout_session))
              (fun _ => Raise ValueError) (Some whsec) 0 "{}" (Some "t=1,v1=00")
              sample_db empty_checkout_session eq_refl eq_refl eq_refl
              (fun pid H => ex_intro _ sample_payment_intent eq_refl))
    as (sale & d' & Hr & Hv & Hu & _).
  exists sale, d'. split; [exact Hr|]. split; [exact Hv | exact Hu].
Defined.

(** X21: [token_required] always answers, and runs the route only for an
    Authorization header of two parts whose first is 'bearer' in any case
    and whose token decodes to a payload with an integer subject; the route
    then runs for that user, and an exception that leaves it is answered 401
    'Token is invalid!'.  In every other case the answer is 401 and nothing
    is written. *)
Theorem token_required_guard (decode_token : string -> option Metadata)
  (f : Z -> M Flask.Response) (authorization : option (list string)) (d : DB) :
  let x := run (Flask.token_required decode_token f authorization) d in
  (exists response, fst x = Ok response)
  /\ ((exists user_id,
         token_accepted decode_token authorization user_id
         /\ x = run (try_except (f user_id)
                       (fun _ => ret (401, Flask.Message "Token is invalid!"))) d)
      \/ (snd x = d /\ exists m, fst x = Ok (401, Flask.Message m))).
Proof.
  assert (Hno : forall m : string,
             let x := (Ok (401, Flask.Message m), d) in
             (exists response, fst x = Ok response)
             /\ ((exists user_id,
                    token_accepted decode_token authorization user_id
                    /\ x = run (try_except (f user_id)
                                  (fun _ => ret (401, Flask.Message "Token is invalid!"))) d)
                 \/ (snd x = d /\ exists m, fst x = Ok (401, Flask.Message m)))).
  { intros m. cbv zeta. split; [eexists; reflexivity|]. right.
    split; [reflexivity | eexists; reflexivity]. }
  unfold run, Flask.token_required.
  destruct authorization as [[|scheme [|token [|]]]|]; try apply Hno.
  destruct (String.eqb_spec (Flask.lower scheme) "bearer") as [Hs|Hs];
    [|apply Hno].
  destruct (String.eqb token ""); [apply Hno|].
  unfold try_except at 1.
  destruct (decode_token token) as [[|kv payload]|] eqn:Hd; try apply Hno.
  set (p := kv :: payload) in *.
  unfold bind at 1.
  destruct (meta_get p "sub") as [[n| |]|] eqn:Hsub; try apply Hno.
  unfold ret at 1. run_step. cbv zeta.
  split.
  - unfold open_session.
    destruct (f n (mkSession d d false)) as [[resp|e] s]; eexists; reflexivity.
  - left. exists n. split.
    + exists scheme, token, p. repeat split; assumption.
    + unfold run, try_except. reflexivity.
Qed.

(** *** Rounding in [calculate_commissions] *)

Lemma round_half_even_error (n k : Z) :
  0 <= k ->
  Z.abs (2 * (Dec.round_half_even n k * 10 ^ k - n)) <= 10 ^ k
  /\ Z.abs (Dec.round_half_even n k) <= Z.abs n + 1.
Proof.
  intros Hk. unfold Dec.round_half_even.
  set (p := 10 ^ k).
  assert (Pp : 0 < p) by (apply DecFacts.pow10_pos; lia).
  pose proof (Z.div_mod (Z.abs n) p ltac:(lia)) as Hdm.
  pose proof (Z.mod_pos_bound (Z.abs n) p Pp) as Hr.
  assert (Hq : 0 <= Z.abs n / p) by (apply Z.div_pos; lia).
  set (q := Z.abs n / p) in *. set (r := Z.abs n mod p) in *.
  cbv zeta.
  destruct (Z.ltb_spec (2 * r) p);
    [|destruct (Z.eqb_spec (2 * r) p); [destruct (Z.even q)|]];
    (destruct (Z.abs_spec n) as [[Hn Ha]|[Hn Ha]];
     [ destruct (Z.eq_dec n 0) as [->|Hn0];
       [ change (Z.sgn 0) with 0; change (Z.abs 0) with 0 in *; split; nia
       | rewrite (Z.sgn_pos n) by lia; split; nia ]
     | rewrite (Z.sgn_neg n) by lia; split; nia ]).
Qed.

Lemma quantize_cents_spec (N E : Z) (d : Dec.t) :
  0 <= N -> 2 <= E -> N + E < Dec.prec -> Dec.bounded N E d ->
  exists q,
    Dec.quantize_cents d = Some q
    /\ Dec.expo q = -2
    /\ (Dec.toQ d - (1 # 200) <= Dec.toQ q)%Q
    /\ (Dec.toQ q <= Dec.toQ d + (1 # 200))%Q.
Proof.
  intros HN HE HP Hb.
  pose proof (DecFacts.bounded_coef N E d ltac:(lia) ltac:(lia) Hb) as Hc.
  assert (Hprec : 10 * 10 ^ (N + E) <= 10 ^ Dec.prec).
  { change (10 * 10 ^ (N + E)) with (10 ^ 1 * 10 ^ (N + E)).
    rewrite <- DecFacts.pow10_split by lia. apply Z.pow_le_mono_r; lia. }
  destruct Hb as [He Hm].
  unfold Dec.quantize_cents.
  destruct (Z.leb_spec (-2) (Dec.expo d)) as [H2|H2]; cbn [Dec.coef].
  - (* at most two places: rescaled exactly *)
    assert (Hfit : Z.abs (Dec.coef d * 10 ^ (Dec.expo d + 2)) < 10 ^ Dec.prec).
    { rewrite Z.abs_mul, (Z.abs_eq (10 ^ _))
        by (apply Z.lt_le_incl, DecFacts.pow10_pos; lia).
      replace (Dec.expo d + E) with ((Dec.expo d + 2) + (E - 2)) in Hm by lia.
      rewrite DecFacts.pow10_split in Hm by lia.
      pose proof (DecFacts.pow10_pos (E - 2) ltac:(lia)).
      pose proof (DecFacts.pow10_pos (Dec.expo d + 2) ltac:(lia)).
      pose proof (Z.abs_nonneg (Dec.coef d)).
      pose proof (DecFacts.pow10_pos (N + E) ltac:(lia)).
      nia. }
    destruct (Z.ltb_spec (Z.abs (Dec.coef d * 10 ^ (Dec.expo d + 2))) (10 ^ Dec.prec));
      [|lia].
    eexists. split; [reflexivity|]. split; [reflexivity|].
    assert (Hq : (Dec.toQ (Dec.mk (Dec.coef d * 10 ^ (Dec.expo d + 2)) (-2))
                  == Dec.toQ d)%Q).
    { rewrite <- (DecFacts.toQ_shift d (-2)) by lia.
      unfold Dec.shift_to, Dec.toQ; cbn [Dec.coef Dec.expo].
      replace (Dec.expo d - -2) with (Dec.expo d + 2) by lia. reflexivity. }
    rewrite Hq. split; lra.
  - (* more places: rounded half-even *)
    set (k := - 2 - Dec.expo d).
    assert (Hk : 0 < k) by (subst k; lia).
    destruct (round_half_even_error (Dec.coef d) k ltac:(lia)) as [Herr Hmag].
    set (R := Dec.round_half_even (Dec.coef d) k) in *.
    destruct (Z.ltb_spec (Z.abs R) (10 ^ Dec.prec));
      [|pose proof (DecFacts.pow10_pos (N + E) ltac:(lia)); lia].
    eexists. split; [reflexivity|]. split; [reflexivity|].
    set (p := 10 ^ k) in *.
    assert (Pp : 0 < p) by (apply DecFacts.pow10_pos; lia).
    set (X := (inject_Z 10 ^ (- k))%Q).
    assert (HX : (inject_Z p * X == 1)%Q).
    { pose proof (pow10_inverse (- k) ltac:(lia)) as Hi.
      replace (- - k) with k in Hi by lia. exact Hi. }
    assert (Hd : (Dec.toQ d == inject_Z (Dec.coef d) * X * (1 # 100))%Q).
    { unfold Dec.toQ, X.
      replace (Dec.expo d) with (- k + -2) at 1 by (subst k; lia).
      rewrite (Qpower_plus _ _ _ DecFacts.ten_neq_0).
      change (inject_Z 10 ^ (-2))%Q with (/ (inject_Z 10 * inject_Z 10))%Q.
      field. }
    assert (Hr : (Dec.toQ (Dec.mk R (-2)) == inject_Z R * (1 # 100))%Q).
    { unfold Dec.toQ; cbn [Dec.coef Dec.expo].
      change (inject_Z 10 ^ (-2))%Q with (/ (inject_Z 10 * inject_Z 10))%Q.
      field. }
    rewrite Hd, Hr.
    assert (PQ : (0 < inject_Z p)%Q)
      by (change 0%Q with (inject_Z 0); rewrite <- Zlt_Qlt; lia).
    assert (Hup : (2 * (inject_Z R - inject_Z (Dec.coef d) * X) <= 1)%Q).
    { apply (Qmult_le_r _ _ (inject_Z p) PQ).
      assert (E1 : (2 * (inject_Z R - inject_Z (Dec.coef d) * X) * inject_Z p
                    == 2 * (inject_Z R * inject_Z p)
                       - 2 * inject_Z (Dec.coef d) * (inject_Z p * X))%Q) by ring.
      rewrite E1, HX.
      assert (E2 : (2 * (inject_Z R * inject_Z p) - 2 * inject_Z (Dec.coef d) * 1
                    == inject_Z (2 * (R * p - Dec.coef d)))%Q).
      { unfold Z.sub.
        rewrite inject_Z_mult, inject_Z_plus, inject_Z_mult, inject_Z_opp.
        change (inject_Z 2) with 2%Q. ring. }
      rewrite E2. rewrite Qmult_1_l. rewrite <- Zle_Qle. lia. }
    assert (Hlo : (-1 <= 2 * (inject_Z R - inject_Z (Dec.coef d) * X))%Q).
    { apply (Qmult_le_r _ _ (inject_Z p) PQ).
      assert (E1 : (2 * (inject_Z R - inject_Z (Dec.coef d) * X) * inject_Z p
                    == 2 * (inject_Z R * inject_Z p)
                       - 2 * inject_Z (Dec.coef d) * (inject_Z p * X))%Q) by ring.
      rewrite E1, HX.
      assert (E2 : (2 * (inject_Z R * inject_Z p) - 2 * inject_Z (Dec.coef d) * 1
                    == inject_Z (2 * (R * p - Dec.coef d)))%Q).
      { unfold Z.sub.
        rewrite inject_Z_mult, inject_Z_plus, inject_Z_mult, inject_Z_opp.
        change (inject_Z 2) with 2%Q. ring. }
      rewrite E2.
      assert (E3 : (-1 * inject_Z p == inject_Z (- p))%Q)
        by (rewrite inject_Z_opp; ring).
      rewrite E3. rewrite <- Zle_Qle. lia. }
    split; lra.
Qed.

Lemma div_100_bounded (N E : Z) (d : Dec.t) :
  0 <= N -> 0 <= E -> N + E + 2 <= Dec.prec ->
  Dec.bounded N E d -> Dec.bounded N (E + 2) (Dec.div_100 d).
Proof.
  intros HN HE HP Hb.
  pose proof (DecFacts.bounded_coef N E d HN HE Hb) as Hc.
  destruct Hb as [He Hm].
  assert (Hle : 10 ^ (N + E) <= 10 ^ (N + (E + 2)))
    by (apply Z.pow_le_mono_r; lia).
  assert (Hpr : 10 ^ (N + E) <= 10 ^ Dec.prec)
    by (apply Z.pow_le_mono_r; lia).
  pose proof (DecFacts.pow10_pos (Dec.expo d + E) ltac:(lia)) as Pe.
  unfold Dec.div_100.
  destruct (Z.eqb_spec (Dec.coef d mod 100) 0) as [H100|H100];
    [|destruct (Z.eqb_spec (Dec.coef d mod 10) 0) as [H10|H10]].
  - pose proof (Z.div_mod (Dec.coef d) 100 ltac:(lia)) as Hdm.
    rewrite H100, Z.add_0_r in Hdm.
    assert (Ha : Z.abs (Dec.coef d) = 100 * Z.abs (Dec.coef d / 100)) by lia.
    rewrite DecFacts.fix_prec_small by (cbn [Dec.coef]; lia).
    split; cbn [Dec.coef Dec.expo]; [lia|].
    replace (Dec.expo d + (E + 2)) with ((Dec.expo d + E) + 2) by lia.
    rewrite DecFacts.pow10_split by lia. change (10 ^ 2) with 100. nia.
  - pose proof (Z.div_mod (Dec.coef d) 10 ltac:(lia)) as Hdm.
    rewrite H10, Z.add_0_r in Hdm.
    assert (Ha : Z.abs (Dec.coef d) = 10 * Z.abs (Dec.coef d / 10)) by lia.
    rewrite DecFacts.fix_prec_small by (cbn [Dec.coef]; lia).
    split; cbn [Dec.coef Dec.expo]; [lia|].
    replace (Dec.expo d - 1 + (E + 2)) with ((Dec.expo d + E) + 1) by lia.
    rewrite DecFacts.pow10_split by lia. change (10 ^ 1) with 10. nia.
  - rewrite DecFacts.fix_prec_small by (cbn [Dec.coef]; lia).
    split; cbn [Dec.coef Dec.expo]; [lia|].
    replace (Dec.expo d - 2 + (E + 2)) with (Dec.expo d + E) by lia. lia.
Qed.

Lemma custom_rate_bounded (x : option (option Dec.t)) (default : Dec.t) :
  match x with Some p => percentage_ok p | None => True end ->
  Dec.bounded 3 4 default ->
  Dec.bounded 3 4 (Flask.custom_rate x default).
Proof.
  intros Hx Hd. unfold Flask.custom_rate.
  destruct x as [[p|]|]; try exact Hd.
  destruct (Dec.truthy p); [|exact Hd].
  apply (div_100_bounded 3 2); try (unfold Dec.prec; lia). exact Hx.
Qed.

Lemma flask_split_rounded (m rp rc ra : Dec.t) (bc ba : bool) :
  amount_ok m -> Dec.bounded 3 4 rp -> Dec.bounded 3 4 rc -> Dec.bounded 3 4 ra ->
  let P := Dec.mul m rp in
  let C := if bc then Dec.mul m rc else Dec.zero_0 in
  let A := if ba then Dec.mul m ra else Dec.zero_0 in
  let F := Dec.sub (Dec.sub (Dec.sub m P) C) A in
  exists p c a f,
    Dec.quantize_cents P = Some p /\ Dec.quantize_cents C = Some c
    /\ Dec.quantize_cents A = Some a /\ Dec.quantize_cents F = Some f
    /\ Dec.expo p = -2 /\ Dec.expo c = -2 /\ Dec.expo a = -2 /\ Dec.expo f = -2
    /\ (- (2 # 100) <= Dec.toQ p + Dec.toQ c + Dec.toQ a + Dec.toQ f - Dec.toQ m)%Q
    /\ (Dec.toQ p + Dec.toQ c + Dec.toQ a + Dec.toQ f - Dec.toQ m <= 2 # 100)%Q.
Proof.
  intros Hm Hrp Hrc Hra P C A F. unfold amount_ok in Hm.
  assert (BP : Dec.bounded 15 8 P).
  { apply (DecFacts.mul_spec 12 4 3 4); try assumption; unfold Dec.prec; lia. }
  assert (BC : Dec.bounded 15 8 C).
  { subst C. destruct bc; [|apply bounded_zero; lia].
    apply (DecFacts.mul_spec 12 4 3 4); try assumption; unfold Dec.prec; lia. }
  assert (BA : Dec.bounded 15 8 A).
  { subst A. destruct ba; [|apply bounded_zero; lia].
    apply (DecFacts.mul_spec 12 4 3 4); try assumption; unfold Dec.prec; lia. }
  assert (Bm : Dec.bounded 16 8 m)
    by (apply (DecFacts.bounded_weaken 12 4); try lia; assumption).
  destruct (DecFacts.sub_spec 16 8 m P) as [Q1 B1];
    try (unfold Dec.prec; lia); try assumption.
  { apply (DecFacts.bounded_weaken 15 8); try lia; assumption. }
  destruct (DecFacts.sub_spec 17 8 (Dec.sub m P) C) as [Q2 B2];
    try (unfold Dec.prec; lia); try assumption.
  { apply (DecFacts.bounded_weaken 15 8); try lia; assumption. }
  destruct (DecFacts.sub_spec 18 8 (Dec.sub (Dec.sub m P) C) A) as [Q3 B3];
    try (unfold Dec.prec; lia); try assumption.
  { apply (DecFacts.bounded_weaken 15 8); try lia; assumption. }
  fold F in Q3, B3.
  destruct (quantize_cents_spec 15 8 P) as (p & Hp & Ep & Lp & Up);
    try (unfold Dec.prec; lia); try assumption.
  destruct (quantize_cents_spec 15 8 C) as (c & Hc & Ec & Lc & Uc);
    try (unfold Dec.prec; lia); try assumption.
  destruct (quantize_cents_spec 15 8 A) as (a & Ha & Ea & La & Ua);
    try (unfold Dec.prec; lia); try assumption.
  destruct (quantize_cents_spec 19 8 F) as (f & Hf & Ef & Lf & Uf);
    try (unfold Dec.prec; lia); try assumption.
  exists p, c, a, f. repeat (split; [assumption|]).
  rewrite Q3, Q2, Q1 in Lf, Uf. split; lra.
Qed.

(** X22: for an amount below 10^12 with at most four places and stored
    percentages that fit NUMERIC(5,2), the Flask [calculate_commissions]
    succeeds and reads only; and, each of its four components being rounded
    to cents on its own, their sum is within 0.02 of the amount. *)
Theorem flask_rounding_drift (montant : Dec.t) (commercial_id partenaire_id : option Z)
  (d : DB) :
  amount_ok montant ->
  (forall c, get_commercial d (some_id commercial_id) = Some c ->
             percentage_ok (Commercial.pourcentage c)) ->
  (forall p, get_partenaire d (some_id partenaire_id) = Some p ->
             percentage_ok (Partenaire.pourcentage p)) ->
  exists c,
    run (Flask.calculate_commissions montant commercial_id partenaire_id) d
    = (Ok c, d)
    /\ (- (2 # 100)
        <= Dec.toQ (Flask.plateforme c) + Dec.toQ (Flask.commerciale c)
           + Dec.toQ (Flask.partenaire c) + Dec.toQ (Flask.freelance c)
           - Dec.toQ montant)%Q
    /\ (Dec.toQ (Flask.plateforme c) + Dec.toQ (Flask.commerciale c)
        + Dec.toQ (Flask.partenaire c) + Dec.toQ (Flask.freelance c)
        - Dec.toQ montant <= 2 # 100)%Q.
Proof.
  intros Hm Hcom Hpar.
  assert (B5 : Dec.bounded 3 4 (Dec.mk 5 (-2))) by (split; simpl; lia).
  assert (B2 : Dec.bounded 3 4 (Dec.mk 2 (-2))) by (split; simpl; lia).
  set (rc := Flask.custom_rate
               (option_map Commercial.pourcentage
                  (get_commercial d (some_id commercial_id))) (Dec.mk 5 (-2))).
  set (ra := Flask.custom_rate
               (option_map Partenaire.pourcentage
                  (get_partenaire d (some_id partenaire_id))) (Dec.mk 2 (-2))).
  assert (Brc : Dec.bounded 3 4 rc).
  { apply custom_rate_bounded; [|exact B5].
    destruct (get_commercial d (some_id commercial_id)) as [c|] eqn:E;
      [exact (Hcom c eq_refl) | exact I]. }
  assert (Bra : Dec.bounded 3 4 ra).
  { apply custom_rate_bounded; [|exact B2].
    destruct (get_partenaire d (some_id partenaire_id)) as [p|] eqn:E;
      [exact (Hpar p eq_refl) | exact I]. }
  unfold run, Flask.calculate_commissions, Flask.quantize, bind, query, ret,
    raise, open_session.
  destruct (truthy_id commercial_id), (truthy_id partenaire_id);
    cbn [andb]; run_step; fold rc ra.
  - destruct (flask_split_rounded montant (Dec.mk 8 (-2)) rc ra true true)
      as (p & c & a & f & Hp & Hc & Ha & Hf & H);
      try assumption; try (split; simpl; lia).
    cbv beta iota zeta in Hp, Hc, Ha, Hf.
    rewrite Hp; run_step; rewrite Hc; run_step; rewrite Ha; run_step; rewrite Hf.
    eexists. split; [reflexivity|]. exact (proj2 (proj2 (proj2 (proj2 H)))).
  - destruct (flask_split_rounded montant (Dec.mk 10 (-2)) rc (Dec.mk 2 (-2)) true false)
      as (p & c & a & f & Hp & Hc & Ha & Hf & H);
      try assumption; try (split; simpl; lia).
    cbv beta iota zeta in Hp, Hc, Ha, Hf.
    rewrite Hp; run_step; rewrite Hc; run_step; rewrite Ha; run_step; rewrite Hf.
    eexists. split; [reflexivity|]. exact (proj2 (proj2 (proj2 (proj2 H)))).
  - destruct (flask_split_rounded montant (Dec.mk 13 (-2)) (Dec.mk 5 (-2)) ra false true)
      as (p & c & a & f & Hp & Hc & Ha & Hf & H);
      try assumption; try (split; simpl; lia).
    cbv beta iota zeta in Hp, Hc, Ha, Hf.
    rewrite Hp; run_step; rewrite Hc; run_step; rewrite Ha; run_step; rewrite Hf.
    eexists. split; [reflexivity|]. exact (proj2 (proj2 (proj2 (proj2 H)))).
  - destruct (flask_split_rounded montant (Dec.mk 15 (-2)) (Dec.mk 5 (-2)) (Dec.mk 2 (-2))
                false false)
      as (p & c & a & f & Hp & Hc & Ha & Hf & H);
      try assumption; try (split; simpl; lia).
    cbv beta iota zeta in Hp, Hc, Ha, Hf.
    assert (Heq : a = c) by congruence. subst a.
    rewrite Hp; run_step; rewrite Hc; run_step; rewrite Hf.
    eexists. split; [reflexivity|]. exact (proj2 (proj2 (proj2 (proj2 H)))).
Qed.

Lemma flask_rounding_drift_witness :
  amount_ok (eur 5)
  /\ exists c,
       run (Flask.calculate_commissions (eur 5) (Some 1) None) sample_db
       = (Ok c, sample_db)
       /\ (Dec.toQ (Flask.plateforme c) + Dec.toQ (Flask.commerciale c)
           + Dec.toQ (Flask.partenaire c) + Dec.toQ (Flask.freelance c)
           - Dec.toQ (eur 5) <= 2 # 100)%Q.
Proof.
  assert (A : amount_ok (eur 5)) by (split; simpl; lia).
  assert (C : forall c, get_commercial sample_db (some_id (Some 1)) = Some c ->
                        percentage_ok (Commercial.pourcentage c)).
  { intros c H. injection H as <-. split; simpl; lia. }
  assert (P : forall p, get_partenaire sample_db (some_id None) = Some p ->
                        percentage_ok (Partenaire.pourcentage p)).
  { intros p H. discriminate H. }
  split; [exact A|].
  destruct (flask_rounding_drift (eur 5) (Some 1) None sample_db A C P)
    as (c & Hr & _ & Hu).
  exists c. split; [exact Hr | exact Hu].
Defined.

(** ** [app/routers/sales.py]: the list of sales *)

Lemma column_is_some (column : option Z) (value : Z) :
  FastAPI.column_is column value = true -> column = Some value.
Proof.
  destruct column as [x|]; simpl; [|discriminate].
  intros H. apply Z.eqb_eq in H. now subst.
Qed.

Lemma In_page {A : Type} (n k : nat) (l : list A) (x : A) :
  In x (firstn n (skipn k l)) -> In x l.
Proof.
  intros H.
  rewrite <- (firstn_skipn k l). apply in_or_app. right.
  rewrite <- (firstn_skipn n (skipn k l)). apply in_or_app. now left.
Qed.

(** X23: a caller who is not an admin gets from [get_sales] only sales of
    their own: the call succeeds only for the role freelance, every sale of
    the page is a stored sale whose user_id is the caller's id, whatever the
    filters (the freelance_id filter is ignored), and nothing is written. *)
Theorem get_sales_own_only (order_by_date_desc : list Vente.t -> list Vente.t)
  (skip limit : Z) (status : option StatutPaiement)
  (freelance_id client_id : option Z) (current_user : User.t) (d d' : DB)
  (page : FastAPI.SalesPage.t) :
  (forall l, Permutation (order_by_date_desc l) l) ->
  User.role current_user <> "admin" ->
  run (FastAPI.get_sales order_by_date_desc skip limit status freelance_id
         client_id current_user) d = (Ok page, d') ->
  d' = d
  /\ User.role current_user = "freelance"
  /\ forall v, In v (FastAPI.SalesPage.ventes page) ->
               In v (ventes d)
               /\ Vente.user_id v = Some (User.id current_user).
Proof.
  intros Hperm Hrole.
  unfold run, FastAPI.get_sales, bind, query, ret, raise, open_session.
  destruct ((0 <=? skip) && (1 <=? limit) && (limit <=? 100)); [|discriminate].
  run_step.
  destruct (String.eqb_spec (User.role current_user) "admin") as [|_];
    [contradiction|].
  destruct (String.eqb_spec (User.role current_user) "freelance") as [Hf|_];
    [|discriminate].
  run_step. rewrite andb_false_r.
  match goal with
  | |- context [forallb FastAPI.response_valid ?l] =>
      set (sales := l); destruct (forallb FastAPI.response_valid sales)
  end; [|discriminate].
  intros H. inversion H; subst page d'. clear H.
  split; [reflexivity|]. split; [exact Hf|].
  cbn [FastAPI.SalesPage.ventes]. intros v Hv.
  apply In_page in Hv.
  apply (Permutation_in _ (Hperm _)) in Hv.
  apply filter_In in Hv. destruct Hv as [Hin Hv]. split; [exact Hin|].
  repeat (apply andb_prop in Hv; destruct Hv as [Hv _]).
  now apply column_is_some.
Qed.

Lemma get_sales_own_only_witness :
  run (FastAPI.get_sales (fun l => l) 0 100 None (Some 2) None freelancer_1)
      (sample_db_with Paye)
  = (Ok (FastAPI.SalesPage.mk [sample_sale 1 Paye] 1 1 100), sample_db_with Paye)
  /\ forall v, In v [sample_sale 1 Paye] -> Vente.user_id v = Some 1.
Proof.
  assert (H : run (FastAPI.get_sales (fun l => l) 0 100 None (Some 2) None
                     freelancer_1) (sample_db_with Paye)
              = (Ok (FastAPI.SalesPage.mk [sample_sale 1 Paye] 1 1 100),
                 sample_db_with Paye)) by (vm_compute; reflexivity).
  assert (R : User.role freelancer_1 <> "admin") by discriminate.
  split; [exact H|]. intros v Hv.
  exact (proj2 (proj2 (proj2
           (get_sales_own_only (fun l => l) 0 100 None (Some 2) None freelancer_1
              (sample_db_with Paye) (sample_db_with Paye)
              (FastAPI.SalesPage.mk [sample_sale 1 Paye] 1 1 100)
              (fun l => Permutation_refl l) R H)) v Hv)).
Defined.

(** X24: a page [get_sales] returns was asked with skip >= 0 and a limit
    from 1 to 100, repeats the limit as its size, is numbered
    skip // limit + 1, and holds min(limit, max(0, total - skip)) sales,
    total being the count of all the sales that match: never more than the
    limit, and none when the offset is past the total. *)
Theorem get_sales_page_size (order_by_date_desc : list Vente.t -> list Vente.t)
  (skip limit : Z) (status : option StatutPaiement)
  (freelance_id client_id : option Z) (current_user : User.t) (d d' : DB)
  (page : FastAPI.SalesPage.t) :
  (forall l, Permutation (order_by_date_desc l) l) ->
  run (FastAPI.get_sales order_by_date_desc skip limit status freelance_id
         client_id current_user) d = (Ok page, d') ->
  0 <= skip /\ 1 <= limit <= 100
  /\ FastAPI.SalesPage.size page = limit
  /\ FastAPI.SalesPage.page page = skip / limit + 1
  /\ Z.of_nat (List.length (FastAPI.SalesPage.ventes page))
     = Z.min limit (Z.max 0 (FastAPI.SalesPage.total page - skip)).
Proof.
  intros Hperm.
  unfold run, FastAPI.get_sales, bind, query, ret, raise, open_session.
  destruct (Z.leb_spec 0 skip) as [H0|]; cbn [andb]; [|discriminate].
  destruct (Z.leb_spec 1 limit) as [H1|]; cbn [andb]; [|discriminate].
  destruct (Z.leb_spec limit 100) as [H100|]; [|discriminate].
  run_step.
  match goal with
  | |- context [let (r, s') := ?X ?s in _] =>
      assert (Hx : (exists g, X s = (Ok g, s)) \/ (exists e, X s = (Raise e, s)))
        by (destruct (String.eqb _ "admin");
            [|destruct (String.eqb _ "freelance")]; eauto)
  end.
  destruct Hx as [[g ->]|[e ->]]; [|discriminate].
  run_step.
  match goal with
  | |- context [forallb FastAPI.response_valid ?l] =>
      set (sales := l); destruct (forallb FastAPI.response_valid sales)
  end; [|discriminate].
  intros H. inversion H; subst page d'. clear H.
  cbn [FastAPI.SalesPage.ventes FastAPI.SalesPage.total FastAPI.SalesPage.size
       FastAPI.SalesPage.page].
  destruct (Z.ltb_spec 0 limit); [|lia].
  repeat (split; [lia || reflexivity|]).
  unfold sales. rewrite length_firstn, length_skipn.
  rewrite (Permutation_length (Hperm _)). lia.
Qed.

Lemma get_sales_page_size_witness :
  run (FastAPI.get_sales (fun l => l) 5 10 None None None admin_2)
      (sample_db_with Paye)
  = (Ok (FastAPI.SalesPage.mk [] 1 1 10), sample_db_with Paye)
  /\ Z.of_nat (List.length (@nil Vente.t)) = Z.min 10 (Z.max 0 (1 - 5)).
Proof.
  assert (H : run (FastAPI.get_sales (fun l => l) 5 10 None None None admin_2)
                  (sample_db_with Paye)
              = (Ok (FastAPI.SalesPage.mk [] 1 1 10), sample_db_with Paye))
    by (vm_compute; reflexivity).
  split; [exact H|].
  exact (proj2 (proj2 (proj2 (proj2
           (get_sales_page_size (fun l => l) 5 10 None None None admin_2
              (sample_db_with Paye) (sample_db_with Paye)
              (FastAPI.SalesPage.mk [] 1 1 10)
              (fun l => Permutation_refl l) H))))).
Defined.

(** ** [app/routers/stripe.py]: the checkout route, and a payment without
    referrer *)

(** X25: [POST /stripe/checkout-session] has the defect of the payment
    intent route: on a request that passes the checks and names a
    commercial it stops on the name [Commercial], with a partner and no
    commercial on [Partenaire]; no checkout session is asked for and nothing
    is written. *)
Theorem checkout_with_referrer
  (checkout_session_create :
     string -> Z -> string -> string -> Z -> string -> Metadata
     -> Res (string * string))
  (data : FastAPI.CheckoutRequest.t) (d : DB)
  (amount : Dec.t) (f p c : Z) (success_url cancel_url : string)
  (freelancer : User.t) (product : Produit.t) (client : Client.t) :
  FastAPI.CheckoutRequest.amount data = Some amount ->
  FastAPI.CheckoutRequest.freelance_id data = Some f ->
  FastAPI.CheckoutRequest.product_id data = Some p ->
  FastAPI.CheckoutRequest.client_id data = Some c ->
  FastAPI.CheckoutRequest.success_url data = Some success_url ->
  FastAPI.CheckoutRequest.cancel_url data = Some cancel_url ->
  get_user d f = Some freelancer ->
  nonempty_string (User.stripe_account_id freelancer) = true ->
  get_produit d p = Some product ->
  get_client d c = Some client ->
  (truthy_id (FastAPI.CheckoutRequest.commercial_id data) = true ->
   run (FastAPI.create_stripe_checkout checkout_session_create data) d
   = (Raise (NameError "Commercial"), d))
  /\ (truthy_id (FastAPI.CheckoutRequest.commercial_id data) = false ->
      truthy_id (FastAPI.CheckoutRequest.partenaire_id data) = true ->
      run (FastAPI.create_stripe_checkout checkout_session_create data) d
      = (Raise (NameError "Partenaire"), d)).
Proof.
  intros Ha Hf Hp Hc Hs Hn Hu Hacc Hpr Hcl.
  unfold run, FastAPI.create_stripe_checkout.
  rewrite Ha, Hf, Hp, Hc, Hs, Hn.
  unfold bind, query, ret, raise, open_session. run_step.
  rewrite Hu, Hacc. cbn [negb]. run_step. rewrite Hpr. run_step. rewrite Hcl.
  run_step.
  split.
  - intros ->. reflexivity.
  - intros -> ->. reflexivity.
Qed.

Lemma checkout_with_referrer_witness :
  truthy_id (Some 1) = true
  /\ run (FastAPI.create_stripe_checkout
            (fun _ _ _ _ _ _ _ => Ok ("cs_1", "https://checkout"))
            (sample_checkout_request None (Some 1))) sample_db
     = (Raise (NameError "Partenaire"), sample_db).
Proof.
  split; [reflexivity|].
  exact (proj2 (checkout_with_referrer
                  (fun _ _ _ _ _ _ _ => Ok ("cs_1", "https://checkout"))
                  (sample_checkout_request None (Some 1)) sample_db
                  (eur 10000) 1 1 1 "https://ok" "https://no"
                  freelancer_1 (Produit.mk 1 "site" true)
                  (Client.mk 1 None None)
                  eq_refl eq_refl eq_refl eq_refl eq_refl eq_refl
                  eq_refl eq_refl eq_refl eq_refl)
               eq_refl eq_refl).
Defined.


Lemma total_fees_sum (amount discount : Dec.t) (cr pr : option Dec.t) :
  let c := FastAPI.calculate_commissions_with_partners amount discount cr pr in
  FastAPI.total_fees c
  = Dec.add (Dec.add (FastAPI.platform_fee c) (FastAPI.commercial_commission c))
            (FastAPI.partner_commission c).
Proof.
  unfold FastAPI.calculate_commissions_with_partners. cbv zeta.
  cbn [FastAPI.total_fees FastAPI.platform_fee FastAPI.commercial_commission
       FastAPI.partner_commission].
  reflexivity.
Qed.

(** X26: [POST /stripe/payment-intent] on a request that passes the checks
    and names no referrer, with an amount and a discount below 10^12 with at
    most four places: the route writes nothing and answers what
    [create_payment_intent] answers for the amount, the freelancer's
    account, the metadata of the request, and an application fee that is
    10% of the amount less the discount. *)
Theorem payment_intent_direct
  (payment_intent_create :
     Z -> string -> Z -> string -> Metadata -> bool -> Res (string * string))
  (data : FastAPI.PaymentRequest.t) (d : DB)
  (amount : Dec.t) (f p c : Z) (freelancer : User.t) (product : Produit.t)
  (client : Client.t) (account : string) :
  FastAPI.PaymentRequest.amount data = Some amount ->
  FastAPI.PaymentRequest.freelance_id data = Some f ->
  FastAPI.PaymentRequest.product_id data = Some p ->
  FastAPI.PaymentRequest.client_id data = Some c ->
  get_user d f = Some freelancer ->
  User.stripe_account_id freelancer = Some account -> account <> "" ->
  get_produit d p = Some product ->
  get_client d c = Some client ->
  truthy_id (FastAPI.PaymentRequest.commercial_id data) = false ->
  truthy_id (FastAPI.PaymentRequest.partenaire_id data) = false ->
  let discount := match FastAPI.PaymentRequest.discount data with
                  | Some x => x
                  | None => Dec.zero_0
                  end in
  amount_ok amount -> amount_ok discount ->
  exists fee,
    (Dec.toQ fee == (Dec.toQ amount - Dec.toQ discount) * (1 # 10))%Q
    /\ run (FastAPI.create_stripe_payment_intent payment_intent_create data) d
       = (FastAPI.create_payment_intent payment_intent_create amount account fee
            (FastAPI.payment_metadata freelancer product client
               (FastAPI.PaymentRequest.commercial_id data)
               (FastAPI.PaymentRequest.partenaire_id data)), d).
Proof.
  intros Ha Hf Hp Hc Hu Hacc Hne Hpr Hcl Hnc Hnp discount Hamt Hdis.
  exists (FastAPI.total_fees
            (FastAPI.calculate_commissions_with_partners amount discount None None)).
  split.
  - destruct (components_spec amount discount None None Hamt Hdis I I)
      as (_ & _ & _ & Ht & _).
    rewrite Ht. unfold rate_value; cbn [FastAPI.rate_given]. ring.
  - unfold run, FastAPI.create_stripe_payment_intent.
    rewrite Ha, Hf, Hp, Hc.
    unfold bind, query, ret, raise, lift_res, open_session. run_step.
    rewrite Hu. run_step.
    assert (Hn : nonempty_string (User.stripe_account_id freelancer) = true).
    { rewrite Hacc. cbn [nonempty_string].
      destruct (String.eqb_spec account ""); [contradiction | reflexivity]. }
    rewrite Hn. cbn [negb]. run_step. rewrite Hpr. run_step. rewrite Hcl.
    run_step. rewrite Hnc, Hnp. run_step. rewrite Hacc.
    rewrite total_fees_sum. reflexivity.
Qed.

Lemma payment_intent_direct_witness :
  amount_ok (eur 10000)
  /\ exists fee,
       (Dec.toQ fee == (Dec.toQ (eur 10000) - Dec.toQ Dec.zero_0) * (1 # 10))%Q
       /\ run (FastAPI.create_stripe_payment_intent
                 (fun _ _ _ _ _ _ => Ok ("secret", "pi_1"))
                 (sample_payment_request None None)) sample_db
          = (FastAPI.create_payment_intent
               (fun _ _ _ _ _ _ => Ok ("secret", "pi_1"))
               (eur 10000) "acct_1" fee
               (FastAPI.payment_metadata freelancer_1 (Produit.mk 1 "site" true)
                  (Client.mk 1 None None) None None), sample_db).
Proof.
  assert (A : amount_ok (eur 10000)) by (split; simpl; lia).
  assert (Z0 : amount_ok Dec.zero_0) by (split; simpl; lia).
  assert (N : "acct_1" <> "") by discriminate.
  split; [exact A|].
  exact (payment_intent_direct (fun _ _ _ _ _ _ => Ok ("secret", "pi_1"))
           (sample_payment_request None None) sample_db (eur 10000) 1 1 1
           freelancer_1 (Produit.mk 1 "site" true) (Client.mk 1 None None)
           "acct_1" eq_refl eq_refl eq_refl eq_refl eq_refl eq_refl N
           eq_refl eq_refl eq_refl eq_refl A Z0).
Defined.
